(** * Fantasy-football weekly report: adapter normalisation and report awards

    A shallow embedding of the parts of
    [ffmwr/dao/platforms/fleaflicker.py] (FleaflickerPlatform.map_data_to_base)
    and [ffmwr/report/data.py] (ReportData.__init__) that compute the weekly
    medians, the cumulative median records, the week windows, the
    week-bucketed transactions and the transaction awards.

    Conventions.
    - Python [int] is [Z]; a Python [float] is modelled by its exact value,
      a rational ([Qc]); the median of a week is computed with the binary64
      rounding of float arithmetic ([Stats.fl]), the other sums and
      differences of points are exact; infinities and NaN are outside the
      model.
    - Payloads returned by the platform are JSON values ([json]); [dict.get],
      truthiness, [float], [int] and [str] are the Python operations on them,
      with the exceptions they raise made explicit in the [res] monad.
    - Python dictionaries used as maps are [gmap]s; week keys are the decimal
      strings [str(wk)], written [pretty wk]. *)

From Stdlib Require Import ZArith QArith Qcanon Qround Lqa.
From stdpp Require Import sorting base option strings list gmap pretty numbers.

Set Warnings "-register-all".

Local Open Scope Z_scope.

(** ** Python values and builtins *)

Module Py.

Inductive json : Type :=
| JNull
| JBool (b : bool)
| JInt (z : Z)
| JFloat (q : Qc)
| JStr (s : string)
| JList (l : list json)
| JObj (kv : list (string * json)).

Inductive exn : Type :=
| AttributeError | TypeError | ValueError | KeyError | IndexError.

Inductive res (A : Type) : Type :=
| Ok (a : A)
| Raise (e : exn).
Arguments Ok {A} a.
Arguments Raise {A} e.

#[global] Instance res_ret : MRet res := λ A a, Ok a.
#[global] Instance res_bind : MBind res := λ A B f m,
  match m with Ok a => f a | Raise e => Raise e end.
#[global] Instance res_fmap : FMap res := λ A B f m,
  match m with Ok a => Ok (f a) | Raise e => Raise e end.

(** [try: m  except Exception: h] *)
Definition catch {A} (m : res A) (h : A) : A :=
  match m with Ok a => a | Raise _ => h end.

(** [try: m  except (TypeError, ValueError): h]; other exceptions propagate. *)
Definition catch_type_value {A} (m : res A) (h : A) : res A :=
  match m with
  | Ok a => Ok a
  | Raise TypeError | Raise ValueError => Ok h
  | Raise e => Raise e
  end.

(** Builtins whose full definition is Python's own: parsing a string as a
    float or an int, and [str] of floats, lists and dicts. *)
Class Builtins := {
  str_to_float : string → option Qc;
  str_to_int : string → option Z;
  str_other : json → string;
}.

(** [bool(v)] *)
Definition truthy (v : json) : bool :=
  match v with
  | JNull => false
  | JBool b => b
  | JInt z => negb (z =? 0)
  | JFloat q => negb (bool_decide (q = 0%Qc))
  | JStr s => negb (String.eqb s "")
  | JList l => match l with [] => false | _ => true end
  | JObj kv => match kv with [] => false | _ => true end
  end.

(** [a or b] *)
Definition py_or (a b : json) : json := if truthy a then a else b.

Fixpoint assoc (kv : list (string * json)) (k : string) : option json :=
  match kv with
  | [] => None
  | (k', v) :: kv' => if String.eqb k' k then Some v else assoc kv' k
  end.

(** [v.get(k)]: only dicts have [get]. *)
Definition get (v : json) (k : string) : res json :=
  match v with
  | JObj kv => Ok (default JNull (assoc kv k))
  | _ => Raise AttributeError
  end.

(** [v.get(k, d)]: the default is used only when the key is missing. *)
Definition get_default (v : json) (k : string) (d : json) : res json :=
  match v with
  | JObj kv => Ok (default d (assoc kv k))
  | _ => Raise AttributeError
  end.

Definition is_dict (v : json) : bool :=
  match v with JObj _ => true | _ => false end.

Definition is_none (v : json) : bool :=
  match v with JNull => true | _ => false end.

(** [for x in v]: a list yields its items.  Numbers, booleans and [None] are
    not iterable; a non-empty string or dict would yield strings, on which
    the loops below call [.get] first thing, so every loop over a value that
    is not a list raises before it changes anything (empty strings and dicts
    yield nothing). *)
Definition iter (v : json) : res (list json) :=
  match v with
  | JList l => Ok l
  | JStr "" | JObj [] => Ok []
  | JStr _ | JObj _ => Raise AttributeError
  | _ => Raise TypeError
  end.

(** [v[0]] *)
Definition index0 (v : json) : res json :=
  match v with
  | JList (x :: _) => Ok x
  | JList [] => Raise IndexError
  | JStr (String c _) => Ok (JStr (String c ""))
  | JStr "" => Raise IndexError
  | JObj _ => Raise KeyError
  | _ => Raise TypeError
  end.

(** [for x in v] where the items are only passed to [str]: a string yields
    its characters and a dict its keys. *)
Fixpoint chars (s : string) : list json :=
  match s with
  | EmptyString => []
  | String c s' => JStr (String c "") :: chars s'
  end.

Definition iter_any (v : json) : res (list json) :=
  match v with
  | JList l => Ok l
  | JStr s => Ok (chars s)
  | JObj kv => Ok (JStr <$> kv.*1)
  | _ => Raise TypeError
  end.

(** Truncation toward zero, [int(x)] on a float. *)
Definition trunc (q : Qc) : Z := Z.quot (Qnum q) (Zpos (Qden q)).

Definition bool_to_Z (b : bool) : Z := if b then 1 else 0.

Section builtins.
Context `{!Builtins}.

  (** [float(v)] *)
Definition py_float (v : json) : res Qc :=
    match v with
    | JBool b => Ok (Qc_of_Z (bool_to_Z b))
    | JInt z => Ok (Qc_of_Z z)
    | JFloat q => Ok q
    | JStr s => match str_to_float s with Some q => Ok q | None => Raise ValueError end
    | JNull | JList _ | JObj _ => Raise TypeError
    end.

  (** [int(v)] *)
Definition py_int (v : json) : res Z :=
    match v with
    | JBool b => Ok (bool_to_Z b)
    | JInt z => Ok z
    | JFloat q => Ok (trunc q)
    | JStr s => match str_to_int s with Some z => Ok z | None => Raise ValueError end
    | JNull | JList _ | JObj _ => Raise TypeError
    end.

  (** [int(float(v))] *)
Definition py_int_float (v : json) : res Z := trunc <$> py_float v.

  (** [str(v)] *)
Definition py_str (v : json) : string :=
    match v with
    | JNull => "None"
    | JBool true => "True"
    | JBool false => "False"
    | JInt z => pretty z
    | JStr s => s
    | _ => str_other v
    end.
End builtins.

(** [needle in hay] for strings. *)
Fixpoint substr_in (needle hay : string) : bool :=
  if String.prefix needle hay then true
  else match hay with
       | EmptyString => false
       | String _ hay' => substr_in needle hay'
       end.

Definition is_str (s : string) (v : json) : bool :=
  match v with JStr s' => String.eqb s s' | _ => false end.

(** [s in v] where [s] is a string literal: substring of a string, member of
    a list, key of a dict; anything else is not a container. *)
Definition str_in (s : string) (v : json) : res bool :=
  match v with
  | JStr hay => Ok (substr_in s hay)
  | JList l => Ok (existsb (is_str s) l)
  | JObj kv => Ok (bool_decide (is_Some (assoc kv s)))
  | _ => Raise TypeError
  end.

(** [sorted(l, key=...)]: Python's sort is stable.  [le x y] says that [x]
    may stay in front of [y]; an element is inserted in front of the first
    element it may stay in front of. *)
Section sorting.
Context {A : Type} (le : A → A → bool).

Fixpoint insert_sorted (x : A) (l : list A) : list A :=
    match l with
    | [] => [x]
    | y :: l' => if le x y then x :: y :: l' else y :: insert_sorted x l'
    end.

Fixpoint sorted (l : list A) : list A :=
    match l with
    | [] => []
    | x :: l' => insert_sorted x (sorted l')
    end.
End sorting.

End Py.

Import Py.

(** ** Week windows (fleaflicker.py, lines 156-198 and 308-323) *)

Module WeekWindow.

(** [8 * 24 * 60 * 60 * 1000] *)
Definition eight_days_ms : Z := 8 * 24 * 60 * 60 * 1000.

(** [sorted(week_start_ts.keys())] *)
Definition sorted_weeks (week_start_ts : gmap Z Z) : list Z :=
  sorted Z.leb (elements (dom week_start_ts)).

(** The loop of [_map_epoch] over [enumerate(sorted_weeks)], from position
    [i] on: [ws] is [sorted_weeks[i:]], so that [sorted_weeks[i + 1]] is the
    head of its tail.  [week_start_ts[w]] cannot raise: [w] is a key. *)
Fixpoint map_epoch_scan (week_start_ts : gmap Z Z) (ws : list Z) (ts_ms : Z)
  : option Z :=
  match ws with
  | [] => None
  | w :: rest =>
      let start := week_start_ts !!! w in
      let end_ :=
        match rest with
        | w' :: _ => week_start_ts !!! w' - 1
        | [] => start + eight_days_ms
        end in
      if bool_decide (start ≤ ts_ms ≤ end_) then Some w
      else map_epoch_scan week_start_ts rest ts_ms
  end.

Definition _map_epoch (week_start_ts : gmap Z Z) (ts_ms : Z) : option Z :=
  map_epoch_scan week_start_ts (sorted_weeks week_start_ts) ts_ms.

(** The window of position [i] of a list of weeks, as the specification
    describes it. *)
Definition window_start (week_start_ts : gmap Z Z) (ws : list Z) (i : nat) : Z :=
  week_start_ts !!! (ws !!! i).

Definition window_end (week_start_ts : gmap Z Z) (ws : list Z) (i : nat) : Z :=
  match ws !! S i with
  | Some w' => week_start_ts !!! w' - 1
  | None => window_start week_start_ts ws i + eight_days_ms
  end.

Definition in_window (week_start_ts : gmap Z Z) (ws : list Z) (i : nat) (ts : Z)
  : Prop :=
  window_start week_start_ts ws i ≤ ts ≤ window_end week_start_ts ws i.

End WeekWindow.

(** ** Floats, [statistics.median] and [round(x, 2)] *)

Module Stats.

Definition Qc_leb (x y : Qc) : bool := bool_decide (x ≤ y)%Qc.

(** [sum(l)] *)
Definition py_sum (l : list Qc) : Qc := foldl Qcplus 0%Qc l.

(** Rounding to the nearest integer, ties to the even one. *)
Definition round_half_even (q : Qc) : Z :=
  let f := Qfloor q in
  let r := (q - Qc_of_Z f)%Qc in
  let half := (1 / Qc_of_Z 2)%Qc in
  if bool_decide (r < half)%Qc then f
  else if bool_decide (half < r)%Qc then f + 1
  else if Z.even f then f else f + 1.

(** The value printed by [f"{q:.2f}"]: [q] rounded to two decimals, ties to
    the even last digit. *)
Definition round2 (q : Qc) : Qc :=
  (Qc_of_Z (round_half_even (q * Qc_of_Z 100)) / Qc_of_Z 100)%Qc.

(** *** Binary64 arithmetic

    A Python float is a binary64 number, modelled by its exact value.  The
    result of an operation on floats is the float nearest to the exact
    result, a tie going to the float with the even mantissa; [fl] is that
    rounding.  Overflow to infinity is outside the model. *)

(** [2 ** e] *)
Definition pow2 (e : Z) : Qc :=
  if 0 <=? e then Qc_of_Z (2 ^ e) else (/ Qc_of_Z (2 ^ (- e)))%Qc.

Definition Qc_abs (q : Qc) : Qc := if bool_decide (q < 0)%Qc then (- q)%Qc else q.

(** The exponent of the leading bit of [q > 0]: [2 ** k ≤ q < 2 ** (k + 1)]. *)
Definition Qc_log2 (q : Qc) : Z :=
  let k := Z.log2 (Qnum q) - Z.log2 (Zpos (Qden q)) in
  if bool_decide (pow2 k ≤ q)%Qc then k else k - 1.

(** The exponent of the last bit of the mantissa of the float nearest to
    [q]: 52 bits below the leading bit, and never below that of the
    subnormal numbers. *)
Definition ulp_exp (q : Qc) : Z := Z.max (-1074) (Qc_log2 (Qc_abs q) - 52).

Definition fl (q : Qc) : Qc :=
  if bool_decide (q = 0%Qc) then 0%Qc
  else
    let e := ulp_exp q in
    (Qc_of_Z (round_half_even (q / pow2 e)) * pow2 e)%Qc.

(** A binary64 number: a mantissa of at most 53 bits at an exponent of at
    least -1074. *)
Definition binary64 (q : Qc) : Prop :=
  ∃ m e : Z, Z.abs m < 2 ^ 53 ∧ -1074 ≤ e ∧ q = (Qc_of_Z m * pow2 e)%Qc.

(** [x + y] and [x / 2] on floats. *)
Definition float_add (x y : Qc) : Qc := fl (x + y).
Definition float_half (x : Qc) : Qc := fl (x / Qc_of_Z 2).

(** [round(x, 2)] on a float: the float nearest to the decimal that has the
    two decimals of [x] rounded. *)
Definition py_round2 (x : Qc) : Qc := fl (round2 x).

(** [statistics.median(data)]: the middle element of the sorted data, or
    [(lo + hi) / 2] for the two middle elements; [None] stands for the
    StatisticsError raised on empty data. *)
Definition median (data : list Qc) : option Qc :=
  let data := sorted Qc_leb data in
  let n := length data in
  if bool_decide (n = 0%nat) then None
  else if Nat.odd n then data !! (n / 2)%nat
  else
    let i := (n / 2)%nat in
    lo ← data !! (i - 1)%nat;
    hi ← data !! i;
    Some (float_half (float_add lo hi)).

(** The statistical median of a data set of floats: the middle value of the
    data in ascending order, or the mean of the two middle values, computed
    on floats. *)
Definition is_statistical_median (data : list Qc) (m : Qc) : Prop :=
  ∃ ascending : list Qc,
    ascending ≡ₚ data ∧ StronglySorted Qcle ascending ∧
    let n := length data in
    if Nat.odd n then ascending !! (n / 2)%nat = Some m
    else ∃ lo hi : Qc,
        ascending !! (n / 2 - 1)%nat = Some lo ∧
        ascending !! (n / 2)%nat = Some hi ∧
        m = float_half (float_add lo hi).

End Stats.

Import Stats.

(** ** The base model (ffmwr/models/base/model.py) *)

Module Model.

(** Modelled from the spec: the BaseRecord class of
    ffmwr/models/base/model.py, which is not under src/.  The specification
    (section 3, Record; section 4.4) gives it wins, losses, ties, points-for
    and points-against, changed through explicit add-operations; a fresh
    record counts nothing.  Percentage, streak and rank play no part in the
    median fold and are not modelled. *)
Record BaseRecord : Type := {
  wins : Z;
  losses : Z;
  ties : Z;
  points_for : Qc;
  points_against : Qc;
}.

Definition new_record : BaseRecord :=
  {| wins := 0; losses := 0; ties := 0; points_for := 0%Qc; points_against := 0%Qc |}.

Definition get_points_against (r : BaseRecord) : Qc := points_against r.

Definition add_points_for (r : BaseRecord) (points : Qc) : BaseRecord :=
  {| wins := wins r; losses := losses r; ties := ties r;
     points_for := (points_for r + points)%Qc; points_against := points_against r |}.

Definition add_points_against (r : BaseRecord) (points : Qc) : BaseRecord :=
  {| wins := wins r; losses := losses r; ties := ties r;
     points_for := points_for r; points_against := (points_against r + points)%Qc |}.

Definition add_win (r : BaseRecord) : BaseRecord :=
  {| wins := wins r + 1; losses := losses r; ties := ties r;
     points_for := points_for r; points_against := points_against r |}.

Definition add_loss (r : BaseRecord) : BaseRecord :=
  {| wins := wins r; losses := losses r + 1; ties := ties r;
     points_for := points_for r; points_against := points_against r |}.

Definition add_tie (r : BaseRecord) : BaseRecord :=
  {| wins := wins r; losses := losses r; ties := ties r + 1;
     points_for := points_for r; points_against := points_against r |}.

(** Modelled from the spec: the BasePlayer and BaseTeam classes of
    ffmwr/models/base/model.py, which is not under src/, with the attributes
    that the report reads (specification, section 3).  [player_id] is the id
    as the platform gave it, an int or a string; [points] is a float;
    [full_name] and [selected_position] may be [None]. *)
Record BasePlayer : Type := {
  player_id : Z + string;
  full_name : option string;
  points : Qc;
  selected_position : option string;
}.

Record BaseTeam : Type := {
  team_id : string;
  name : string;
  manager_str : string;
  roster : list BasePlayer;
}.

End Model.

Import Model.

(** ** The platform adapter (FleaflickerPlatform.map_data_to_base) *)

Module Fleaflicker.

Import WeekWindow.

(** [range(a, b)] *)
Definition py_range (a b : Z) : list Z := seqZ a (b - a).

Abbreviation tx_by_week := (gmap string (gmap string (list json))).

Section adapter.
Context `{!Builtins}.

(** [self.start_week], [self.league.week_for_report] and
    [self.league.num_regular_season_weeks]. *)
Context (start_week week_for_report num_regular_season_weeks : Z).

(** The answer of [self.query] to FetchLeagueScoreboard for a scoring period. *)
Context (scoreboard : Z → json).

(** [season_start < datetime.fromtimestamp(epoch_milli / 1000) < season_end],
    which depends on the league season and on the local time zone. *)
Context (in_season : Qc → bool).

(** [self.league.offline]; the per-team transaction cache, by week and team
    id ([None] when the file is missing or does not load); the pages that
    FetchLeagueTransactions serves for a team, in the order they are asked. *)
Context (offline : bool) (cache : Z → string → option json).
Context (team_tx_pages : string → list json).

(** *** Scoreboards and week start timestamps (lines 156-178) *)

(** [matchups_by_week], in insertion order. *)
Definition matchups_by_week : list (string * json) :=
  (λ wk, (pretty wk, scoreboard wk)) <$> py_range start_week (num_regular_season_weeks + 1).

(** Lines 171-178 for one week: the start found in the payload, if any. *)
Definition week_start (payload : json) : res (option Z) :=
  sp ← get_default payload "schedulePeriod" (JObj []);
  low ← get_default sp "low" (JObj []);
  start_ms ← get low "startEpochMilli";
  if truthy start_ms then Some <$> py_int start_ms else Ok None.

Definition week_start_ts : gmap Z Z :=
  foldl (λ m wk, match catch (week_start (scoreboard wk)) None with
                 | Some s => <[wk := s]> m
                 | None => m
                 end)
        ∅ (py_range start_week (num_regular_season_weeks + 1)).

(** *** Weekly medians (lines 200-232) *)

(** Lines 210-216. *)
Definition parse_score (score_obj : json) : res json :=
  if is_dict score_obj then
    s ← get score_obj "score";
    v ← get (py_or s (JObj [])) "value";
    v' ← get score_obj "value";
    f ← get score_obj "formatted";
    Ok (py_or (py_or v v') f)
  else Ok JNull.

(** Lines 207-222 for one side of a game: the score appended, if any. *)
Definition side_score (matchup : json) (key : string) : res (option Qc) :=
  raw ← get matchup (key +:+ "Score");
  parsed ← parse_score (py_or raw (JObj []));
  if is_none parsed then Ok None
  else catch_type_value (Some <$> py_float parsed) None.

(** The loop over the games of a week, [scores] being the list appended to. *)
Fixpoint collect_scores (games : list json) (scores : list Qc) : res (list Qc) :=
  match games with
  | [] => Ok scores
  | matchup :: rest =>
      h ← side_score matchup "home";
      a ← side_score matchup "away";
      collect_scores rest ((scores ++ option_list h) ++ option_list a)
  end.

(** Line 203. *)
Definition week_games (wk : Z) : res (list json) :=
  g ← get (py_or (default JNull (assoc matchups_by_week (pretty wk))) (JObj [])) "games";
  iter (py_or g (JList [])).

(** Line 228. *)
Definition weekly_median (scores : list Qc) : option Qc :=
  match scores with
  | [] => None
  | _ => py_round2 <$> median scores
  end.

Fixpoint medians_loop (weeks : list Z) (median_score_by_week : gmap string (option Qc))
  : res (gmap string (option Qc)) :=
  match weeks with
  | [] => Ok median_score_by_week
  | wk :: rest =>
      games ← week_games wk;
      scores ← collect_scores games [];
      medians_loop rest (<[pretty wk := weekly_median scores]> median_score_by_week)
  end.

Definition median_score_by_week : res (gmap string (option Qc)) :=
  medians_loop
    (py_range start_week (Z.min week_for_report num_regular_season_weeks + 1)) ∅.

(** [d.get(k)] on a dictionary whose values may be [None]. *)
Definition dict_get {V} (d : gmap string (option V)) (k : string) : option V :=
  default None (d !! k).

(** The scores parsed for a week, as the specification counts them: the
    score of the home side and of the away side of every game, each when it
    parses. *)
Definition side_parsed (matchup : json) (key : string) : option Qc :=
  match side_score matchup key with
  | Ok (Some score) => Some score
  | _ => None
  end.

Definition parsed_scores (games : list json) : list Qc :=
  games ≫= λ matchup, omap (side_parsed matchup) ["home"; "away"].

(** The games of a scoreboard payload. *)
Definition payload_games (payload : json) : res (list json) :=
  g ← get (py_or payload (JObj [])) "games";
  iter (py_or g (JList [])).

(** *** Cumulative median records (lines 663-800)

    Of the body of the loop over teams only the statements that read or write
    the median records are kept; the others build the BaseTeam and
    BaseMatchup objects. *)

(** The team id and the points of one side of a game (lines 704-705). *)
Definition team_side (matchup : json) (key : string) : res (string * Qc) :=
  team_data ← get matchup key;
  id ← get team_data "id";
  so ← get_default matchup (key +:+ "Score") (JObj []);
  s ← get_default so "score" (JObj []);
  v ← get_default s "value" (JInt 0);
  points ← py_float v;
  Ok (py_str id, points).

(** Lines 767-779 on the record object. *)
Definition median_record_update (week_median : option Qc) (points : Qc)
    (median_record : BaseRecord) : BaseRecord :=
  match week_median with
  | Some m =>
      let r := add_points_for median_record (points - m)%Qc in
      let r := add_points_against r (get_points_against r * Qc_of_Z (-1) + m)%Qc in
      if bool_decide (m < points)%Qc then add_win r
      else if bool_decide (points < m)%Qc then add_loss r
      else add_tie r
  | None => median_record
  end.

(** Lines 758-781: the record of the team is fetched from
    [league_median_records_by_team], or created and stored there, and then
    changed in place. *)
Definition median_record_step (records : gmap string BaseRecord)
    (week_median : option Qc) (team_id : string) (points : Qc)
  : gmap string BaseRecord :=
  let median_record := default new_record (records !! team_id) in
  <[team_id := median_record_update week_median points median_record]> records.

Fixpoint week_records (week_median : option Qc) (games : list json)
    (records : gmap string BaseRecord) : res (gmap string BaseRecord) :=
  match games with
  | [] => Ok records
  | matchup :: rest =>
      '(home_id, home_points) ← team_side matchup "home";
      '(away_id, away_points) ← team_side matchup "away";
      week_records week_median rest
        (median_record_step
           (median_record_step records week_median home_id home_points)
           week_median away_id away_points)
  end.

(** The loop over [matchups_by_week.items()], in insertion order. *)
Fixpoint records_loop (medians : gmap string (option Qc)) (weeks : list Z)
    (records : gmap string BaseRecord) : res (gmap string BaseRecord) :=
  match weeks with
  | [] => Ok records
  | wk :: rest =>
      g ← get (scoreboard wk) "games";
      games ← iter g;
      records ← week_records (dict_get medians (pretty wk)) games records;
      records_loop medians rest records
  end.

Definition league_median_records_by_team : res (gmap string BaseRecord) :=
  medians ← median_score_by_week;
  records_loop medians (py_range start_week (num_regular_season_weeks + 1)) ∅.

(** *** Transactions by week (lines 265-611) *)

(** Modelled from the spec: [league.transactions_by_week] as BaseLeague
    (ffmwr/models/base/model.py, not under src/) creates it, a mapping from
    week keys to buckets that starts empty. *)
Definition initial_transactions_by_week : tx_by_week := ∅.

(** [{"adds": [], "claims": [], "drops": [], "trades": []}] *)
Definition empty_bucket : gmap string (list json) :=
  <["adds" := []]> (<["claims" := []]> (<["drops" := []]> (<["trades" := []]> ∅))).

(** Lines 265-267. *)
Definition init_transactions (tbw : tx_by_week) : tx_by_week :=
  foldl (λ t wk, <[pretty wk := empty_bucket]> t) tbw
        (py_range start_week (num_regular_season_weeks + 1)).

(** [transactions_by_week[wk_key][kind].append(ev)] *)
Definition append_event (tbw : tx_by_week) (wk_key kind : string) (ev : json)
  : res tx_by_week :=
  match tbw !! wk_key with
  | None => Raise KeyError
  | Some bucket =>
      match bucket !! kind with
      | None => Raise KeyError
      | Some l => Ok (<[wk_key := <[kind := l ++ [ev]]> bucket]> tbw)
      end
  end.

(** [{"team_id": team_id, "player_id": player_id}] *)
Definition move_event (team_id : string) (player_id : json) : json :=
  JObj [("team_id", JStr team_id); ("player_id", player_id)].

(** [int(rg[0].get("period", {}).get("ordinal"))] *)
Definition first_game_ordinal (rg : json) : res Z :=
  g ← index0 rg;
  period ← get_default g "period" (JObj []);
  o ← get period "ordinal";
  py_int o.

(** [bool(s)] for a value that is [None] or a string. *)
Definition str_truthy (s : option string) : bool :=
  match s with Some s => negb (String.eqb s "") | None => false end.

(** [not w] for a value that is [None] or an int. *)
Definition week_falsy (w : option Z) : bool :=
  match w with Some z => z =? 0 | None => true end.

(** Lines 308-341 and 542-565: the platform ordinal checked against the week
    window of the timestamp. *)
Definition resolve_week (week_ord mapped : option Z) : option Z :=
  match week_ord with
  | None => mapped
  | Some o =>
      match mapped with
      | Some m => if bool_decide (m ≠ o) then Some m else Some o
      | None => Some o
      end
  end.

Definition effective_week (week_start_ts : gmap Z Z) (ems : Z) (week_ord : option Z)
  : option Z :=
  if bool_decide (week_start_ts = ∅) then week_ord
  else resolve_week week_ord (_map_epoch week_start_ts ems).

(** The transactions only grow: [tbw'] has the week keys of [tbw], under
    each of them a bucket with the same kinds, and under each kind the list
    of [tbw] followed by what was appended to it. *)
Definition extends (tbw tbw' : tx_by_week) : Prop :=
  dom tbw' = dom tbw ∧
  ∀ (k : string) (b : gmap string (list json)), tbw !! k = Some b →
    ∃ b' : gmap string (list json),
      tbw' !! k = Some b' ∧ dom b' = dom b ∧
      ∀ (kind : string) (l : list json), b !! kind = Some l →
        ∃ l' : list json, b' !! kind = Some (l ++ l').

(** **** League activity (lines 269-379)

    The move and trade counters of [league_transactions_by_team] are not
    modelled: nothing below reads them. *)

(** Lines 296-301. *)
Definition activity_ordinal (player_block : json) : option Z :=
  catch (req_games ← get_default player_block "requestedGames" (JList []);
         if truthy req_games then Some <$> first_game_ordinal req_games
         else Ok None)
        None.

(** Lines 291-306: [pro_player_id] and [week_ord]. *)
Definition activity_player (tx : json) : res (option string * option Z) :=
  player_block ← get tx "player";
  '(pro_player_id, week_ord) ←
    (if truthy player_block then
       pp ← get player_block "proPlayer";
       id ← get (py_or pp (JObj [])) "id";
       Ok (Some (py_str id), activity_ordinal player_block)
     else Ok (None, None));
  players ← get tx "players";
  if negb (str_truthy pro_player_id) && truthy players then
    Ok (catch (p0 ← index0 players;
               pp ← get p0 "proPlayer";
               id ← get (py_or pp (JObj [])) "id";
               Ok (Some (py_str id)))
              None,
        week_ord)
  else Ok (pro_player_id, week_ord).

(** What lines 271-306 read from an activity item that is in season and has a
    transaction. *)
Record activity_info : Type := {
  transaction_type : json;
  a_team_id : string;
  a_pro_player_id : option string;
  a_week_ord : option Z;
  a_ems : Z;
}.

Definition read_activity (activity : json) : res (option activity_info) :=
  t ← get activity "timeEpochMilli";
  epoch_milli ← py_float t;
  if in_season epoch_milli then
    tx ← get activity "transaction";
    if truthy tx then
      ty ← get tx "type";
      let transaction_type := py_or ty (JStr "TRANSACTION_ADD") in
      _ ← str_in "TRADE" transaction_type;
      team ← get tx "team";
      id ← get (py_or team (JObj [])) "id";
      '(pro_player_id, week_ord) ← activity_player tx;
      Ok (Some {| transaction_type := transaction_type;
                  a_team_id := py_str id;
                  a_pro_player_id := pro_player_id;
                  a_week_ord := week_ord;
                  a_ems := trunc epoch_milli |})
    else Ok None
  else Ok None.

(** Lines 352-368. *)
Definition record_activity (tbw : tx_by_week) (week_ord : Z) (info : activity_info)
    (activity : json) : res tx_by_week :=
  if str_truthy (a_pro_player_id info) && negb (String.eqb (a_team_id info) "")
     && bool_decide (is_Some (tbw !! pretty week_ord)) then
    let wk_key := pretty week_ord in
    let ev := move_event (a_team_id info) (JStr (default "" (a_pro_player_id info))) in
    is_drop ← str_in "DROP" (transaction_type info);
    if is_drop : bool then append_event tbw wk_key "drops" ev else
    is_claim ← str_in "CLAIM" (transaction_type info);
    if is_claim : bool then append_event tbw wk_key "claims" ev else
    is_add ← str_in "ADD" (transaction_type info);
    if is_add : bool then append_event tbw wk_key "adds" ev else
    is_trade ← str_in "TRADE" (transaction_type info);
    if is_trade : bool then append_event tbw wk_key "trades" activity else
    Ok tbw
  else Ok tbw.

(** The body of the loop over [activity_items]. *)
Definition activity_step (week_start_ts : gmap Z Z) (tbw : tx_by_week) (activity : json)
  : res tx_by_week :=
  info ← read_activity activity;
  match info with
  | None => Ok tbw
  | Some info =>
      match effective_week week_start_ts (a_ems info) (a_week_ord info) with
      | Some week_ord =>
          if week_ord =? 0 then Ok tbw
          else record_activity tbw week_ord info activity
      | None => Ok tbw
      end
  end.

Fixpoint activities_loop (week_start_ts : gmap Z Z) (activity_items : list json)
    (tbw : tx_by_week) : res tx_by_week :=
  match activity_items with
  | [] => Ok tbw
  | activity :: rest =>
      tbw ← activity_step week_start_ts tbw activity;
      activities_loop week_start_ts rest tbw
  end.

(** **** Completed trades (lines 381-479)

    The whole block runs under one [try]: a function of this part returns the
    transactions reached together with [false] when an exception ended the
    block there. *)

Definition trade_ts_keys : list string :=
  ["approvedOn"; "proposedOn"; "tentative_execution_time"; "executionTimeEpochMilli"].

(** Lines 403-411: the first key whose value is truthy and converts. *)
Fixpoint trade_timestamp (tr : json) (keys : list string) : option Z :=
  match keys with
  | [] => None
  | ts_key :: rest =>
      match (val ← get tr ts_key;
             if truthy val then Some <$> py_int_float val else Ok None) with
      | Ok (Some ts) => Some ts
      | _ => trade_timestamp tr rest
      end
  end.

(** Line 398. *)
Definition earliest_start_ts (week_start_ts : gmap Z Z) : option Z :=
  match (map_to_list week_start_ts).*2 with
  | [] => None
  | s :: l => Some (foldl Z.min s l)
  end.

(** Lines 426-435: the [_map_epoch] of the trades block, which maps a falsy
    timestamp to no week. *)
Definition trade_map_epoch (week_start_ts : gmap Z Z) (ts_ms : Z) : option Z :=
  if ts_ms =? 0 then None else _map_epoch week_start_ts ts_ms.

(** Lines 438-441. *)
Definition requested_start_week (week_start_ts : gmap Z Z) (p : json) : res (option Z) :=
  req_games ← get_default p "requestedGames" (JList []);
  if truthy req_games then
    g ← index0 req_games;
    period ← get_default g "period" (JObj []);
    start_ms ← get period "startEpochMilli";
    if truthy start_ms then trade_map_epoch week_start_ts <$> py_int start_ms
    else Ok None
  else Ok None.

(** Lines 424-453: [week_guess] after one obtained player. *)
Definition player_week_guess (week_start_ts : gmap Z Z) (trade_ts week_guess : option Z)
    (p : json) : option Z :=
  if negb (bool_decide (week_start_ts = ∅))
     && (negb (week_falsy trade_ts) || week_falsy week_guess) then
    let by_trade_ts :=
      match trade_ts with
      | Some ts => if ts =? 0 then None else trade_map_epoch week_start_ts ts
      | None => None
      end in
    match (match by_trade_ts with
           | Some w => Ok (Some w)
           | None => requested_start_week week_start_ts p
           end) with
    | Raise _ => week_guess
    | Ok mapped =>
        let week_guess := match mapped with Some w => Some w | None => week_guess end in
        match week_guess, trade_ts, earliest_start_ts week_start_ts with
        | None, Some ts, Some earliest =>
            if ts <? earliest then Some start_week else week_guess
        | _, _, _ => week_guess
        end
    end
  else week_guess.

(** Lines 419-422: the id appended to [rec_ids] for an obtained player. *)
Definition received_id (p : json) : res (option string) :=
  pp ← get p "proPlayer";
  pid ← get (py_or pp (JObj [])) "id";
  Ok (if is_none pid then None else Some (py_str pid)).

(** Lines 418-453: the loop over the players a team obtained. *)
Fixpoint entry_players (week_start_ts : gmap Z Z) (trade_ts : option Z)
    (players : list json) (rec_ids : list string) (week_guess : option Z)
  : res (list string * option Z) :=
  match players with
  | [] => Ok (rec_ids, week_guess)
  | p :: rest =>
      id ← received_id p;
      entry_players week_start_ts trade_ts rest
        (rec_ids ++ option_list id)
        (player_week_guess week_start_ts trade_ts week_guess p)
  end.

(** The ids that a team received, in the order of its obtained players. *)
Fixpoint received_ids (players : list json) : res (list string) :=
  match players with
  | [] => Ok []
  | p :: rest =>
      id ← received_id p;
      ids ← received_ids rest;
      Ok (option_list id ++ ids)
  end.

(** Line 415. *)
Definition entry_team_id (entry : json) : res string :=
  team ← get entry "team";
  id ← get (py_or team (JObj [])) "id";
  Ok (py_str id).

(** Line 418: [entry.get("playersObtained", []) or []]. *)
Definition obtained_players (entry : json) : res (list json) :=
  po ← get_default entry "playersObtained" (JList []);
  iter (py_or po (JList [])).

(** Lines 454-458: the row kept for a team, if any. *)
Definition kept_row (team_id : string) (rec_ids : list string) (week_guess : option Z)
  : option (string * list string * Z) :=
  match rec_ids, week_guess with
  | _ :: _, Some w =>
      if negb (String.eqb team_id "") && negb (w =? 0)
      then Some (team_id, rec_ids, w) else None
  | _, _ => None
  end.

(** Lines 414-458 for one team of the trade: what is appended to
    [team_received], if anything. *)
Definition entry_received (week_start_ts : gmap Z Z) (trade_ts : option Z) (entry : json)
  : res (option (string * list string * Z)) :=
  team_id ← entry_team_id entry;
  players ← obtained_players entry;
  '(rec_ids, week_guess) ← entry_players week_start_ts trade_ts players [] None;
  Ok (kept_row team_id rec_ids week_guess).

Fixpoint trade_team_received (week_start_ts : gmap Z Z) (trade_ts : option Z)
    (teams : list json) (team_received : list (string * list string * Z))
  : res (list (string * list string * Z)) :=
  match teams with
  | [] => Ok team_received
  | entry :: rest =>
      r ← entry_received week_start_ts trade_ts entry;
      trade_team_received week_start_ts trade_ts rest (team_received ++ option_list r)
  end.

(** Lines 462-466: what every other team received. *)
Definition sent_ids (team_received : list (string * list string * Z)) (idx : nat)
  : list string :=
  concat (imap (λ jdx r, if bool_decide (jdx = idx) then [] else r.1.2) team_received).

(** Lines 470-476. *)
Definition trade_event (team_id : string) (rec_ids sent : list string)
    (trade_ts : option Z) (trade_id : json) : json :=
  JObj [("team_id", JStr team_id);
        ("players_received", JList (JStr <$> rec_ids));
        ("players_sent", JList (JStr <$> sent));
        ("trade_ts", from_option JInt JNull trade_ts);
        ("trade_id", trade_id)].

(** Lines 461-477, from position [idx] on. *)
Fixpoint record_trade (team_received : list (string * list string * Z))
    (trade_ts : option Z) (trade_id : json) (idx : nat)
    (rows : list (string * list string * Z)) (tbw : tx_by_week) : tx_by_week * bool :=
  match rows with
  | [] => (tbw, true)
  | (team_id, rec_ids, week_guess) :: rest =>
      let wk_key := pretty week_guess in
      if bool_decide (is_Some (tbw !! wk_key)) then
        match append_event tbw wk_key "trades"
                (trade_event team_id rec_ids (sent_ids team_received idx) trade_ts trade_id) with
        | Ok tbw => record_trade team_received trade_ts trade_id (S idx) rest tbw
        | Raise _ => (tbw, false)
        end
      else record_trade team_received trade_ts trade_id (S idx) rest tbw
  end.

(** The events that a trade with the kept rows [team_received] adds to the
    trades of the week key [k]. *)
Definition trade_events_for (k : string) (team_received : list (string * list string * Z))
    (trade_ts : option Z) (trade_id : json) : list json :=
  concat (imap (λ idx r,
                  if bool_decide (pretty r.2 = k)
                  then [trade_event r.1.1 r.1.2 (sent_ids team_received idx) trade_ts trade_id]
                  else [])
               team_received).

(** A bucket with events added at the end of its trades. *)
Definition with_trades (evs : list json) (b : gmap string (list json))
  : gmap string (list json) :=
  <["trades" := default [] (b !! "trades") ++ evs]> b.

(** The body of the loop over [trades]. *)
Definition trade_step (week_start_ts : gmap Z Z) (tbw : tx_by_week) (tr : json)
  : tx_by_week * bool :=
  match (teams ← get tr "teams";
         trade_id ← get tr "id";
         entries ← iter (py_or teams (JList []));
         let trade_ts := trade_timestamp tr trade_ts_keys in
         team_received ← trade_team_received week_start_ts trade_ts entries [];
         Ok (trade_ts, trade_id, team_received)) with
  | Ok (trade_ts, trade_id, team_received) =>
      record_trade team_received trade_ts trade_id 0 team_received tbw
  | Raise _ => (tbw, false)
  end.

(** The whole-trade reading of the discard rule, for one trade: when some
    team of the trade received players but has no week for them, the trade
    leaves the transactions as they were. *)
Definition discarded_when_unresolved (week_start_ts : gmap Z Z) (tbw : tx_by_week)
    (tr : json) : Prop :=
  ∀ (teams : json) (entries : list json),
    get tr "teams" = Ok teams → iter (py_or teams (JList [])) = Ok entries →
    (∃ (entry : json) (players : list json) (rec_ids : list string)
       (week_guess : option Z),
       entry ∈ entries ∧
       obtained_players entry = Ok players ∧
       entry_players week_start_ts (trade_timestamp tr trade_ts_keys) players [] None
         = Ok (rec_ids, week_guess) ∧
       rec_ids ≠ [] ∧ week_falsy week_guess = true) →
    (trade_step week_start_ts tbw tr).1 = tbw.

Fixpoint trades_loop (week_start_ts : gmap Z Z) (trades : list json) (tbw : tx_by_week)
  : tx_by_week * bool :=
  match trades with
  | [] => (tbw, true)
  | tr :: rest =>
      let '(tbw, ok) := trade_step week_start_ts tbw tr in
      if ok then trades_loop week_start_ts rest tbw else (tbw, false)
  end.

(** **** Per-team transactions (lines 481-611), also under one [try] *)

(** Lines 572-576. *)
Definition team_kind (ttype : json) : res (option string) :=
  is_drop ← str_in "DROP" ttype;
  if is_drop : bool then Ok (Some "drops") else
  is_claim ← str_in "CLAIM" ttype;
  if is_claim : bool then Ok (Some "claims") else
  is_add ← str_in "ADD" ttype;
  if is_add : bool then Ok (Some "adds") else Ok None.

(** What lines 529-541 read from an item of a page. *)
Record item_info : Type := {
  i_ts : Z;
  i_ttype : json;
  i_pid : json;
  i_wk_ord : option Z;
}.

Definition read_team_item (it : json) : res item_info :=
  t ← get_default it "timeEpochMilli" (JStr "0");
  ts ← py_int_float t;
  tx ← get_default it "transaction" (JObj []);
  ty ← get tx "type";
  pl ← get tx "player";
  let pblock := py_or pl (JObj []) in
  pp ← get pblock "proPlayer";
  pid ← get (py_or pp (JObj [])) "id";
  rg0 ← get pblock "requestedGames";
  let rg := py_or rg0 (JList []) in
  Ok {| i_ts := ts;
        i_ttype := py_or ty (JStr "TRANSACTION_ADD");
        i_pid := pid;
        i_wk_ord := if truthy rg then catch (Some <$> first_game_ordinal rg) None
                    else None |}.

(** Lines 569-589, for an item whose week is [wk_ord]. *)
Definition record_team_item (team_id : string) (tbw : tx_by_week)
    (oldest_ts : option Z) (info : item_info) (wk_ord : Z)
  : res (tx_by_week * option Z) :=
  if (wk_ord <? start_week) || (num_regular_season_weeks <? wk_ord)
  then Ok (tbw, oldest_ts)
  else
    kind ← team_kind (i_ttype info);
    tbw ← match kind with
          | Some kind =>
              if is_none (i_pid info) then Ok tbw
              else append_event tbw (pretty wk_ord) kind
                     (move_event team_id (JStr (py_str (i_pid info))))
          | None => Ok tbw
          end;
    Ok (tbw, Some match oldest_ts with
                  | Some o => if i_ts info <? o then i_ts info else o
                  | None => i_ts info
                  end).

(** Lines 528-589: one item of a page; [oldest_ts] is tracked along. *)
Definition team_item (week_start_ts : gmap Z Z) (team_id : string)
    (tbw : tx_by_week) (oldest_ts : option Z) (it : json)
  : res (tx_by_week * option Z) :=
  info ← read_team_item it;
  match effective_week week_start_ts (i_ts info) (i_wk_ord info) with
  | None => Ok (tbw, oldest_ts)
  | Some wk_ord =>
      if wk_ord =? 0 then Ok (tbw, oldest_ts)
      else record_team_item team_id tbw oldest_ts info wk_ord
  end.

Fixpoint team_items (week_start_ts : gmap Z Z) (team_id : string) (items : list json)
    (tbw : tx_by_week) (oldest_ts : option Z) : tx_by_week * option Z * bool :=
  match items with
  | [] => (tbw, oldest_ts, true)
  | it :: rest =>
      match team_item week_start_ts team_id tbw oldest_ts it with
      | Ok (tbw, oldest_ts) => team_items week_start_ts team_id rest tbw oldest_ts
      | Raise _ => (tbw, oldest_ts, false)
      end
  end.

(** Lines 519-596: the [while True] loop over the pages served; after the
    last page of [pages] nothing more is served. *)
Fixpoint team_pages (week_start_ts : gmap Z Z) (team_id : string) (pages : list json)
    (tbw : tx_by_week) : tx_by_week * bool :=
  match pages with
  | [] => (tbw, true)
  | page :: rest =>
      match (its ← get_default page "items" (JList []);
             if truthy its then
               items ← iter its; next ← get page "resultOffsetNext"; Ok (Some (items, next))
             else Ok None) with
      | Raise _ => (tbw, false)
      | Ok None => (tbw, true)
      | Ok (Some (items, result_offset)) =>
          let '(tbw, oldest_ts, ok) := team_items week_start_ts team_id items tbw None in
          if negb ok then (tbw, false)
          else if negb (truthy result_offset) then (tbw, true)
          else
            match earliest_start_ts week_start_ts, oldest_ts with
            | Some earliest, Some oldest =>
                if negb (earliest =? 0) && negb (oldest =? 0) && (oldest <? earliest)
                then (tbw, true)
                else team_pages week_start_ts team_id rest tbw
            | _, _ => team_pages week_start_ts team_id rest tbw
            end
      end
  end.

(** [ev["kind"]] *)
Definition subscript (v : json) (k : string) : res json :=
  match v with
  | JObj kv => match assoc kv k with Some x => Ok x | None => Raise KeyError end
  | _ => Raise TypeError
  end.

(** Lines 503-506: one cached event hydrated into the league structure. *)
Definition hydrate_event (team_id wk_key : string) (tbw : tx_by_week) (ev : json)
  : res tx_by_week :=
  kind ← subscript ev "kind";
  pid ← get ev "player_id";
  match kind with
  | JStr kind => append_event tbw wk_key kind (move_event team_id pid)
  | _ => Raise KeyError
  end.

Fixpoint hydrate_events (team_id wk_key : string) (evs : list json) (tbw : tx_by_week)
  : tx_by_week * bool :=
  match evs with
  | [] => (tbw, true)
  | ev :: rest =>
      match hydrate_event team_id wk_key tbw ev with
      | Ok tbw => hydrate_events team_id wk_key rest tbw
      | Raise _ => (tbw, false)
      end
  end.

(** Lines 488-507: the cached weeks of a team, in week order. *)
Fixpoint hydrate_weeks (team_id : string) (weeks : list Z) (tbw : tx_by_week)
  : tx_by_week * bool :=
  match weeks with
  | [] => (tbw, true)
  | wk :: rest =>
      match cache wk team_id with
      | None => hydrate_weeks team_id rest tbw
      | Some cached =>
          match iter cached with
          | Raise _ => (tbw, false)
          | Ok evs =>
              let '(tbw, ok) := hydrate_events team_id (pretty wk) evs tbw in
              if ok then hydrate_weeks team_id rest tbw else (tbw, false)
          end
      end
  end.

(** The body of the loop over [ranked_league_teams]. *)
Definition team_step (week_start_ts : gmap Z Z) (tbw : tx_by_week) (tm : json)
  : tx_by_week * bool :=
  match get tm "id" with
  | Raise _ => (tbw, false)
  | Ok id =>
      let team_id := py_str id in
      if offline then
        hydrate_weeks team_id (py_range start_week (week_for_report + 1)) tbw
      else team_pages week_start_ts team_id (team_tx_pages team_id) tbw
  end.

Fixpoint teams_loop (week_start_ts : gmap Z Z) (teams : list json) (tbw : tx_by_week)
  : tx_by_week * bool :=
  match teams with
  | [] => (tbw, true)
  | tm :: rest =>
      let '(tbw, ok) := team_step week_start_ts tbw tm in
      if ok then teams_loop week_start_ts rest tbw else (tbw, false)
  end.

(** Lines 265-611: [league.transactions_by_week] at the end of the run.  An
    exception in the activity loop ends the run; the two blocks after it keep
    what they reached. *)
Definition transactions_by_week (activity_items trades ranked_league_teams : list json)
  : res tx_by_week :=
  let tbw := init_transactions initial_transactions_by_week in
  tbw ← activities_loop week_start_ts activity_items tbw;
  let tbw := (trades_loop week_start_ts trades tbw).1 in
  Ok (teams_loop week_start_ts ranked_league_teams tbw).1.

End adapter.

End Fleaflicker.

(** ** The report data (ReportData.__init__) *)

Module Report.

(** A row of an award table: team name, manager, the player or trade detail,
    and the points, which the code prints with two decimals. *)
Record award_row : Type := {
  row_team : string;
  row_manager : string;
  row_detail : string;
  row_points : Qc;
}.

(** The values interpolated in an honorable-mention note: team name, player
    name and points (printed with two decimals). *)
Record mention : Type := {
  hm_team : string;
  hm_player : string;
  hm_points : Qc;
}.

(** The award attributes of the report that lines 365-594 assign. *)
Record awards : Type := {
  best_fa_pickups : list award_row;
  worst_fa_pickups : list award_row;
  best_fa_pickups_hm : option mention;
  worst_fa_pickups_hm : option mention;
  best_drops : list award_row;
  worst_drops : list award_row;
  best_trades : list award_row;
  worst_trades : list award_row;
}.

(** Lines 116-123. *)
Definition no_awards : awards :=
  {| best_fa_pickups := []; worst_fa_pickups := [];
     best_fa_pickups_hm := None; worst_fa_pickups_hm := None;
     best_drops := []; worst_drops := [];
     best_trades := []; worst_trades := [] |}.

(** A pickup or drop candidate: [(team_id, player_id, points)]. *)
Definition candidate : Type := string * string * Qc.

(** The state of a block that runs under [try]: what has been assigned, and
    [false] once an exception has ended the block. *)
Definition step {S} (f : S → res S) (st : S * bool) : S * bool :=
  if st.2 then
    match f st.1 with
    | Ok s => (s, true)
    | Raise _ => (st.1, false)
    end
  else st.

Definition by_points_desc (x y : candidate) : bool := Qc_leb y.2 x.2.
Definition by_points_asc (x y : candidate) : bool := Qc_leb x.2 y.2.
Definition row_desc (x y : award_row) : bool := Qc_leb (row_points y) (row_points x).
Definition row_asc (x y : award_row) : bool := Qc_leb (row_points x) (row_points y).

(** [", ".join(l)] *)
Fixpoint join_comma (l : list string) : string :=
  match l with
  | [] => ""
  | [x] => x
  | x :: l' => x +:+ ", " +:+ join_comma l'
  end.

(** The em dash of line 584, as its UTF-8 bytes. *)
Definition em_dash : string :=
  String (Ascii.ascii_of_nat 226)
    (String (Ascii.ascii_of_nat 128) (String (Ascii.ascii_of_nat 148) "")).

(** [str(p.player_id)] *)
Definition id_str (pid : Z + string) : string :=
  match pid with inl z => pretty z | inr s => s end.

Section report.
Context `{!Builtins}.

(** [league.start_week]; [league.bench_positions]; the weekly collections of
    the league, [players_by_week] in insertion order. *)
Context (start_week : Z) (bench_positions : list string).
Context (players_by_week : list (string * gmap (Z + string) BasePlayer)).
Context (free_agents_by_week : gmap string (gmap string BasePlayer)).
Context (teams_by_week : gmap string (gmap string BaseTeam)).
Context (transactions_by_week : gmap string (gmap string (list json))).

Fixpoint week_players (l : list (string * gmap (Z + string) BasePlayer)) (k : string)
  : gmap (Z + string) BasePlayer :=
  match l with
  | [] => ∅
  | (k', m) :: l' => if String.eqb k' k then m else week_players l' k
  end.

(** [players.get(pid) or players.get(int(pid))] *)
Definition lookup_player (players : gmap (Z + string) BasePlayer) (pid : string)
  : res (option BasePlayer) :=
  match players !! inr pid with
  | Some bp => Ok (Some bp)
  | None =>
      match str_to_int pid with
      | Some z => Ok (players !! inl z)
      | None => Raise ValueError
      end
  end.

(** [bp and getattr(bp, 'full_name', None)] *)
Definition named (bp : option BasePlayer) : option string :=
  bp ≫= λ bp, match full_name bp with
              | Some n => if String.eqb n "" then None else Some n
              | None => None
              end.

Section week.
(** [int(week_counter)], when it is the report week. *)
Context (curr_week : Z).

(** Lines 367-372. *)
Definition curr_players : gmap (Z + string) BasePlayer :=
  week_players players_by_week (pretty curr_week).
Definition prev_players : gmap (Z + string) BasePlayer :=
  if start_week <? curr_week then week_players players_by_week (pretty (curr_week - 1))
  else ∅.
Definition curr_free_agents : gmap string BasePlayer :=
  default ∅ (free_agents_by_week !! pretty curr_week).
Definition curr_team_objs : gmap string BaseTeam :=
  default ∅ (teams_by_week !! pretty curr_week).
Definition events : gmap string (list json) :=
  default Fleaflicker.empty_bucket (transactions_by_week !! pretty curr_week).

(** [events.get(kind, [])] *)
Definition bucket (kind : string) : list json := default [] (events !! kind).

(** Line 381: [team_rosters[tid].get(pid)]; in the dict comprehension a later
    player with the same id replaces an earlier one. *)
Definition roster_get (tid pid : string) : option BasePlayer :=
  match curr_team_objs !! tid with
  | Some t => list.last (filter (λ p, id_str (player_id p) = pid) (roster t))
  | None => None
  end.

(** Line 414: [team_lookup]. *)
Definition team_lookup (tid : string) : option (string * string) :=
  (λ t, (name t, manager_str t)) <$> curr_team_objs !! tid.

(** [[str(x) for x in tr.get(key, [])]] *)
Definition str_list (tr : json) (key : string) : res (list string) :=
  v ← get_default tr key (JList []);
  l ← iter_any v;
  Ok (py_str <$> (l : list json)).

(** Lines 384-388. *)
Fixpoint trade_received_by_team (trades : list json) (acc : gmap string (gset string))
  : res (gmap string (gset string)) :=
  match trades with
  | [] => Ok acc
  | tr :: rest =>
      t ← get tr "team_id";
      rec_ids ← str_list tr "players_received";
      let ttid := py_str t in
      trade_received_by_team rest
        (<[ttid := default ∅ (acc !! ttid) ∪ list_to_set rec_ids]> acc)
  end.

(** Lines 390-398. *)
Fixpoint fa_candidates_loop (received : gmap string (gset string)) (pickups : list json)
    (fa_candidates : list candidate) : res (list candidate) :=
  match pickups with
  | [] => Ok fa_candidates
  | ev :: rest =>
      t ← get ev "team_id";
      p ← get ev "player_id";
      let tid := py_str t in
      let pid_s := py_str p in
      if bool_decide (pid_s ∈ default ∅ (received !! tid)) then
        fa_candidates_loop received rest fa_candidates
      else
        bp ← lookup_player curr_players pid_s;
        let pts := match bp with Some bp => points bp | None => 0%Qc end in
        fa_candidates_loop received rest (fa_candidates ++ [(tid, pid_s, pts)])
  end.

(** Lines 401-411: the candidate appended for one drop event. *)
Definition drop_candidate (ev : json) : res candidate :=
  t ← get ev "team_id";
  p ← get ev "player_id";
  let tid := py_str t in
  let pid_s := py_str p in
  bp ← lookup_player curr_players pid_s;
  Ok (tid, pid_s,
      match bp with
      | Some bp => points bp
      | None => match curr_free_agents !! pid_s with
                | Some fa => points fa
                | None => 0%Qc
                end
      end).

(** Lines 430-436: the first full name found in any week; an exception on
    the way is swallowed. *)
Fixpoint name_in_weeks (l : list (string * gmap (Z + string) BasePlayer)) (pid_str : string)
  : res (option string) :=
  match l with
  | [] => Ok None
  | (_, wk_players) :: l' =>
      hit ← lookup_player wk_players pid_str;
      match named hit with
      | Some n => Ok (Some n)
      | None => name_in_weeks l' pid_str
      end
  end.

(** Lines 420-437. *)
Definition resolve_name (pid_str : string) : res string :=
  c ← lookup_player curr_players pid_str;
  bp ← match c with
       | Some bp => Ok (Some bp)
       | None =>
           p ← lookup_player prev_players pid_str;
           Ok match p with
              | Some bp => Some bp
              | None => curr_free_agents !! pid_str
              end
       end;
  match named bp with
  | Some n => Ok n
  | None => Ok (default pid_str (catch (name_in_weeks players_by_week pid_str) None))
  end.

(** Lines 443-449: whether a pickup was started this week. *)
Definition started (c : candidate) : bool :=
  match roster_get c.1.1 c.1.2 with
  | Some p =>
      match selected_position p with
      | Some pos => negb (String.eqb pos "") && negb (bool_decide (pos ∈ bench_positions))
      | None => false
      end
  | None => false
  end.

Definition started_fa (fa_candidates : list candidate) : list candidate :=
  filter (λ c, started c = true) fa_candidates.
Definition benched_fa (fa_candidates : list candidate) : list candidate :=
  filter (λ c, started c = false) fa_candidates.

(** The row of a pickup award: the name is resolved only for a team that is
    in [team_lookup] (lines 477-480). *)
Definition pickup_row (c : candidate) : res (option award_row) :=
  match team_lookup c.1.1 with
  | Some t =>
      n ← resolve_name c.1.2;
      Ok (Some {| row_team := t.1; row_manager := t.2; row_detail := n;
                  row_points := round2 c.2 |})
  | None => Ok None
  end.

(** The row of a drop award: the name is resolved first (lines 522-527). *)
Definition drop_row (c : candidate) : res (option award_row) :=
  n ← resolve_name c.1.2;
  Ok ((λ t, {| row_team := t.1; row_manager := t.2; row_detail := n;
               row_points := round2 c.2 |}) <$> team_lookup c.1.1).

Definition set_best_fa (rows : list award_row) (a : awards) : awards :=
  {| best_fa_pickups := rows; worst_fa_pickups := worst_fa_pickups a;
     best_fa_pickups_hm := best_fa_pickups_hm a;
     worst_fa_pickups_hm := worst_fa_pickups_hm a;
     best_drops := best_drops a; worst_drops := worst_drops a;
     best_trades := best_trades a; worst_trades := worst_trades a |}.
Definition set_worst_fa (rows : list award_row) (a : awards) : awards :=
  {| best_fa_pickups := best_fa_pickups a; worst_fa_pickups := rows;
     best_fa_pickups_hm := best_fa_pickups_hm a;
     worst_fa_pickups_hm := worst_fa_pickups_hm a;
     best_drops := best_drops a; worst_drops := worst_drops a;
     best_trades := best_trades a; worst_trades := worst_trades a |}.
Definition set_best_hm (hm : option mention) (a : awards) : awards :=
  {| best_fa_pickups := best_fa_pickups a; worst_fa_pickups := worst_fa_pickups a;
     best_fa_pickups_hm := hm;
     worst_fa_pickups_hm := worst_fa_pickups_hm a;
     best_drops := best_drops a; worst_drops := worst_drops a;
     best_trades := best_trades a; worst_trades := worst_trades a |}.
Definition set_worst_hm (hm : option mention) (a : awards) : awards :=
  {| best_fa_pickups := best_fa_pickups a; worst_fa_pickups := worst_fa_pickups a;
     best_fa_pickups_hm := best_fa_pickups_hm a;
     worst_fa_pickups_hm := hm;
     best_drops := best_drops a; worst_drops := worst_drops a;
     best_trades := best_trades a; worst_trades := worst_trades a |}.
Definition set_best_drops (rows : list award_row) (a : awards) : awards :=
  {| best_fa_pickups := best_fa_pickups a; worst_fa_pickups := worst_fa_pickups a;
     best_fa_pickups_hm := best_fa_pickups_hm a;
     worst_fa_pickups_hm := worst_fa_pickups_hm a;
     best_drops := rows; worst_drops := worst_drops a;
     best_trades := best_trades a; worst_trades := worst_trades a |}.
Definition set_worst_drops (rows : list award_row) (a : awards) : awards :=
  {| best_fa_pickups := best_fa_pickups a; worst_fa_pickups := worst_fa_pickups a;
     best_fa_pickups_hm := best_fa_pickups_hm a;
     worst_fa_pickups_hm := worst_fa_pickups_hm a;
     best_drops := best_drops a; worst_drops := rows;
     best_trades := best_trades a; worst_trades := worst_trades a |}.
Definition set_trades (best worst : list award_row) (a : awards) : awards :=
  {| best_fa_pickups := best_fa_pickups a; worst_fa_pickups := worst_fa_pickups a;
     best_fa_pickups_hm := best_fa_pickups_hm a;
     worst_fa_pickups_hm := worst_fa_pickups_hm a;
     best_drops := best_drops a; worst_drops := worst_drops a;
     best_trades := best; worst_trades := worst |}.

(** Lines 474-495. *)
Definition assign_row (set : list award_row → awards → awards)
    (row : candidate → res (option award_row)) (c : candidate) (a : awards)
  : res awards :=
  r ← row c;
  Ok match r with Some r => set [r] a | None => a end.

Definition assign_hm (set : option mention → awards → awards) (beats : bool)
    (hm : candidate) (a : awards) : res awards :=
  match team_lookup hm.1.1 with
  | Some t =>
      if beats then
        n ← resolve_name hm.1.2;
        Ok (set (Some {| hm_team := t.1; hm_player := n; hm_points := round2 hm.2 |}) a)
      else Ok a
  | None => Ok a
  end.

Definition best_fa_awards (fa_candidates : list candidate) (st : awards * bool)
  : awards * bool :=
  match sorted by_points_desc (started_fa fa_candidates) with
  | best :: _ =>
      let st := step (assign_row set_best_fa pickup_row best) st in
      let st := step (λ a, Ok (set_best_hm None a)) st in
      match sorted by_points_desc (benched_fa fa_candidates) with
      | hm :: _ => step (assign_hm set_best_hm (bool_decide (best.2 < hm.2)%Qc) hm) st
      | [] => st
      end
  | [] =>
      match sorted by_points_desc (benched_fa fa_candidates) with
      | best :: _ => step (assign_row set_best_fa pickup_row best) st
      | [] => st
      end
  end.

(** Lines 497-517. *)
Definition worst_fa_awards (fa_candidates : list candidate) (st : awards * bool)
  : awards * bool :=
  match sorted by_points_asc (started_fa fa_candidates) with
  | worst :: _ =>
      let st := step (assign_row set_worst_fa pickup_row worst) st in
      let st := step (λ a, Ok (set_worst_hm None a)) st in
      match sorted by_points_asc (benched_fa fa_candidates) with
      | hm :: _ => step (assign_hm set_worst_hm (bool_decide (hm.2 < worst.2)%Qc) hm) st
      | [] => st
      end
  | [] =>
      match sorted by_points_asc (benched_fa fa_candidates) with
      | worst :: _ => step (assign_row set_worst_fa pickup_row worst) st
      | [] => st
      end
  end.

(** Lines 519-534; [drop_candidates] is sorted in place, twice. *)
Definition drop_awards (drop_candidates : list candidate) (st : awards * bool)
  : list candidate * (awards * bool) :=
  let ascending := sorted by_points_asc drop_candidates in
  let st := match ascending with
            | c :: _ => step (assign_row set_best_drops drop_row c) st
            | [] => st
            end in
  let descending := sorted by_points_desc ascending in
  let st := match descending with
            | c :: _ => step (assign_row set_worst_drops drop_row c) st
            | [] => st
            end in
  (descending, st).

(** [sum(float(p.points) for pid in ids if p)], [p] being the player found
    for [pid] in [curr_players]: the points that are summed. *)
Fixpoint found_points (ids : list string) : res (list Qc) :=
  match ids with
  | [] => Ok []
  | pid :: rest =>
      bp ← lookup_player curr_players pid;
      ps ← found_points rest;
      Ok match bp with Some bp => points bp :: ps | None => ps end
  end.

(** Lines 580-584. *)
Definition names (ids : list string) : res string :=
  out ← mapM resolve_name (take 2 ids);
  Ok match out with [] => em_dash | _ => join_comma out end.

(** Lines 563-588 for one event of the trades bucket: the row appended to
    [trade_rows], if any. *)
Definition trade_row (tr : json) : res (option award_row) :=
  t ← get tr "team_id";
  rec_ids ← str_list tr "players_received";
  sent_ids ← str_list tr "players_sent";
  match rec_ids, sent_ids with
  | _ :: _, _ :: _ =>
      recv ← found_points rec_ids;
      sent ← found_points sent_ids;
      let net := (py_sum recv - py_sum sent)%Qc in
      nr ← names rec_ids;
      ns ← names sent_ids;
      Ok ((λ t, {| row_team := t.1; row_manager := t.2;
                   row_detail := nr +:+ " vs " +:+ ns;
                   row_points := round2 net |}) <$> team_lookup (py_str t))
  | _, _ => Ok None
  end.

Fixpoint trade_rows_loop (trades : list json) (trade_rows : list award_row)
  : res (list award_row) :=
  match trades with
  | [] => Ok trade_rows
  | tr :: rest =>
      r ← trade_row tr;
      trade_rows_loop rest (trade_rows ++ option_list r)
  end.

(** Lines 560-594. *)
Definition trade_awards (a : awards) : res awards :=
  trade_rows ← trade_rows_loop (bucket "trades") [];
  match trade_rows with
  | [] => Ok a
  | _ =>
      let descending := sorted row_desc trade_rows in
      let ascending := sorted row_asc descending in
      Ok (set_trades (take 1 descending) (take 1 ascending) a)
  end.

(** Lines 413-594, which stand inside the loop over the drop events.  The
    logging and the owner-change aggregation of lines 536-558, whose results
    are not used, are left out. *)
Definition awards_block (fa_candidates drop_candidates : list candidate)
    (st : awards * bool) : list candidate * (awards * bool) :=
  let st := best_fa_awards fa_candidates st in
  let st := worst_fa_awards fa_candidates st in
  let '(drop_candidates, st) := drop_awards drop_candidates st in
  (drop_candidates, step trade_awards st).

(** Lines 400-594: the loop over the drop events of the week. *)
Fixpoint drops_loop (fa_candidates : list candidate) (drops : list json)
    (drop_candidates : list candidate) (st : awards * bool) : awards * bool :=
  match drops with
  | [] => st
  | ev :: rest =>
      if st.2 then
        match drop_candidate ev with
        | Ok c =>
            let '(drop_candidates, st) :=
              awards_block fa_candidates (drop_candidates ++ [c]) st in
            drops_loop fa_candidates rest drop_candidates st
        | Raise _ => (st.1, false)
        end
      else st
  end.

(** Lines 307-596, without the worst start/sit award of lines 311-363, which
    reads only the rosters and raises nothing: the pickup, drop and trade
    awards of the report, and [false] when an exception ended the block. *)
Definition run_transaction_awards (week_for_report : Z) : awards * bool :=
  if curr_week =? week_for_report then
    match (received ← trade_received_by_team (bucket "trades") ∅;
           fa_candidates_loop received (bucket "adds" ++ bucket "claims") []) with
    | Ok fa_candidates => drops_loop fa_candidates (bucket "drops") [] (no_awards, true)
    | Raise _ => (no_awards, false)
    end
  else (no_awards, true).

Definition transaction_awards (week_for_report : Z) : awards :=
  (run_transaction_awards week_for_report).1.

End week.

(** *** Z-scores (lines 218-241) *)

(** A row of the z-score table; [None] is the cell "N/A". *)
Record z_row : Type := {
  z_rank : Z;
  z_team : string;
  z_manager : string;
  z_score : option Qc;
}.

Definition z_desc (x y : string * Qc) : bool := Qc_leb y.2 x.2.

(** Line 226: [0 if not z_score_val else z_score_val]. *)
Definition coerce (z_score_val : option Qc) : Qc :=
  match z_score_val with
  | Some z => if bool_decide (z = 0%Qc) then 0%Qc else z
  | None => 0%Qc
  end.

(** Lines 232-241. *)
Fixpoint z_rows (teams_results : gmap string BaseTeam) (ranked : list (string * Qc))
    (z_score_rank : Z) : res (list z_row) :=
  match ranked with
  | [] => Ok []
  | (tid, z) :: rest =>
      match teams_results !! tid with
      | Some team =>
          rows ← z_rows teams_results rest (z_score_rank + 1);
          Ok ({| z_rank := z_score_rank; z_team := name team;
                 z_manager := manager_str team;
                 z_score := if bool_decide (z = 0%Qc) then None else Some (round2 z) |}
              :: rows)
      | None => Raise KeyError
      end
  end.

(** Lines 218-241; [z_score_results] in insertion order. *)
Definition data_for_z_scores (teams_results : gmap string BaseTeam)
    (z_score_results : list (string * option Qc)) : res (list z_row) :=
  if forallb (λ kv, bool_decide (kv.2 = None)) z_score_results then Ok []
  else
    let z_score_results :=
      if existsb (λ kv, bool_decide (kv.2 = None)) z_score_results
      then (λ kv, (kv.1, coerce kv.2)) <$> z_score_results
      else (λ kv, (kv.1, default 0%Qc kv.2)) <$> z_score_results in
    z_rows teams_results (sorted z_desc z_score_results) 1.

End report.

End Report.

(** ** Sample data for the examples *)

Module Sample.

Definition three_week_starts : gmap Z Z :=
  <[1 := 1000]> (<[2 := 2000]> (<[3 := 3000]> ∅)).

(** A table in which week 3 starts with week 2. *)
Definition tied_week_starts : gmap Z Z :=
  <[1 := 1000]> (<[2 := 2000]> (<[3 := 2000]> ∅)).

(** Decimal digits as an int, enough of [int(s)] for the ids below. *)
Fixpoint digits (s : string) (acc : Z) : option Z :=
  match s with
  | EmptyString => Some acc
  | String c s' =>
      let n := Z.of_nat (Ascii.nat_of_ascii c) - 48 in
      if (0 <=? n) && (n <=? 9) then digits s' (10 * acc + n) else None
  end.

Definition builtins : Builtins :=
  {| str_to_float := λ s, match s with
                          | EmptyString => None
                          | _ => Qc_of_Z <$> digits s 0
                          end;
     str_to_int := λ s, match s with EmptyString => None | _ => digits s 0 end;
     str_other := λ _, "" |}.

Definition score (q : Q) : json := JObj [("score", JObj [("value", JFloat (Q2Qc q))])].

Definition game (home away : Z) (home_score away_score : json) : json :=
  JObj [("home", JObj [("id", JInt home)]); ("away", JObj [("id", JInt away)]);
        ("homeScore", home_score); ("awayScore", away_score)].

Definition period_start (start_ms : string) : (string * json) :=
  ("schedulePeriod", JObj [("low", JObj [("startEpochMilli", JStr start_ms)])]).

(** Week 1 has two games with four scores, the later weeks have no game yet;
    the weeks start at 1000, 2000 and 3000 ms. *)
Definition scoreboard (wk : Z) : json :=
  if wk =? 1 then
    JObj [period_start "1000";
          ("games", JList [game 10 11 (score (201 # 2)) (score 90);
                           game 12 13 (score 80) (score (481 # 4))])]
  else if wk =? 2 then JObj [period_start "2000"; ("games", JList [])]
  else if wk =? 3 then JObj [period_start "3000"; ("games", JList [])]
  else JObj [("games", JList [])].

Definition pro_player (id : Z) : (string * json) := ("proPlayer", JObj [("id", JInt id)]).

(** Team 10 drops player 77 at 2500 ms, in the window of week 2; the platform
    reports the ordinal 3. *)
Definition drop_activity : json :=
  JObj [("timeEpochMilli", JStr "2500");
        ("transaction",
         JObj [("type", JStr "TRANSACTION_DROP");
               ("team", JObj [("id", JInt 10)]);
               ("player",
                JObj [pro_player 77;
                      ("requestedGames",
                       JList [JObj [("period", JObj [("ordinal", JInt 3)])]])])])].

(** Team 11 adds player 88 at 9000000000 ms, after every window, with no
    ordinal. *)
Definition late_activity : json :=
  JObj [("timeEpochMilli", JStr "9000000000");
        ("transaction",
         JObj [("type", JStr "TRANSACTION_ADD");
               ("team", JObj [("id", JInt 11)]);
               ("player", JObj [pro_player 88])])].

Definition team_entry (team : Z) (players : list json) : json :=
  JObj [("team", JObj [("id", JInt team)]); ("playersObtained", JList players)].

(** A trade approved at 500 ms, before the first week starts. *)
Definition offseason_trade : json :=
  JObj [("id", JInt 500); ("approvedOn", JStr "500");
        ("teams", JList [team_entry 10 [JObj [pro_player 77]];
                         team_entry 11 [JObj [pro_player 88]]])].

(** A trade without a timestamp: the player that team 10 receives has a
    requested game starting at 2100 ms, the player that team 11 receives has
    none. *)
Definition half_dated_trade : json :=
  JObj [("id", JInt 501);
        ("teams",
         JList [team_entry 10
                  [JObj [pro_player 77;
                         ("requestedGames",
                          JList [JObj [("period",
                                        JObj [("startEpochMilli", JStr "2100")])]])]];
                team_entry 11 [JObj [pro_player 88]]])].

(** One page of transactions of a team: a claim of player 99 at 1500 ms. *)
Definition team_page : json :=
  JObj [("items",
         JList [JObj [("timeEpochMilli", JStr "1500");
                      ("transaction",
                       JObj [("type", JStr "TRANSACTION_CLAIM");
                             ("player", JObj [pro_player 99])])]])].

Definition in_season (epoch_milli : Qc) : bool := true.
Definition no_cache (wk : Z) (team_id : string) : option json := None.
Definition pages (team_id : string) : list json := [team_page].

(** Week 2 of a league with two teams.  Team 10 starts player 4 (12.5
    points), team 11 benches player 5 (20 points); players 1, 2 and 3 score
    10, 5 and 20 points; player 6 is a free agent with 3 points. *)
Definition player (id : Z) (n : string) (pts : Q) (pos : string) : BasePlayer :=
  {| player_id := inl id; full_name := Some n; points := Q2Qc pts;
     selected_position := Some pos |}.

Definition players_by_week : list (string * gmap (Z + string) BasePlayer) :=
  [("2", list_to_map
           [(inl 1, player 1 "Ada" 10 "RB"); (inl 2, player 2 "Ben" 5 "WR");
            (inl 3, player 3 "Cy" 20 "QB"); (inl 4, player 4 "Pat" (25 # 2) "WR");
            (inl 5, player 5 "Quin" 20 "BN")])].

Definition free_agents_by_week : gmap string (gmap string BasePlayer) :=
  {["2" := {["6" := player 6 "Dee" 3 "BN"]}]}.

Definition teams_by_week : gmap string (gmap string BaseTeam) :=
  {["2" := list_to_map
             [("10", {| team_id := "10"; name := "Ten"; manager_str := "Ann";
                        roster := [player 1 "Ada" 10 "RB"; player 2 "Ben" 5 "WR";
                                   player 4 "Pat" (25 # 2) "WR"] |});
              ("11", {| team_id := "11"; name := "Eleven"; manager_str := "Bob";
                        roster := [player 3 "Cy" 20 "QB"; player 5 "Quin" 20 "BN"] |})]]}.

Definition pickups : list json :=
  [Fleaflicker.move_event "10" (JStr "4"); Fleaflicker.move_event "11" (JStr "5")].

(** The week with the two pickups and no drop. *)
Definition tx_no_drop : gmap string (gmap string (list json)) :=
  {["2" := <["adds" := pickups]> Fleaflicker.empty_bucket]}.

(** The same week with a drop of player 6 by team 10 and with the row of
    team 10 for a trade: players 1 and 2 received, player 3 sent. *)
Definition tx_with_drop : gmap string (gmap string (list json)) :=
  {["2" := <["adds" := pickups]>
           (<["drops" := [Fleaflicker.move_event "10" (JStr "6")]]>
            (<["trades" := [Fleaflicker.trade_event "10" ["1"; "2"] ["3"] None (JInt 7)]]>
             Fleaflicker.empty_bucket))]}.

Definition bench_positions : list string := ["BN"; "IR"].

Definition z_teams : gmap string BaseTeam :=
  default ∅ (teams_by_week !! "2").

(** The z-score of team 10 is 1.5, that of team 11 is undefined. *)
Definition z_scores : list (string * option Qc) :=
  [("11", None); ("10", Some (Q2Qc (3 # 2)))].

End Sample.


(** ** The season of a team against the weekly medians (fleaflicker.py,
    lines 663-800) *)

Module MedianTally.

Import Fleaflicker.

Section tally.
Context `{!Builtins}.




End tally.

End MedianTally.
(** * Properties *)

(** ** Sorting *)

Section sorting_facts.
Context {A : Type} (le : A → A → bool).

Lemma insert_sorted_perm (x : A) (l : list A) : insert_sorted le x l ≡ₚ x :: l.
Proof.
  induction l as [|y l IH]; simpl; [done|].
  destruct (le x y); [done|]. rewrite IH. apply Permutation_swap.
Qed.

Lemma sorted_perm (l : list A) : sorted le l ≡ₚ l.
Proof.
  induction l as [|x l IH]; simpl; [done|].
  by rewrite insert_sorted_perm, IH.
Qed.

Lemma sorted_length (l : list A) : length (sorted le l) = length l.
Proof. by rewrite sorted_perm. Qed.

Lemma sorted_nil_inv (l : list A) : sorted le l = [] → l = [].
Proof.
  intros E. apply Permutation_nil_r. rewrite <- E. symmetry. apply sorted_perm.
Qed.

Lemma elem_of_sorted (x : A) (l : list A) : x ∈ sorted le l ↔ x ∈ l.
Proof. by rewrite sorted_perm. Qed.

Context (le_total : ∀ x y, le x y = true ∨ le y x = true).
Context (le_trans : ∀ x y z, le x y = true → le y z = true → le x z = true).

Lemma insert_sorted_sorted (x : A) (l : list A) :
  StronglySorted (λ a b, le a b = true) l →
  StronglySorted (λ a b, le a b = true) (insert_sorted le x l).
Proof.
  induction 1 as [|y l Hs IH Hy]; simpl.
  - repeat constructor.
  - destruct (le x y) eqn:E.
    + constructor; [by constructor|].
      constructor; [done|].
      apply list.Forall_forall. intros z Hz.
      eapply le_trans; [exact E|]. rewrite list.Forall_forall in Hy. by apply Hy.
    + constructor; [done|].
      rewrite insert_sorted_perm. constructor; [|done].
      destruct (le_total x y); congruence.
Qed.

Lemma sorted_sorted (l : list A) : StronglySorted (λ a b, le a b = true) (sorted le l).
Proof.
  induction l as [|x l IH]; simpl; [constructor|].
  by apply insert_sorted_sorted.
Qed.

(** The head of the sorted list may stay in front of every element. *)
Lemma sorted_head (l : list A) (x : A) (rest : list A) :
  sorted le l = x :: rest → x ∈ l ∧ ∀ y, y ∈ l → le x y = true.
Proof.
  intros E. split.
  - apply elem_of_sorted. rewrite E. left.
  - intros y Hy. apply elem_of_sorted in Hy. rewrite E in Hy.
    pose proof (sorted_sorted l) as Hs. rewrite E in Hs.
    apply StronglySorted_inv in Hs as [_ Hall].
    apply elem_of_cons in Hy as [->|Hy].
    + destruct (le_total x x); done.
    + rewrite list.Forall_forall in Hall. by apply Hall.
Qed.

End sorting_facts.

(** ** Week windows *)

Section week_window_facts.
Import WeekWindow.
Context (week_start_ts : gmap Z Z).

Lemma elem_of_sorted_weeks (w : Z) :
  w ∈ sorted_weeks week_start_ts ↔ is_Some (week_start_ts !! w).
Proof.
  unfold sorted_weeks. rewrite elem_of_sorted, elem_of_elements.
  apply elem_of_dom.
Qed.

Lemma sorted_weeks_ascending :
  StronglySorted Z.le (sorted_weeks week_start_ts).
Proof.
  unfold sorted_weeks.
  assert (StronglySorted (λ a b, Z.leb a b = true)
            (sorted Z.leb (elements (dom week_start_ts)))) as Hs.
  { apply sorted_sorted.
    - intros x y. rewrite !Z.leb_le. lia.
    - intros x y z. rewrite !Z.leb_le. lia. }
  induction Hs as [|x l Hs IH Hx]; constructor; [done|].
  eapply List.Forall_impl; [|exact Hx]. intros y. apply Z.leb_le.
Qed.

Lemma in_window_cons (w : Z) (ws : list Z) (i : nat) (ts : Z) :
  in_window week_start_ts (w :: ws) (S i) ts ↔ in_window week_start_ts ws i ts.
Proof. done. Qed.

Lemma in_window_head (w : Z) (ws : list Z) (ts : Z) :
  in_window week_start_ts (w :: ws) 0 ts ↔
  week_start_ts !!! w ≤ ts ≤
    match ws with
    | w' :: _ => week_start_ts !!! w' - 1
    | [] => week_start_ts !!! w + eight_days_ms
    end.
Proof. unfold in_window, window_start, window_end. by destruct ws. Qed.

(** The scan returns the week of the first window that holds the timestamp. *)
Lemma map_epoch_scan_Some (ws : list Z) (ts w : Z) :
  map_epoch_scan week_start_ts ws ts = Some w ↔
  ∃ i : nat, ws !! i = Some w ∧ in_window week_start_ts ws i ts ∧
    ∀ j : nat, (j < i)%nat → ¬ in_window week_start_ts ws j ts.
Proof.
  revert w. induction ws as [|w0 ws IH]; intros w; simpl.
  - split; [done|]. by intros (i & ? & _).
  - case_bool_decide as Hw.
    + split.
      * intros [= <-]. exists 0%nat. split; [done|]. split.
        -- by apply in_window_head.
        -- intros j Hj. lia.
      * intros (i & Hi & Hin & Hfirst). destruct i as [|i]; [done|].
        destruct (Hfirst 0%nat); [lia|]. by apply in_window_head.
    + rewrite IH. split.
      * intros (i & Hi & Hin & Hfirst). exists (S i). split; [done|]. split; [done|].
        intros [|j] Hj.
        -- rewrite in_window_head. done.
        -- rewrite in_window_cons. apply Hfirst. lia.
      * intros (i & Hi & Hin & Hfirst). destruct i as [|i].
        -- apply in_window_head in Hin. done.
        -- exists i. split; [done|]. split; [done|].
           intros j Hj. rewrite <- in_window_cons. apply Hfirst. lia.
Qed.

Lemma map_epoch_scan_None (ws : list Z) (ts : Z) :
  map_epoch_scan week_start_ts ws ts = None ↔
  ∀ i : nat, (i < length ws)%nat → ¬ in_window week_start_ts ws i ts.
Proof.
  induction ws as [|w0 ws IH]; simpl.
  - split; [|done]. intros _ i Hi. lia.
  - case_bool_decide as Hw.
    + split; [done|]. intros Hno. destruct (Hno 0%nat); [lia|].
      by apply in_window_head.
    + rewrite IH. split.
      * intros Hno [|i] Hi.
        -- by rewrite in_window_head.
        -- rewrite in_window_cons. apply Hno. lia.
      * intros Hno i Hi. rewrite <- in_window_cons. apply Hno. lia.
Qed.

(** Starts that increase from each known week to the next increase along
    the whole list. *)
Lemma starts_increasing (ws : list Z) :
  (∀ (i : nat) w w', ws !! i = Some w → ws !! S i = Some w' →
     week_start_ts !!! w < week_start_ts !!! w') →
  ∀ (i j : nat) w w', (i ≤ j)%nat → ws !! i = Some w → ws !! j = Some w' →
    week_start_ts !!! w ≤ week_start_ts !!! w'.
Proof.
  intros Hinc i j. induction j as [|j IH]; intros w w' Hij Hi Hj.
  - assert (i = 0%nat) as -> by lia. simplify_eq. lia.
  - destruct (decide (i = S j)) as [->|Hne]; [simplify_eq; lia|].
    destruct (lookup_lt_is_Some_2 ws j) as [w'' Hj'].
    { apply lookup_lt_Some in Hj. lia. }
    specialize (IH w w'' ltac:(lia) Hi Hj').
    specialize (Hinc j w'' w' Hj' Hj). lia.
Qed.

End week_window_facts.

Section week_window_claim.
Import WeekWindow.

Lemma window_end_next (week_start_ts : gmap Z Z) (ws : list Z) (j : nat) (w' : Z) :
  ws !! S j = Some w' → window_end week_start_ts ws j = week_start_ts !!! w' - 1.
Proof. unfold window_end. by intros ->. Qed.

(** Before a later known week starts, every earlier window has ended. *)
Lemma earlier_windows_closed (week_start_ts : gmap Z Z) (ws : list Z)
    (i j : nat) (w : Z) (ts : Z) :
  (∀ (i : nat) w w', ws !! i = Some w → ws !! S i = Some w' →
     week_start_ts !!! w < week_start_ts !!! w') →
  ws !! i = Some w → (j < i)%nat → week_start_ts !!! w - 1 < ts →
  ¬ in_window week_start_ts ws j ts.
Proof.
  intros Hinc Hi Hj Hts [_ Hend].
  destruct (lookup_lt_is_Some_2 ws (S j)) as [w' Hw'].
  { apply lookup_lt_Some in Hi. lia. }
  rewrite (window_end_next _ _ _ _ Hw') in Hend.
  pose proof (starts_increasing week_start_ts ws Hinc (S j) i w' w
                ltac:(lia) Hw' Hi).
  lia.
Qed.

(** At the boundary between two consecutive known weeks. *)
Lemma consecutive_starts (week_start_ts : gmap Z Z) (ws : list Z)
    (i : nat) (w1 w2 s2 : Z) :
  (∀ (i : nat) w w', ws !! i = Some w → ws !! S i = Some w' →
     week_start_ts !!! w < week_start_ts !!! w') →
  ws !! i = Some w1 → ws !! S i = Some w2 → week_start_ts !! w2 = Some s2 →
  map_epoch_scan week_start_ts ws (s2 - 1) = Some w1 ∧
  map_epoch_scan week_start_ts ws s2 = Some w2.
Proof.
  intros Hinc H1 H2 Hs2.
  apply lookup_total_correct in Hs2 as Hs2'.
  pose proof (Hinc i w1 w2 H1 H2) as Hlt. rewrite Hs2' in Hlt.
  split; apply map_epoch_scan_Some.
  - exists i. split; [done|]. split.
    + unfold in_window, window_start.
      rewrite (window_end_next _ _ _ _ H2), (list_lookup_total_correct _ _ _ H1).
      lia.
    + intros j Hj.
      apply (earlier_windows_closed _ _ i j w1); [done|done|done|lia].
  - exists (S i). split; [done|]. split.
    + unfold in_window, window_end, window_start.
      rewrite (list_lookup_total_correct _ _ _ H2), Hs2'.
      destruct (ws !! S (S i)) as [w3|] eqn:H3.
      * pose proof (Hinc (S i) w2 w3 H2 H3). lia.
      * unfold eight_days_ms. lia.
    + intros j Hj.
      apply (earlier_windows_closed _ _ (S i) j w2); [done|done|done|lia].
Qed.

(** C3, as amended.  The week-window lookup.  The window of a known week
    starts at its start timestamp and ends 1 ms before the start of the next
    known week, the window of the last known week 8 days after its own
    start; [_map_epoch] returns the week of the first window that contains
    the timestamp, and none when no window does.  Consequently, when the
    starts of consecutive known weeks increase throughout the table, for
    consecutive known weeks [w1] and [w2], [w2] starting at [s2]:
    [_map_epoch (s2 - 1) = w1] and [_map_epoch s2 = w2]. *)
Theorem map_epoch_week_windows (week_start_ts : gmap Z Z) :
  let ws := sorted_weeks week_start_ts in
  (∀ (i : nat) (ts : Z),
     in_window week_start_ts ws i ts ↔
     week_start_ts !!! (ws !!! i) ≤ ts ≤
       match ws !! S i with
       | Some next => week_start_ts !!! next - 1
       | None => week_start_ts !!! (ws !!! i) + 8 * 24 * 60 * 60 * 1000
       end) ∧
  (∀ ts w,
     _map_epoch week_start_ts ts = Some w ↔
     ∃ i : nat, ws !! i = Some w ∧ in_window week_start_ts ws i ts ∧
       ∀ j : nat, (j < i)%nat → ¬ in_window week_start_ts ws j ts) ∧
  (∀ ts,
     _map_epoch week_start_ts ts = None ↔
     ∀ i : nat, (i < length ws)%nat → ¬ in_window week_start_ts ws i ts) ∧
  ((∀ (i : nat) w w', ws !! i = Some w → ws !! S i = Some w' →
      week_start_ts !!! w < week_start_ts !!! w') →
   ∀ (i : nat) w1 w2 s2,
     ws !! i = Some w1 → ws !! S i = Some w2 → week_start_ts !! w2 = Some s2 →
     _map_epoch week_start_ts (s2 - 1) = Some w1 ∧
     _map_epoch week_start_ts s2 = Some w2).
Proof.
  intros ws. split; [|split; [|split]].
  - intros i ts. unfold in_window, window_end, window_start, eight_days_ms.
    by destruct (ws !! S i).
  - intros ts w. apply map_epoch_scan_Some.
  - intros ts. apply map_epoch_scan_None.
  - intros Hinc i w1 w2 s2. by apply consecutive_starts.
Qed.

End week_window_claim.

Lemma map_epoch_week_windows_witness :
  WeekWindow._map_epoch Sample.three_week_starts 1999 = Some 1 ∧
  WeekWindow._map_epoch Sample.three_week_starts 2000 = Some 2.
Proof.
  refine (proj2 (proj2 (proj2 (map_epoch_week_windows Sample.three_week_starts)))
            _ 0%nat 1 2 2000 _ _ _); try reflexivity.
  intros i w w' Hw Hw'.
  assert (WeekWindow.sorted_weeks Sample.three_week_starts = [1; 2; 3]) as E
    by (vm_compute; reflexivity).
  rewrite E in Hw, Hw'.
  destruct i as [|[|[|i]]]; simpl in Hw, Hw'; simplify_eq; vm_compute; reflexivity.
Defined.

(** C3, as first stated, asks of the two consecutive weeks only that the
    first starts before the second.  In a table where week 3 starts with
    week 2, the weeks 1 and 2 are consecutive and start at 1000 and 2000,
    yet the window of week 2 is empty and the start of week 2 maps to
    week 3. *)
Lemma later_week_with_the_same_start_wins :
  ¬ (∀ (i : nat) (w1 w2 s1 s2 : Z),
       WeekWindow.sorted_weeks Sample.tied_week_starts !! i = Some w1 →
       WeekWindow.sorted_weeks Sample.tied_week_starts !! S i = Some w2 →
       Sample.tied_week_starts !! w1 = Some s1 →
       Sample.tied_week_starts !! w2 = Some s2 →
       s1 < s2 →
       WeekWindow._map_epoch Sample.tied_week_starts (s2 - 1) = Some w1 ∧
       WeekWindow._map_epoch Sample.tied_week_starts s2 = Some w2).
Proof.
  intros Hclaim.
  destruct (Hclaim 0%nat 1 2 1000 2000) as [_ Hs2];
    [vm_compute; reflexivity..|lia|].
  vm_compute in Hs2. discriminate.
Qed.

(** ** Cumulative median records *)

Section median_record_facts.
Import Fleaflicker.
Local Open Scope Qc_scope.






End median_record_facts.

Section median_record_claim.
Import Fleaflicker.
Local Open Scope Qc_scope.



End median_record_claim.


(** ** Weekly medians *)

(** Inequalities between canonical rationals are read on the rationals they
    hold, where [lra] decides them. *)
Section rational_transfer.
Local Open Scope Q_scope.

Lemma this_plus (x y : Qc) : this (x + y)%Qc == this x + this y.
Proof. apply Qred_correct. Qed.

Lemma this_minus (x y : Qc) : this (x - y)%Qc == this x - this y.
Proof. unfold Qcminus. rewrite this_plus. cbn. by rewrite Qred_correct. Qed.

Lemma this_opp (x : Qc) : this (- x)%Qc == - this x.
Proof. apply Qred_correct. Qed.

Lemma this_mult (x y : Qc) : this (x * y)%Qc == this x * this y.
Proof. apply Qred_correct. Qed.

Lemma this_inv (x : Qc) : this (/ x)%Qc == / this x.
Proof. apply Qred_correct. Qed.

Lemma this_div (x y : Qc) : this (x / y)%Qc == this x / this y.
Proof. unfold Qcdiv. rewrite this_mult, this_inv. reflexivity. Qed.

Lemma this_of_Z (z : Z) : this (Qc_of_Z z) = inject_Z z.
Proof. reflexivity. Qed.

Lemma Qc_eq_this (x y : Qc) : x = y ↔ this x == this y.
Proof. split; [by intros ->|apply Qc_is_canon]. Qed.

End rational_transfer.

Ltac qc_push :=
  repeat first
    [ rewrite this_plus | rewrite this_minus | rewrite this_opp | rewrite this_mult
    | rewrite this_div | rewrite this_inv | rewrite this_of_Z ].

Ltac qc_push_in H :=
  repeat first
    [ rewrite this_plus in H | rewrite this_minus in H | rewrite this_opp in H
    | rewrite this_mult in H | rewrite this_div in H | rewrite this_inv in H
    | rewrite this_of_Z in H ].

Ltac qc_hyps :=
  repeat match goal with
  | H : Qcle _ _ |- _ => unfold Qcle in H; qc_push_in H
  | H : Qclt _ _ |- _ => unfold Qclt in H; qc_push_in H
  | H : @eq Qc _ _ |- _ => apply Qc_eq_this in H; qc_push_in H
  | H : ¬ Qcle _ _ |- _ => apply Qcnot_le_lt in H
  | H : ¬ Qclt _ _ |- _ => apply Qcnot_lt_le in H
  end.

Ltac qc_goal :=
  lazymatch goal with
  | |- Qcle _ _ => unfold Qcle; qc_push
  | |- Qclt _ _ => unfold Qclt; qc_push
  | |- @eq Qc _ _ => apply Qc_eq_this; qc_push
  | |- _ => idtac
  end.

Ltac qc_consts :=
  change (this (Q2Qc 1)) with 1%Q in *;
  change (this (Q2Qc 0)) with 0%Q in *;
  change (inject_Z 0) with 0%Q in *;
  change (inject_Z 1) with 1%Q in *;
  change (inject_Z 2) with 2%Q in *;
  change (inject_Z 100) with 100%Q in *;
  unfold Qdiv in *;
  change (/ 2)%Q with (1 # 2)%Q in *;
  change (/ 100)%Q with (1 # 100)%Q in *.

Ltac qc_lra := qc_hyps; qc_goal; qc_consts; lra.

Section rounding_facts.
Local Open Scope Qc_scope.

Lemma Qfloor_bounds (q : Qc) :
  Qc_of_Z (Qfloor q) ≤ q ∧ q < Qc_of_Z (Qfloor q) + 1.
Proof.
  pose proof (Qfloor_le q) as Hle. pose proof (Qlt_floor q) as Hlt.
  rewrite inject_Z_plus in Hlt. split; qc_lra.
Qed.

Lemma Qc_of_Z_succ (z : Z) : Qc_of_Z (z + 1) = Qc_of_Z z + 1.
Proof. apply Qc_eq_this. qc_push. rewrite inject_Z_plus. qc_consts. lra. Qed.

(** [round_half_even] gives an integer nearest to [q], and the even one of
    the two when [q] lies halfway between two integers. *)
Lemma round_half_even_nearest (q : Qc) :
  let k := Qc_of_Z (round_half_even q) in
  let half := 1 / Qc_of_Z 2 in
  q - half ≤ k ∧ k ≤ q + half ∧
  (k = q - half ∨ k = q + half → Z.even (round_half_even q) = true).
Proof.
  cbv zeta. unfold round_half_even.
  destruct (Qfloor_bounds q) as [Hle Hlt].
  set (f := Qfloor q) in *.
  repeat case_bool_decide.
  - split; [qc_lra|]. split; [qc_lra|]. intros [Heq|Heq]; exfalso; qc_lra.
  - rewrite Qc_of_Z_succ.
    split; [qc_lra|]. split; [qc_lra|]. intros [Heq|Heq]; exfalso; qc_lra.
  - destruct (Z.even f) eqn:Heven.
    + split; [qc_lra|]. split; [qc_lra|]. done.
    + rewrite Qc_of_Z_succ.
      split; [qc_lra|]. split; [qc_lra|]. intros _.
      by rewrite Z.even_add, Heven.
Qed.

End rounding_facts.

(** The float nearest to a rational: [fl] lands on a binary64 number within
    half a unit of the last place. *)
Section float_facts.
Local Open Scope Qc_scope.

Lemma Qc_of_Z_mult (a b : Z) : Qc_of_Z (a * b) = Qc_of_Z a * Qc_of_Z b.
Proof. apply Qc_eq_this. qc_push. by rewrite inject_Z_mult. Qed.

Lemma Qc_of_Z_lt (a b : Z) : (a < b)%Z → Qc_of_Z a < Qc_of_Z b.
Proof. intros Hab. unfold Qclt. rewrite !this_of_Z. by rewrite <- Zlt_Qlt. Qed.

Lemma Qc_of_Z_le (a b : Z) : (a ≤ b)%Z → Qc_of_Z a ≤ Qc_of_Z b.
Proof. intros Hab. unfold Qcle. rewrite !this_of_Z. by rewrite <- Zle_Qle. Qed.

Lemma Qc_of_Z_pow2_pos (e : Z) : (0 ≤ e)%Z → 0 < Qc_of_Z (2 ^ e).
Proof. intros He. apply (Qc_of_Z_lt 0). by apply Z.pow_pos_nonneg. Qed.

Lemma Qc_inv_pos (x : Qc) : 0 < x → 0 < / x.
Proof.
  intros Hx. unfold Qclt in *. rewrite this_inv. by apply Qinv_lt_0_compat.
Qed.

Lemma pow2_pos (e : Z) : 0 < pow2 e.
Proof.
  unfold pow2. destruct (Z.leb_spec 0 e).
  - by apply Qc_of_Z_pow2_pos.
  - apply Qc_inv_pos, Qc_of_Z_pow2_pos. lia.
Qed.

Lemma pow2_succ (e : Z) : pow2 (e + 1) = Qc_of_Z 2 * pow2 e.
Proof.
  unfold pow2. destruct (Z.leb_spec 0 e) as [He|He].
  - rewrite (proj2 (Z.leb_le 0 (e + 1))) by lia.
    by rewrite Z.pow_add_r, Z.mul_comm, Qc_of_Z_mult by lia.
  - destruct (Z.leb_spec 0 (e + 1)) as [He'|He'].
    + assert (e = -1)%Z as -> by lia. by apply Qc_is_canon.
    + replace (- e)%Z with (- (e + 1) + 1)%Z by lia.
      rewrite Z.pow_add_r, Z.mul_comm, Qc_of_Z_mult by lia.
      pose proof (Qc_of_Z_pow2_pos (- (e + 1)) ltac:(lia)) as Hpos.
      change (2 ^ 1)%Z with 2%Z.
      field. split; [|done]. by apply Qclt_not_eq in Hpos.
Qed.

Lemma pow2_add_nonneg (e n : Z) :
  (0 ≤ n)%Z → pow2 (e + n) = Qc_of_Z (2 ^ n) * pow2 e.
Proof.
  intros Hn. pattern n. apply natlike_ind; [| |done].
  - rewrite Z.add_0_r.
    assert (Qc_of_Z (2 ^ 0) = 1) as -> by (by apply Qc_is_canon). ring.
  - clear n Hn. intros n Hn IH.
    replace (e + Z.succ n)%Z with (e + n + 1)%Z by lia.
    rewrite pow2_succ, IH, Z.pow_succ_r, Qc_of_Z_mult by done. ring.
Qed.

Lemma pow2_sub_nonneg (a b : Z) :
  (0 ≤ a)%Z → (0 ≤ b)%Z → pow2 (a - b) * Qc_of_Z (2 ^ b) = Qc_of_Z (2 ^ a).
Proof.
  intros Ha Hb. rewrite Qcmult_comm, <- pow2_add_nonneg by done.
  replace (a - b + b)%Z with a by lia. unfold pow2.
  by rewrite (proj2 (Z.leb_le 0 a)).
Qed.

Lemma pow2_mono (x y : Z) : (x ≤ y)%Z → pow2 x ≤ pow2 y.
Proof.
  intros Hxy. replace y with (x + (y - x))%Z by lia.
  rewrite pow2_add_nonneg by lia.
  pose proof (pow2_pos x) as Hpx.
  pose proof (Qc_of_Z_le 1 (2 ^ (y - x))) as Hone.
  assert (Qc_of_Z 1 = 1) as E1 by (by apply Qc_is_canon). rewrite E1 in Hone.
  specialize (Hone ltac:(pose proof (Z.pow_pos_nonneg 2 (y - x)); lia)).
  set (u := Qc_of_Z (2 ^ (y - x))) in *. set (v := pow2 x) in *.
  qc_hyps. qc_goal. qc_consts. nra.
Qed.

(** A positive rational lies between the power of two of its [Qc_log2] and
    the next one. *)
Lemma Qc_num_den (q : Qc) : q * Qc_of_Z (Zpos (Qden q)) = Qc_of_Z (Qnum q).
Proof.
  apply Qc_eq_this. qc_push. destruct q as [[n d] Hq]. cbn.
  rewrite (Qmake_Qdiv n d). field.
  change 0%Q with (inject_Z 0). rewrite inject_Z_injective. done.
Qed.

Lemma Qc_log2_bounds (q : Qc) :
  0 < q → pow2 (Qc_log2 q) ≤ q ∧ q < pow2 (Qc_log2 q + 1).
Proof.
  intros Hq. unfold Qc_log2.
  set (n := Qnum q). set (d := Zpos (Qden q)).
  pose proof (Qc_num_den q) as Hnd. fold n d in Hnd.
  assert (0 < Qc_of_Z d) as Hd by (by apply (Qc_of_Z_lt 0)).
  assert (0 < n)%Z as Hn.
  { destruct (Z.lt_ge_cases 0 n) as [|Hle]; [done|]. exfalso.
    apply (Qc_of_Z_le n 0) in Hle. rewrite <- Hnd in Hle.
    clear Hnd. qc_hyps. qc_consts. nra. }
  set (a := Z.log2 n). set (b := Z.log2 d).
  destruct (Z.log2_spec n Hn) as [Hna Hna']. fold a in Hna, Hna'.
  destruct (Z.log2_spec d ltac:(done)) as [Hdb Hdb']. fold b in Hdb, Hdb'.
  pose proof (Z.log2_nonneg n) as Ha. pose proof (Z.log2_nonneg d) as Hb.
  fold a in Ha. fold b in Hb.
  pose proof (pow2_sub_nonneg a b Ha Hb) as Hp.
  pose proof (pow2_pos (a - b)) as Hpos.
  assert (pow2 (a - b + 1) = Qc_of_Z 2 * pow2 (a - b)) as Hup by apply pow2_succ.
  assert (pow2 (a - b) = Qc_of_Z 2 * pow2 (a - b - 1)) as Hdown.
  { rewrite <- pow2_succ. f_equal. lia. }
  apply Qc_of_Z_le in Hna, Hdb. apply Qc_of_Z_lt in Hna', Hdb'.
  rewrite Z.pow_succ_r, Qc_of_Z_mult in Hna', Hdb' by done.
  pose proof (Qc_of_Z_pow2_pos a Ha) as Hpa. pose proof (Qc_of_Z_pow2_pos b Hb) as Hpb.
  set (A := Qc_of_Z (2 ^ a)) in *. set (B := Qc_of_Z (2 ^ b)) in *.
  set (N := Qc_of_Z n) in *. set (D := Qc_of_Z d) in *.
  set (P := pow2 (a - b)) in *.
  assert (q < Qc_of_Z 2 * P) as Hlt.
  { clear Hdown Hup. qc_hyps. qc_goal. qc_consts. nra. }
  case_bool_decide as Hle.
  - split; [done|]. by rewrite Hup.
  - replace (a - b - 1 + 1)%Z with (a - b)%Z by lia. split.
    + set (P' := pow2 (a - b - 1)) in *. clear Hup Hlt Hle.
      pose proof (pow2_pos (a - b - 1)) as Hpos'. fold P' in Hpos'.
      qc_hyps. qc_goal. qc_consts. nra.
    + by apply Qcnot_le_lt.
Qed.

Lemma scaled_nearest (x k p : Qc) :
  0 < p → x - 1 / Qc_of_Z 2 ≤ k → k ≤ x + 1 / Qc_of_Z 2 →
  x * p - p / Qc_of_Z 2 ≤ k * p ∧ k * p ≤ x * p + p / Qc_of_Z 2 ∧
  (k * p = x * p - p / Qc_of_Z 2 → k = x - 1 / Qc_of_Z 2) ∧
  (k * p = x * p + p / Qc_of_Z 2 → k = x + 1 / Qc_of_Z 2).
Proof.
  intros Hp Hlo Hhi.
  split; [qc_hyps; qc_goal; qc_consts; nra|].
  split; [qc_hyps; qc_goal; qc_consts; nra|].
  split; intros Heq; apply Qcle_antisym; qc_hyps; qc_goal; qc_consts; nra.
Qed.

(** [fl q] is a multiple of the unit of the last place of [q] within half a
    unit of [q], the even multiple when two are as near. *)
Lemma fl_nearest (q : Qc) :
  q ≠ 0 →
  let ulp := pow2 (ulp_exp q) in
  let half := ulp / Qc_of_Z 2 in
  ∃ m : Z,
    fl q = Qc_of_Z m * ulp ∧ q - half ≤ fl q ∧ fl q ≤ q + half ∧
    (fl q = q - half ∨ fl q = q + half → Z.even m = true).
Proof.
  intros Hq. cbv zeta. unfold fl. rewrite bool_decide_eq_false_2 by done.
  cbv zeta.
  pose proof (pow2_pos (ulp_exp q)) as Hp.
  destruct (round_half_even_nearest (q / pow2 (ulp_exp q))) as (Hlo & Hhi & Htie).
  exists (round_half_even (q / pow2 (ulp_exp q))).
  destruct (scaled_nearest _ _ _ Hp Hlo Hhi) as (Hlo' & Hhi' & Htlo & Hthi).
  assert (q / pow2 (ulp_exp q) * pow2 (ulp_exp q) = q) as Hqp.
  { field. by apply Qclt_not_eq in Hp. }
  rewrite Hqp in Hlo', Hhi', Htlo, Hthi.
  split; [done|]. split; [done|]. split; [done|].
  intros [Heq|Heq]; apply Htie; [left; by apply Htlo|right; by apply Hthi].
Qed.

(** [fl q] is a binary64 number. *)
Lemma fl_binary64 (q : Qc) : binary64 (fl q).
Proof.
  destruct (decide (q = 0)) as [->|Hq].
  { exists 0%Z, 0%Z. split; [done|]. split; [done|]. by apply Qc_is_canon. }
  unfold fl. rewrite bool_decide_eq_false_2 by done. cbv zeta.
  set (e := ulp_exp q). set (p := pow2 e).
  pose proof (pow2_pos e) as Hp. fold p in Hp.
  assert (-1074 ≤ e)%Z as He by (unfold e, ulp_exp; lia).
  assert (0 < Qc_abs q) as Habs.
  { unfold Qc_abs. case_bool_decide as Hneg.
    - clear Hq. qc_hyps. qc_goal. qc_consts. lra.
    - apply Qcnot_lt_le in Hneg. destruct (Qcle_lt_or_eq _ _ Hneg); [done|].
      by destruct Hq. }
  destruct (Qc_log2_bounds _ Habs) as [_ Hup].
  assert (pow2 (Qc_log2 (Qc_abs q) + 1) ≤ Qc_of_Z (2 ^ 53) * p) as Hbound.
  { unfold p. rewrite <- pow2_add_nonneg by done.
    apply pow2_mono. unfold e, ulp_exp. lia. }
  destruct (round_half_even_nearest (q / p)) as (Hlo & Hhi & _).
  set (m := round_half_even (q / p)) in *.
  assert (q = q / p * p) as Hqp.
  { field. by apply Qclt_not_eq in Hp. }
  set (x := q / p) in *.
  assert (- Qc_of_Z (2 ^ 53) < x ∧ x < Qc_of_Z (2 ^ 53)) as [Hxlo Hxhi].
  { assert (Qc_abs (x * p) < Qc_of_Z (2 ^ 53) * p) as Hscaled.
    { rewrite <- Hqp. by eapply Qclt_le_trans. }
    pose proof (Qc_of_Z_pow2_pos 53 ltac:(done)) as HT.
    set (T := Qc_of_Z (2 ^ 53)) in *.
    clear Habs Hlo Hhi Hup Hbound Hqp Hq. clearbody x p T.
    unfold Qc_abs in Hscaled.
    case_bool_decide as Hneg; split; qc_hyps; qc_goal; qc_consts; nra. }
  assert (- 2 ^ 53 ≤ m ≤ 2 ^ 53)%Z as Hm.
  { assert (Qc_of_Z (- 2 ^ 53 - 1) < Qc_of_Z m ∧ Qc_of_Z m < Qc_of_Z (2 ^ 53 + 1))
      as [Hmlo Hmhi].
    { replace (Qc_of_Z (- 2 ^ 53 - 1)) with (- Qc_of_Z (2 ^ 53) - 1)
        by (by apply Qc_is_canon).
      replace (Qc_of_Z (2 ^ 53 + 1)) with (Qc_of_Z (2 ^ 53) + 1)
        by (by apply Qc_is_canon).
      set (T := Qc_of_Z (2 ^ 53)) in *. set (k := Qc_of_Z m) in *.
      clear Hqp Hup Hbound. split; qc_hyps; qc_goal; qc_consts; lra. }
    split.
    - destruct (Z.lt_ge_cases m (- 2 ^ 53)) as [Hlt|]; [|done]. exfalso.
      assert (m ≤ - 2 ^ 53 - 1)%Z as Hle%Qc_of_Z_le by lia.
      by apply Qcle_not_lt in Hle.
    - destruct (Z.lt_ge_cases (2 ^ 53) m) as [Hlt|]; [|done]. exfalso.
      assert (2 ^ 53 + 1 ≤ m)%Z as Hle%Qc_of_Z_le by lia.
      by apply Qcle_not_lt in Hle. }
  destruct (decide (Z.abs m = 2 ^ 53)%Z) as [Hcarry|Hin].
  - exists (m / 2)%Z, (e + 1)%Z. split; [|split; [lia|]].
    + destruct (Z.abs_spec m) as [[_ Hm']|[_ Hm']]; rewrite Hm' in Hcarry.
      * rewrite Hcarry. done.
      * replace m with (- 2 ^ 53)%Z by lia. done.
    + rewrite pow2_succ. fold p.
      assert (Qc_of_Z m = Qc_of_Z (m / 2) * Qc_of_Z 2) as ->; [|ring].
      rewrite <- Qc_of_Z_mult. f_equal.
      destruct (Z.abs_spec m) as [[_ Hm']|[_ Hm']]; rewrite Hm' in Hcarry.
      * rewrite Hcarry. done.
      * replace m with (- 2 ^ 53)%Z by lia. done.
  - exists m, e. split; [lia|]. done.
Qed.

End float_facts.

Section median_facts.
Local Open Scope Qc_scope.

Lemma Qc_leb_total (x y : Qc) : Qc_leb x y = true ∨ Qc_leb y x = true.
Proof.
  unfold Qc_leb. rewrite !bool_decide_eq_true.
  destruct (Qclt_le_dec x y); auto using Qclt_le_weak.
Qed.

Lemma Qc_leb_trans (x y z : Qc) :
  Qc_leb x y = true → Qc_leb y z = true → Qc_leb x z = true.
Proof. unfold Qc_leb. rewrite !bool_decide_eq_true. apply Qcle_trans. Qed.

Lemma sorted_Qc_ascending (l : list Qc) : StronglySorted Qcle (sorted Qc_leb l).
Proof.
  pose proof (sorted_sorted Qc_leb Qc_leb_total Qc_leb_trans l) as Hs.
  induction Hs as [|x l' Hs IH Hx]; constructor; [done|].
  eapply List.Forall_impl; [|exact Hx].
  intros y. unfold Qc_leb. by rewrite bool_decide_eq_true.
Qed.

Lemma median_is_statistical (data : list Qc) (m : Qc) :
  median data = Some m → is_statistical_median data m.
Proof.
  unfold median. rewrite sorted_length. intros Hm.
  exists (sorted Qc_leb data). split; [apply sorted_perm|].
  split; [apply sorted_Qc_ascending|]. cbv zeta.
  case_bool_decide; [done|].
  destruct (Nat.odd (length data)); [done|].
  destruct (sorted Qc_leb data !! (length data / 2 - 1)%nat) as [lo|] eqn:Hlo;
    [|done].
  destruct (sorted Qc_leb data !! (length data / 2)%nat) as [hi|] eqn:Hhi;
    [|done].
  exists lo, hi. cbn in Hm. by simplify_eq.
Qed.

Lemma median_nonempty (data : list Qc) : data ≠ [] → is_Some (median data).
Proof.
  intros Hne. unfold median. rewrite sorted_length.
  assert (0 < length data)%nat as Hlen by (destruct data; [done|simpl; lia]).
  case_bool_decide; [lia|].
  assert (length data / 2 < length (sorted Qc_leb data))%nat as Hhi.
  { rewrite sorted_length. apply Nat.div_lt; lia. }
  destruct (lookup_lt_is_Some_2 _ _ Hhi) as [hi Hhi'].
  destruct (Nat.odd (length data)); [by eexists|].
  assert (length data / 2 - 1 < length (sorted Qc_leb data))%nat as Hlo by lia.
  destruct (lookup_lt_is_Some_2 _ _ Hlo) as [lo Hlo'].
  rewrite Hlo', Hhi'. by eexists.
Qed.

End median_facts.

Section weekly_median_facts.
Import Fleaflicker.
Context `{!Builtins}.
Context (start_week week_for_report num_regular_season_weeks : Z).
Context (scoreboard : Z → json).

Lemma assoc_week_keys (f : Z → json) (weeks : list Z) (w : Z) :
  assoc ((λ wk, (pretty wk, f wk)) <$> weeks) (pretty w) =
  if bool_decide (w ∈ weeks) then Some (f w) else None.
Proof.
  induction weeks as [|wk weeks IH]; [done|].
  rewrite fmap_cons. cbn [assoc].
  destruct (String.eqb (pretty wk) (pretty w)) eqn:E.
  - apply String.eqb_eq in E. apply (inj pretty) in E as ->.
    rewrite bool_decide_eq_true_2; [done|left].
  - rewrite IH. apply String.eqb_neq in E.
    assert (wk ≠ w) by congruence.
    rewrite (bool_decide_ext (w ∈ wk :: weeks) (w ∈ weeks)); [done|].
    rewrite elem_of_cons. split; [intros [?|?]; [congruence|done]|by right].
Qed.

Lemma elem_of_py_range (a b w : Z) : w ∈ py_range a b ↔ a ≤ w < b.
Proof. unfold py_range. rewrite elem_of_seqZ. lia. Qed.

Lemma week_games_payload (w : Z) :
  start_week ≤ w ≤ num_regular_season_weeks →
  week_games start_week num_regular_season_weeks scoreboard w =
  payload_games (scoreboard w).
Proof.
  intros Hw. unfold week_games, payload_games, matchups_by_week.
  rewrite assoc_week_keys, bool_decide_eq_true_2; [done|].
  apply elem_of_py_range. lia.
Qed.

(** The loop appends the scores that parse, in the order of the games. *)
Lemma collect_scores_parsed (games : list json) (acc scores : list Qc) :
  collect_scores games acc = Ok scores → scores = acc ++ parsed_scores games.
Proof.
  revert acc. induction games as [|matchup games IH]; intros acc; simpl.
  - intros [= <-]. by rewrite app_nil_r.
  - unfold parsed_scores; simpl. unfold side_parsed.
    destruct (side_score matchup "home") as [h|]; simpl; [|done].
    destruct (side_score matchup "away") as [a|]; simpl; [|done].
    intros Hrest. apply IH in Hrest as ->.
    unfold parsed_scores. rewrite <- !app_assoc. f_equal.
    by destruct h, a.
Qed.

Lemma medians_loop_other (weeks : list Z) (m0 m : gmap string (option Qc)) (w : Z) :
  medians_loop start_week num_regular_season_weeks scoreboard weeks m0 = Ok m →
  w ∉ weeks → m !! pretty w = m0 !! pretty w.
Proof.
  revert m0. induction weeks as [|wk weeks IH]; intros m0; simpl.
  - by intros [= <-].
  - destruct (week_games _ _ _ wk) as [games|]; simpl; [|done].
    destruct (collect_scores games []) as [scores|]; simpl; [|done].
    intros Hm Hw. apply not_elem_of_cons in Hw as [Hne Hw].
    rewrite (IH _ Hm Hw), lookup_insert_ne; [done|].
    intros E. by apply (inj pretty) in E.
Qed.

Lemma medians_loop_entry (weeks : list Z) (m0 m : gmap string (option Qc)) (w : Z) :
  medians_loop start_week num_regular_season_weeks scoreboard weeks m0 = Ok m →
  NoDup weeks → w ∈ weeks →
  ∃ games : list json,
    week_games start_week num_regular_season_weeks scoreboard w = Ok games ∧
    m !! pretty w = Some (weekly_median (parsed_scores games)).
Proof.
  revert m0. induction weeks as [|wk weeks IH]; intros m0; simpl.
  - intros _ _ Hw. by apply elem_of_nil in Hw.
  - destruct (week_games _ _ _ wk) as [games|] eqn:Hg; simpl; [|done].
    destruct (collect_scores games []) as [scores|] eqn:Hs; simpl; [|done].
    intros Hm Hnd Hw. apply list.NoDup_cons in Hnd as [Hnotin Hnd].
    apply elem_of_cons in Hw as [->|Hw].
    + exists games. split; [done|].
      rewrite (medians_loop_other _ _ _ _ Hm Hnotin), lookup_insert_eq.
      by rewrite (collect_scores_parsed _ _ _ Hs).
    + by eapply IH.
Qed.

End weekly_median_facts.

Section weekly_median_claim.
Import Fleaflicker.
Local Open Scope Qc_scope.

(** C1, as amended.  The weekly medians.  After the median loop, for every
    week [w] from [start_week] to
    [min(week_for_report, num_regular_season_weeks)], with [scores] the
    scores parsed for [w] (the home and the away side of every game of the
    scoreboard of [w]): when there is at least one score, the entry of
    [median_score_by_week] for [w] is the statistical median [m] of [scores]
    rounded to 2 decimals, that is the float nearest to [cents / 100] for an
    integer [cents] nearest to [100 * m] (the even one when two are as
    near); when there is none, the mapping holds the key of [w] with the
    value [None]. *)
Theorem median_score_by_week_entries `{!Builtins}
    (start_week week_for_report num_regular_season_weeks : Z)
    (scoreboard : Z → json) (medians : gmap string (option Qc)) :
  median_score_by_week start_week week_for_report num_regular_season_weeks scoreboard
    = Ok medians →
  ∀ w : Z, (start_week ≤ w ≤ Z.min week_for_report num_regular_season_weeks)%Z →
    ∃ games : list json,
      payload_games (scoreboard w) = Ok games ∧
      let scores := parsed_scores games in
      (scores ≠ [] →
         ∃ (m : Qc) (cents : Z),
           is_statistical_median scores m ∧
           m * Qc_of_Z 100 - 1 / Qc_of_Z 2 ≤ Qc_of_Z cents ∧
           Qc_of_Z cents ≤ m * Qc_of_Z 100 + 1 / Qc_of_Z 2 ∧
           (Qc_of_Z cents = m * Qc_of_Z 100 - 1 / Qc_of_Z 2 ∨
            Qc_of_Z cents = m * Qc_of_Z 100 + 1 / Qc_of_Z 2 →
            Z.even cents = true) ∧
           medians !! pretty w = Some (Some (fl (Qc_of_Z cents / Qc_of_Z 100)))) ∧
      (scores = [] → medians !! pretty w = Some None).
Proof.
  intros Hrun w Hw. unfold median_score_by_week in Hrun.
  destruct (medians_loop_entry _ _ _ _ _ _ w Hrun) as (games & Hgames & Hentry).
  { apply NoDup_seqZ. }
  { apply elem_of_py_range. lia. }
  rewrite week_games_payload in Hgames by lia.
  exists games. split; [done|]. cbv zeta. rewrite Hentry.
  split.
  - intros Hne. destruct (median_nonempty _ Hne) as [m Hm].
    exists m, (round_half_even (m * Qc_of_Z 100)).
    split; [by apply median_is_statistical|].
    destruct (round_half_even_nearest (m * Qc_of_Z 100)) as (Hlo & Hhi & Htie).
    split; [done|]. split; [done|]. split; [done|].
    unfold weekly_median. destruct (parsed_scores games); [done|].
    by rewrite Hm.
  - by intros ->.
Qed.

End weekly_median_claim.

Lemma median_score_by_week_entries_witness :
  ∃ medians : gmap string (option Qc),
    Fleaflicker.median_score_by_week (H := Sample.builtins) 1 2 3 Sample.scoreboard
      = Ok medians ∧
    ∃ games : list json,
      Fleaflicker.payload_games (Sample.scoreboard 1) = Ok games ∧
      let scores := Fleaflicker.parsed_scores (H := Sample.builtins) games in
      (scores ≠ [] →
         ∃ (m : Qc) (cents : Z),
           is_statistical_median scores m ∧
           (m * Qc_of_Z 100 - 1 / Qc_of_Z 2 ≤ Qc_of_Z cents)%Qc ∧
           (Qc_of_Z cents ≤ m * Qc_of_Z 100 + 1 / Qc_of_Z 2)%Qc ∧
           (Qc_of_Z cents = (m * Qc_of_Z 100 - 1 / Qc_of_Z 2)%Qc ∨
            Qc_of_Z cents = (m * Qc_of_Z 100 + 1 / Qc_of_Z 2)%Qc →
            Z.even cents = true) ∧
           medians !! pretty 1 = Some (Some (fl (Qc_of_Z cents / Qc_of_Z 100)%Qc))) ∧
      (scores = [] → medians !! pretty 1 = Some None).
Proof.
  eexists. split; [vm_compute; reflexivity|].
  apply (median_score_by_week_entries (H := Sample.builtins) 1 2 3 Sample.scoreboard);
    first [vm_compute; reflexivity | lia].
Defined.

(** C1, as first stated, has a week without a parsed score absent from the
    mapping.  In the sample season week 2 lies in the range of the medians
    and has no game, so no parsed score; the mapping holds its key, with the
    value [None]. *)
Lemma scoreless_week_keeps_its_key :
  ∃ medians : gmap string (option Qc),
    Fleaflicker.median_score_by_week (H := Sample.builtins) 1 2 3 Sample.scoreboard
      = Ok medians ∧
    1 ≤ 2 ≤ Z.min 2 3 ∧
    (∃ games : list json,
       Fleaflicker.payload_games (Sample.scoreboard 2) = Ok games ∧
       Fleaflicker.parsed_scores (H := Sample.builtins) games = []) ∧
    medians !! pretty 2 = Some None ∧
    medians !! pretty 2 ≠ None.
Proof.
  eexists. split; [vm_compute; reflexivity|].
  split; [lia|]. split; [by eexists|]. split; [vm_compute; reflexivity|].
  vm_compute. discriminate.
Qed.

(** The sample week 1 has the scores 100.5, 90, 80 and 120.25, whose median
    is 95.25; the sample week 2 has none. *)
Example sample_medians :
  (λ m, (bool_decide (Fleaflicker.dict_get m "1" = Some (Q2Qc (381 # 4))),
         Fleaflicker.dict_get m "2", m !! "3")) <$>
  Fleaflicker.median_score_by_week (H := Sample.builtins) 1 2 3 Sample.scoreboard
  = Ok (true, None, None).
Proof. vm_compute. reflexivity. Qed.

(** Float arithmetic shows in the medians.  The floats nearest to 100.26 and
    100.27 have a float mean above 100.265, stored as 100.27; those nearest
    to 2.67 and 2.68 have a float mean below 2.675, stored as 2.67; the
    float 0.125 lies halfway between 0.12 and 0.13 and rounds to 0.12. *)
Example sample_float_medians :
  let float (cents : Z) := fl (Q2Qc (cents # 100)) in
  bool_decide (float 10026 = Q2Qc (7055170291252593 # 70368744177664)) = true ∧
  bool_decide (Fleaflicker.weekly_median
                 [float 9010; float 10026; float 10027; float 12000]
               = Some (float 10027)) = true ∧
  bool_decide (Fleaflicker.weekly_median [float 267; float 268] = Some (float 267))
    = true ∧
  bool_decide (Fleaflicker.weekly_median [Q2Qc (1 # 8)] = Some (float 12)) = true.
Proof. vm_compute. done. Qed.

(** ** Transactions by week: the buckets only grow *)

Section extends_facts.
Import Fleaflicker.

Lemma extends_refl (tbw : tx_by_week) : extends tbw tbw.
Proof.
  split; [done|]. intros k b Hb. exists b. split; [done|]. split; [done|].
  intros kind l Hl. exists []. by rewrite app_nil_r.
Qed.

Lemma extends_trans (t1 t2 t3 : tx_by_week) :
  extends t1 t2 → extends t2 t3 → extends t1 t3.
Proof.
  intros [Hd12 H12] [Hd23 H23]. split; [congruence|].
  intros k b Hb.
  destruct (H12 k b Hb) as (b2 & Hb2 & Hdb2 & Hl2).
  destruct (H23 k b2 Hb2) as (b3 & Hb3 & Hdb3 & Hl3).
  exists b3. split; [done|]. split; [congruence|].
  intros kind l Hl.
  destruct (Hl2 kind l Hl) as (l2 & Hl2').
  destruct (Hl3 kind _ Hl2') as (l3 & Hl3').
  exists (l2 ++ l3). by rewrite app_assoc.
Qed.

Lemma append_event_extends (tbw tbw' : tx_by_week) (wk_key kind : string) (ev : json) :
  append_event tbw wk_key kind ev = Ok tbw' → extends tbw tbw'.
Proof.
  unfold append_event.
  destruct (tbw !! wk_key) as [bucket|] eqn:Hb; [|done].
  destruct (bucket !! kind) as [l|] eqn:Hl; [|done].
  intros [= <-]. split.
  - by apply dom_insert_lookup_L.
  - intros k b Hk. destruct (decide (k = wk_key)) as [->|Hne].
    + rewrite lookup_insert_eq. simplify_eq. eexists. split; [done|]. split.
      * by apply dom_insert_lookup_L.
      * intros kind' l' Hl'. destruct (decide (kind' = kind)) as [->|Hne].
        -- rewrite lookup_insert_eq. simplify_eq. by eexists.
        -- rewrite lookup_insert_ne by done. exists []. by rewrite app_nil_r.
    + rewrite lookup_insert_ne by done. exists b. split; [done|]. split; [done|].
      intros kind' l' Hl'. exists []. by rewrite app_nil_r.
Qed.

End extends_facts.

Section normaliser_facts.
Import Fleaflicker WeekWindow.
Context `{!Builtins}.
Context (start_week week_for_report num_regular_season_weeks : Z).
Context (in_season : Qc → bool).
Context (offline : bool) (cache : Z → string → option json).
Context (team_tx_pages : string → list json).

(** Destructs the tests and binds of a step until its outcome shows. *)
Ltac step_cases :=
  repeat first
    [ progress (unfold mbind, res_bind, mret, res_ret, fmap, res_fmap in *)
    | match goal with
      | |- context [match ?x with _ => _ end] =>
          lazymatch x with
          | context [match _ with _ => _ end] => fail
          | _ => destruct x eqn:?
          end
      end ].

Lemma append_event_other (tbw tbw' : tx_by_week) (wk_key kind k : string) (ev : json) :
  append_event tbw wk_key kind ev = Ok tbw' → k ≠ wk_key → tbw' !! k = tbw !! k.
Proof.
  unfold append_event. intros Ha Hne.
  destruct (tbw !! wk_key); [|done]. destruct (g !! kind); [|done].
  simplify_eq. by rewrite lookup_insert_ne.
Qed.

(** An activity changes nothing or appends one event under its week key. *)
Lemma record_activity_effect (tbw tbw' : tx_by_week) (week_ord : Z)
    (info : activity_info) (activity : json) :
  record_activity tbw week_ord info activity = Ok tbw' →
  tbw' = tbw ∨
  ∃ (kind : string) (ev : json), append_event tbw (pretty week_ord) kind ev = Ok tbw'.
Proof.
  unfold record_activity. step_cases; intros Hr; simplify_eq; eauto.
Qed.

Lemma effect_extends (tbw tbw' : tx_by_week) (k : string) :
  (tbw' = tbw ∨ ∃ (kind : string) (ev : json), append_event tbw k kind ev = Ok tbw') →
  extends tbw tbw'.
Proof.
  intros [->|(kind & ev & Ha)]; [apply extends_refl|by eapply append_event_extends].
Qed.

Lemma effect_other (tbw tbw' : tx_by_week) (k k' : string) :
  (tbw' = tbw ∨ ∃ (kind : string) (ev : json), append_event tbw k kind ev = Ok tbw') →
  k' ≠ k → tbw' !! k' = tbw !! k'.
Proof.
  intros [->|(kind & ev & Ha)] Hne; [done|by eapply append_event_other].
Qed.

Lemma activity_step_extends (week_start_ts : gmap Z Z) (tbw tbw' : tx_by_week)
    (activity : json) :
  activity_step in_season week_start_ts tbw activity = Ok tbw' → extends tbw tbw'.
Proof.
  unfold activity_step.
  destruct (read_activity in_season activity) as [[info|]|]; simpl;
    [|by intros [= <-]; apply extends_refl|done].
  destruct (effective_week _ _ _) as [w|]; [|by intros [= <-]; apply extends_refl].
  destruct (w =? 0); [by intros [= <-]; apply extends_refl|].
  intros Hr. eapply effect_extends, record_activity_effect, Hr.
Qed.

Lemma activities_loop_extends (week_start_ts : gmap Z Z) (activity_items : list json)
    (tbw tbw' : tx_by_week) :
  activities_loop in_season week_start_ts activity_items tbw = Ok tbw' →
  extends tbw tbw'.
Proof.
  revert tbw. induction activity_items as [|a l IH]; intros tbw; simpl.
  - intros [= <-]. apply extends_refl.
  - destruct (activity_step in_season week_start_ts tbw a) as [tbw1|] eqn:Hs;
      simpl; [|done].
    intros Hl. eapply extends_trans; [by eapply activity_step_extends|by apply IH].
Qed.

Lemma record_trade_extends (team_received : list (string * list string * Z))
    (trade_ts : option Z) (trade_id : json) (idx : nat)
    (rows : list (string * list string * Z)) (tbw : tx_by_week) :
  extends tbw (record_trade team_received trade_ts trade_id idx rows tbw).1.
Proof.
  revert idx tbw. induction rows as [|[[team_id rec_ids] w] rows IH]; intros idx tbw;
    simpl; [apply extends_refl|].
  case_bool_decide; [|apply IH].
  destruct (append_event _ _ _ _) as [tbw1|] eqn:Ha; [|apply extends_refl].
  eapply extends_trans; [by eapply append_event_extends|apply IH].
Qed.

Lemma trade_step_extends (week_start_ts : gmap Z Z) (tbw : tx_by_week) (tr : json) :
  extends tbw (trade_step start_week week_start_ts tbw tr).1.
Proof.
  unfold trade_step.
  destruct (_ ≫= _) as [[[trade_ts trade_id] team_received]|];
    [apply record_trade_extends|apply extends_refl].
Qed.

Lemma trades_loop_extends (week_start_ts : gmap Z Z) (trades : list json)
    (tbw : tx_by_week) :
  extends tbw (trades_loop start_week week_start_ts trades tbw).1.
Proof.
  revert tbw. induction trades as [|tr trades IH]; intros tbw; simpl;
    [apply extends_refl|].
  pose proof (trade_step_extends week_start_ts tbw tr) as Hs.
  destruct (trade_step start_week week_start_ts tbw tr) as [tbw1 ok].
  destruct ok; [|done].
  eapply extends_trans; [exact Hs|apply IH].
Qed.

Lemma record_team_item_effect (team_id : string) (tbw tbw' : tx_by_week)
    (oldest_ts oldest_ts' : option Z) (info : item_info) (wk_ord : Z) :
  record_team_item start_week num_regular_season_weeks team_id tbw oldest_ts info wk_ord
    = Ok (tbw', oldest_ts') →
  tbw' = tbw ∨
  ∃ (kind : string) (ev : json), append_event tbw (pretty wk_ord) kind ev = Ok tbw'.
Proof.
  unfold record_team_item. step_cases; intros Hr; simplify_eq; eauto.
Qed.

Lemma team_item_extends (week_start_ts : gmap Z Z) (team_id : string)
    (tbw tbw' : tx_by_week) (oldest_ts oldest_ts' : option Z) (it : json) :
  team_item start_week num_regular_season_weeks week_start_ts team_id tbw oldest_ts it
    = Ok (tbw', oldest_ts') →
  extends tbw tbw'.
Proof.
  unfold team_item.
  destruct (read_team_item it) as [info|]; simpl; [|done].
  destruct (effective_week _ _ _) as [w|]; [|by intros [= <- _]; apply extends_refl].
  destruct (w =? 0); [by intros [= <- _]; apply extends_refl|].
  intros Hr. eapply effect_extends, record_team_item_effect, Hr.
Qed.

Lemma team_items_extends (week_start_ts : gmap Z Z) (team_id : string)
    (items : list json) (tbw : tx_by_week) (oldest_ts : option Z) :
  extends tbw
    (team_items start_week num_regular_season_weeks week_start_ts team_id items
       tbw oldest_ts).1.1.
Proof.
  revert tbw oldest_ts. induction items as [|it items IH]; intros tbw oldest_ts;
    simpl; [apply extends_refl|].
  destruct (team_item _ _ _ _ _ _ _) as [[tbw1 oldest1]|] eqn:Hi;
    [|apply extends_refl].
  eapply extends_trans; [by eapply team_item_extends|apply IH].
Qed.

Lemma team_pages_extends (week_start_ts : gmap Z Z) (team_id : string)
    (pages : list json) (tbw : tx_by_week) :
  extends tbw
    (team_pages start_week num_regular_season_weeks week_start_ts team_id pages tbw).1.
Proof.
  revert tbw. induction pages as [|page pages IH]; intros tbw; simpl;
    [apply extends_refl|].
  destruct (_ ≫= _) as [[[items result_offset]|]|]; try apply extends_refl.
  pose proof (team_items_extends week_start_ts team_id items tbw None) as Hi.
  destruct (team_items _ _ _ _ _ _ _) as [[tbw1 oldest] ok]. simpl in Hi.
  destruct ok; simpl; [|done].
  destruct (truthy result_offset); simpl; [|done].
  destruct (earliest_start_ts week_start_ts) as [earliest|];
    [destruct oldest as [oldest|]|];
    try (eapply extends_trans; [exact Hi|apply IH]).
  destruct (_ && _); [done|].
  eapply extends_trans; [exact Hi|apply IH].
Qed.

Lemma hydrate_event_extends (team_id wk_key : string) (tbw tbw' : tx_by_week)
    (ev : json) :
  hydrate_event team_id wk_key tbw ev = Ok tbw' → extends tbw tbw'.
Proof.
  unfold hydrate_event. step_cases; intros Hr; simplify_eq.
  by eapply append_event_extends.
Qed.

Lemma hydrate_events_extends (team_id wk_key : string) (evs : list json)
    (tbw : tx_by_week) :
  extends tbw (hydrate_events team_id wk_key evs tbw).1.
Proof.
  revert tbw. induction evs as [|ev evs IH]; intros tbw; simpl;
    [apply extends_refl|].
  destruct (hydrate_event team_id wk_key tbw ev) as [tbw1|] eqn:He;
    [|apply extends_refl].
  eapply extends_trans; [by eapply hydrate_event_extends|apply IH].
Qed.

Lemma hydrate_weeks_extends (team_id : string) (weeks : list Z) (tbw : tx_by_week) :
  extends tbw (hydrate_weeks cache team_id weeks tbw).1.
Proof.
  revert tbw. induction weeks as [|wk weeks IH]; intros tbw; simpl;
    [apply extends_refl|].
  destruct (cache wk team_id) as [cached|]; [|apply IH].
  destruct (iter cached) as [evs|]; [|apply extends_refl].
  pose proof (hydrate_events_extends team_id (pretty wk) evs tbw) as He.
  destruct (hydrate_events team_id (pretty wk) evs tbw) as [tbw1 ok].
  destruct ok; [|done].
  eapply extends_trans; [exact He|apply IH].
Qed.

Lemma team_step_extends (week_start_ts : gmap Z Z) (tbw : tx_by_week) (tm : json) :
  extends tbw
    (team_step start_week week_for_report num_regular_season_weeks offline cache
       team_tx_pages week_start_ts tbw tm).1.
Proof.
  unfold team_step. destruct (get tm "id"); [|apply extends_refl].
  destruct offline; [apply hydrate_weeks_extends|apply team_pages_extends].
Qed.

Lemma teams_loop_extends (week_start_ts : gmap Z Z) (teams : list json)
    (tbw : tx_by_week) :
  extends tbw
    (teams_loop start_week week_for_report num_regular_season_weeks offline cache
       team_tx_pages week_start_ts teams tbw).1.
Proof.
  revert tbw. induction teams as [|tm teams IH]; intros tbw; simpl;
    [apply extends_refl|].
  pose proof (team_step_extends week_start_ts tbw tm) as Hs.
  destruct (team_step _ _ _ _ _ _ _ _ _) as [tbw1 ok].
  destruct ok; [|done].
  eapply extends_trans; [exact Hs|apply IH].
Qed.

(** After lines 265-267 there is an empty bucket under the key of every week
    of the regular season, and nothing else. *)
Lemma init_transactions_lookup (k : string) :
  init_transactions start_week num_regular_season_weeks initial_transactions_by_week
    !! k =
  if bool_decide (k ∈ pretty <$> py_range start_week (num_regular_season_weeks + 1))
  then Some empty_bucket else None.
Proof.
  unfold init_transactions, initial_transactions_by_week.
  assert (∀ (weeks : list Z) (t : tx_by_week),
            foldl (λ t wk, <[pretty wk := empty_bucket]> t) t weeks !! k =
            if bool_decide (k ∈ pretty <$> weeks)
            then Some empty_bucket else t !! k) as Hfold.
  { induction weeks as [|wk weeks IH]; intros t; [done|].
    rewrite fmap_cons. cbn [foldl]. rewrite IH.
    destruct (decide (k = pretty wk)) as [->|Hne].
    - rewrite lookup_insert_eq, (bool_decide_eq_true_2 (_ ∈ _ :: _)) by left.
      by case_bool_decide.
    - rewrite lookup_insert_ne by done.
      rewrite (bool_decide_ext (k ∈ pretty wk :: (pretty <$> weeks))
                               (k ∈ pretty <$> weeks)); [done|].
      rewrite elem_of_cons. split; [intros [?|?]; done|by right]. }
  by rewrite Hfold, lookup_empty.
Qed.

Lemma elem_of_week_keys (k : string) :
  k ∈ pretty <$> py_range start_week (num_regular_season_weeks + 1) ↔
  ∃ w : Z, start_week ≤ w ≤ num_regular_season_weeks ∧ k = pretty w.
Proof.
  rewrite list_elem_of_fmap. split.
  - intros (w & -> & Hw). apply elem_of_seqZ in Hw. exists w. split; [lia|done].
  - intros (w & Hw & ->). exists w. split; [done|]. apply elem_of_seqZ. lia.
Qed.

Lemma dom_empty_bucket :
  dom empty_bucket = ({["adds"; "claims"; "drops"; "trades"]} : gset string).
Proof. unfold empty_bucket. rewrite !dom_insert_L, dom_empty_L. set_solver. Qed.

End normaliser_facts.

Section buckets_claim.
Import Fleaflicker.

(** C10.  The buckets of [league.transactions_by_week] at the end of the
    adapter run: there is a bucket under the key of every week from
    [start_week] to [num_regular_season_weeks] and under no other key; every
    bucket has exactly the four kinds "adds", "claims", "drops" and "trades",
    each a list; and the buckets are the ones created at the start, grown by
    the events appended to their lists, so that no event sits under a key
    that was not there (an event of a week outside that range is skipped). *)
Theorem transactions_by_week_buckets `{!Builtins}
    (start_week week_for_report num_regular_season_weeks : Z)
    (scoreboard : Z → json) (in_season : Qc → bool)
    (offline : bool) (cache : Z → string → option json)
    (team_tx_pages : string → list json)
    (activity_items trades ranked_league_teams : list json) (tbw : tx_by_week) :
  transactions_by_week start_week week_for_report num_regular_season_weeks scoreboard
    in_season offline cache team_tx_pages activity_items trades ranked_league_teams
    = Ok tbw →
  (∀ k : string,
     is_Some (tbw !! k) ↔
     ∃ w : Z, start_week ≤ w ≤ num_regular_season_weeks ∧ k = pretty w) ∧
  (∀ (k : string) (b : gmap string (list json)),
     tbw !! k = Some b →
     dom b = ({["adds"; "claims"; "drops"; "trades"]} : gset string)) ∧
  extends
    (init_transactions start_week num_regular_season_weeks initial_transactions_by_week)
    tbw.
Proof.
  unfold transactions_by_week.
  set (tbw0 := init_transactions _ _ _).
  set (wst := week_start_ts _ _ _).
  destruct (activities_loop in_season wst activity_items tbw0) as [tbw1|] eqn:Ha;
    simpl; [|done].
  intros [= <-].
  assert (extends tbw0
            (teams_loop start_week week_for_report num_regular_season_weeks offline
               cache team_tx_pages wst ranked_league_teams
               (trades_loop start_week wst trades tbw1).1).1) as Hext.
  { eapply extends_trans; [by eapply activities_loop_extends|].
    eapply extends_trans; [apply trades_loop_extends|apply teams_loop_extends]. }
  set (tbw := (teams_loop _ _ _ _ _ _ _ _ _).1) in *.
  destruct Hext as [Hdom Hbuckets].
  assert (∀ k, is_Some (tbw !! k) ↔ is_Some (tbw0 !! k)) as Hkeys.
  { intros k. by rewrite <- !elem_of_dom, Hdom. }
  split; [|split; [|by split]].
  - intros k. rewrite Hkeys. unfold tbw0. rewrite init_transactions_lookup.
    rewrite <- elem_of_week_keys. case_bool_decide; [|by rewrite is_Some_alt].
    split; [done|by eexists].
  - intros k b Hb.
    destruct (proj1 (Hkeys k) (mk_is_Some _ _ Hb)) as [b0 Hb0].
    destruct (Hbuckets k b0 Hb0) as (b' & Hb' & Hd & _). simplify_eq.
    rewrite Hd. unfold tbw0 in Hb0. rewrite init_transactions_lookup in Hb0.
    case_bool_decide; [|done]. simplify_eq. apply dom_empty_bucket.
Qed.

End buckets_claim.

Lemma transactions_by_week_buckets_witness :
  ∃ tbw : Fleaflicker.tx_by_week,
    Fleaflicker.transactions_by_week (H := Sample.builtins) 1 2 3 Sample.scoreboard
      Sample.in_season false Sample.no_cache Sample.pages
      [Sample.drop_activity; Sample.late_activity]
      [Sample.offseason_trade; Sample.half_dated_trade]
      [JObj [("id", JInt 10)]]
      = Ok tbw ∧
    (∀ k : string, is_Some (tbw !! k) ↔ ∃ w : Z, 1 ≤ w ≤ 3 ∧ k = pretty w) ∧
    (∀ (k : string) (b : gmap string (list json)),
       tbw !! k = Some b →
       dom b = ({["adds"; "claims"; "drops"; "trades"]} : gset string)) ∧
    Fleaflicker.extends
      (Fleaflicker.init_transactions 1 3 Fleaflicker.initial_transactions_by_week) tbw.
Proof.
  eexists. split; [vm_compute; reflexivity|].
  apply (transactions_by_week_buckets (H := Sample.builtins) 1 2 3 Sample.scoreboard
           Sample.in_season false Sample.no_cache Sample.pages
           [Sample.drop_activity; Sample.late_activity]
           [Sample.offseason_trade; Sample.half_dated_trade]
           [JObj [("id", JInt 10)]]).
  vm_compute. reflexivity.
Defined.

(** In the sample run the drop sits in week 2, the claim in week 1, the
    offseason trade in week 1 (once per team) and the half-dated trade in
    week 2 (for team 10 only). *)
Example sample_transactions :
  (λ tbw : Fleaflicker.tx_by_week,
     (length <$> (tbw !! "1" ≫= (.!! "trades")),
      length <$> (tbw !! "1" ≫= (.!! "claims")),
      tbw !! "2" ≫= (.!! "drops"),
      length <$> (tbw !! "2" ≫= (.!! "trades")),
      tbw !! "3" ≫= (.!! "drops"),
      tbw !! "2" ≫= (.!! "adds"))) <$>
  Fleaflicker.transactions_by_week (H := Sample.builtins) 1 2 3 Sample.scoreboard
    Sample.in_season false Sample.no_cache Sample.pages
    [Sample.drop_activity; Sample.late_activity]
    [Sample.offseason_trade; Sample.half_dated_trade]
    [JObj [("id", JInt 10)]]
  = Ok (Some 2%nat, Some 1%nat,
        Some [Fleaflicker.move_event "10" (JStr "77")], Some 1%nat,
        Some [], Some []).
Proof. vm_compute. reflexivity. Qed.

(** ** Week resolution of activity and per-team events *)

Section resolution_facts.
Import Fleaflicker WeekWindow.

Lemma map_epoch_empty (ts : Z) : _map_epoch ∅ ts = None.
Proof. reflexivity. Qed.

Lemma effective_week_mapped (week_start_ts : gmap Z Z) (ems m : Z) (week_ord : option Z) :
  _map_epoch week_start_ts ems = Some m →
  effective_week week_start_ts ems week_ord = Some m.
Proof.
  intros Hm. unfold effective_week. case_bool_decide as He.
  - subst. by rewrite map_epoch_empty in Hm.
  - rewrite Hm. destruct week_ord as [o|]; simpl; [|done].
    case_bool_decide; [done|]. f_equal.
    destruct (decide (m = o)); [done|]. by exfalso.
Qed.

Lemma effective_week_unresolved (week_start_ts : gmap Z Z) (ems : Z) :
  week_start_ts = ∅ ∨ _map_epoch week_start_ts ems = None →
  effective_week week_start_ts ems None = None.
Proof.
  intros Hno. unfold effective_week. case_bool_decide; [done|].
  by destruct Hno as [?| ->].
Qed.

End resolution_facts.

Section epoch_week_claim.
Import Fleaflicker WeekWindow.

(** C4.  The epoch-derived week wins.  For an activity item, and for an item
    of a team's transaction pages, whose timestamp lies in the window of week
    [m], the week of the event is [m], whatever ordinal the platform reports
    and also when it reports none: the event is recorded as an event of week
    [m], that is, nothing is recorded or one event is appended under the key
    of [m], and the bucket of a different platform ordinal is left as it
    was. *)
Theorem epoch_week_wins `{!Builtins} (start_week num_regular_season_weeks : Z)
    (in_season : Qc → bool) (week_start_ts : gmap Z Z) (tbw : tx_by_week) (m : Z) :
  (∀ (activity : json) (info : activity_info),
     read_activity in_season activity = Ok (Some info) →
     _map_epoch week_start_ts (a_ems info) = Some m →
     effective_week week_start_ts (a_ems info) (a_week_ord info) = Some m ∧
     activity_step in_season week_start_ts tbw activity =
       (if m =? 0 then Ok tbw else record_activity tbw m info activity) ∧
     ∀ tbw' : tx_by_week,
       activity_step in_season week_start_ts tbw activity = Ok tbw' →
       (tbw' = tbw ∨
        ∃ (kind : string) (ev : json), append_event tbw (pretty m) kind ev = Ok tbw') ∧
       ∀ o : Z, a_week_ord info = Some o → o ≠ m → tbw' !! pretty o = tbw !! pretty o) ∧
  (∀ (team_id : string) (oldest_ts : option Z) (it : json) (info : item_info),
     read_team_item it = Ok info →
     _map_epoch week_start_ts (i_ts info) = Some m →
     effective_week week_start_ts (i_ts info) (i_wk_ord info) = Some m ∧
     team_item start_week num_regular_season_weeks week_start_ts team_id tbw oldest_ts it =
       (if m =? 0 then Ok (tbw, oldest_ts)
        else record_team_item start_week num_regular_season_weeks team_id tbw
               oldest_ts info m) ∧
     ∀ (tbw' : tx_by_week) (oldest_ts' : option Z),
       team_item start_week num_regular_season_weeks week_start_ts team_id tbw oldest_ts it
         = Ok (tbw', oldest_ts') →
       (tbw' = tbw ∨
        ∃ (kind : string) (ev : json), append_event tbw (pretty m) kind ev = Ok tbw') ∧
       ∀ o : Z, i_wk_ord info = Some o → o ≠ m → tbw' !! pretty o = tbw !! pretty o).
Proof.
  split.
  - intros activity info Hread Hm.
    pose proof (effective_week_mapped _ _ _ (a_week_ord info) Hm) as Heff.
    assert (activity_step in_season week_start_ts tbw activity =
              (if m =? 0 then Ok tbw else record_activity tbw m info activity)) as Hstep.
    { unfold activity_step. rewrite Hread. simpl. by rewrite Heff. }
    split; [done|]. split; [done|].
    intros tbw' Hok. rewrite Hstep in Hok.
    assert (tbw' = tbw ∨
            ∃ (kind : string) (ev : json),
              append_event tbw (pretty m) kind ev = Ok tbw') as Heffect.
    { destruct (m =? 0); [left; congruence|by eapply record_activity_effect]. }
    split; [done|]. intros o _ Hne. eapply effect_other; [exact Heffect|].
    intros E. by apply (inj pretty) in E.
  - intros team_id oldest_ts it info Hread Hm.
    pose proof (effective_week_mapped _ _ _ (i_wk_ord info) Hm) as Heff.
    assert (team_item start_week num_regular_season_weeks week_start_ts team_id tbw
              oldest_ts it =
            (if m =? 0 then Ok (tbw, oldest_ts)
             else record_team_item start_week num_regular_season_weeks team_id tbw
                    oldest_ts info m)) as Hstep.
    { unfold team_item. rewrite Hread. simpl. by rewrite Heff. }
    split; [done|]. split; [done|].
    intros tbw' oldest_ts' Hok. rewrite Hstep in Hok.
    assert (tbw' = tbw ∨
            ∃ (kind : string) (ev : json),
              append_event tbw (pretty m) kind ev = Ok tbw') as Heffect.
    { destruct (m =? 0); [left; congruence|by eapply record_team_item_effect]. }
    split; [done|]. intros o _ Hne. eapply effect_other; [exact Heffect|].
    intros E. by apply (inj pretty) in E.
Qed.

End epoch_week_claim.

Lemma epoch_week_wins_witness :
  let tbw := Fleaflicker.init_transactions 1 3 Fleaflicker.initial_transactions_by_week in
  ∃ info : Fleaflicker.activity_info,
    Fleaflicker.read_activity (H := Sample.builtins) Sample.in_season Sample.drop_activity
      = Ok (Some info) ∧
    Fleaflicker.a_week_ord info = Some 3 ∧
    WeekWindow._map_epoch Sample.three_week_starts (Fleaflicker.a_ems info) = Some 2 ∧
    Fleaflicker.activity_step (H := Sample.builtins) Sample.in_season
      Sample.three_week_starts tbw Sample.drop_activity =
    Fleaflicker.record_activity tbw 2 info Sample.drop_activity.
Proof.
  intros tbw. eexists. split; [vm_compute; reflexivity|].
  split; [reflexivity|]. split; [reflexivity|].
  refine (proj1 (proj2 (proj1
            (epoch_week_wins (H := Sample.builtins) 1 3 Sample.in_season
               Sample.three_week_starts tbw 2) Sample.drop_activity _ _ _)));
    vm_compute; reflexivity.
Defined.

(** ** Offseason trades and unresolved activity *)

Section offseason_facts.
Import Fleaflicker WeekWindow.
Context `{!Builtins}.
Context (start_week : Z) (week_start_ts : gmap Z Z).

Lemma foldl_min_le (x : Z) (l : list Z) :
  foldl Z.min x l ≤ x ∧ ∀ y, y ∈ l → foldl Z.min x l ≤ y.
Proof.
  revert x. induction l as [|z l IH]; intros x; simpl.
  - split; [lia|]. intros y Hy. by apply elem_of_nil in Hy.
  - destruct (IH (Z.min x z)) as [Hx Hl]. split; [lia|].
    intros y Hy. apply elem_of_cons in Hy as [->|Hy]; [lia|by apply Hl].
Qed.

Lemma earliest_start_le (earliest w s : Z) :
  earliest_start_ts week_start_ts = Some earliest →
  week_start_ts !! w = Some s → earliest ≤ s.
Proof.
  unfold earliest_start_ts. intros He Hw.
  assert (s ∈ (map_to_list week_start_ts).*2) as Hs.
  { apply list_elem_of_fmap. exists (w, s). split; [done|].
    by apply elem_of_map_to_list. }
  destruct ((map_to_list week_start_ts).*2) as [|x l]; [done|]. simplify_eq.
  destruct (foldl_min_le x l) as [Hx Hl].
  apply elem_of_cons in Hs as [->|Hs]; [done|by apply Hl].
Qed.

Lemma earliest_start_nonempty (earliest : Z) :
  earliest_start_ts week_start_ts = Some earliest → week_start_ts ≠ ∅.
Proof.
  intros He ->. unfold earliest_start_ts in He.
  by rewrite map_to_list_empty in He.
Qed.

(** A timestamp before the earliest known start lies in no window. *)
Lemma before_earliest_unmapped (earliest ts : Z) :
  earliest_start_ts week_start_ts = Some earliest → ts < earliest →
  _map_epoch week_start_ts ts = None.
Proof.
  intros He Hts. apply map_epoch_scan_None. intros i Hi [Hstart _].
  destruct (lookup_lt_is_Some_2 _ _ Hi) as [w Hw].
  unfold window_start in Hstart.
  rewrite (list_lookup_total_correct _ _ _ Hw) in Hstart.
  assert (w ∈ sorted_weeks week_start_ts) as Hin by (by eapply list_elem_of_lookup_2).
  apply elem_of_sorted_weeks in Hin as [s Hs].
  rewrite (lookup_total_correct _ _ _ Hs) in Hstart.
  pose proof (earliest_start_le _ _ _ He Hs). lia.
Qed.

Lemma player_week_guess_offseason (earliest ts : Z) (week_guess : option Z) (p : json) :
  earliest_start_ts week_start_ts = Some earliest → ts < earliest →
  requested_start_week week_start_ts p = Ok None →
  week_guess = None ∨ week_guess = Some start_week →
  player_week_guess start_week week_start_ts (Some ts) week_guess p = Some start_week.
Proof.
  intros He Hts Hreq Hwg. unfold player_week_guess.
  pose proof (earliest_start_nonempty _ He) as Hne.
  rewrite (bool_decide_eq_false_2 _ Hne). simpl.
  assert ((if ts =? 0 then None else trade_map_epoch week_start_ts ts) = None) as ->.
  { destruct (ts =? 0); [done|]. unfold trade_map_epoch.
    destruct (ts =? 0); [done|]. by eapply before_earliest_unmapped. }
  rewrite Hreq, He.
  destruct Hwg as [-> | ->]; simpl.
  - destruct (ts =? 0); simpl; by rewrite (proj2 (Z.ltb_lt _ _) Hts).
  - by destruct (negb (ts =? 0) || (start_week =? 0)).
Qed.

Lemma players_week_guess_offseason (earliest ts : Z) (players : list json)
    (week_guess : option Z) :
  earliest_start_ts week_start_ts = Some earliest → ts < earliest →
  (∀ p, p ∈ players → requested_start_week week_start_ts p = Ok None) →
  week_guess = None ∨ week_guess = Some start_week →
  players ≠ [] ∨ week_guess = Some start_week →
  foldl (player_week_guess start_week week_start_ts (Some ts)) week_guess players
  = Some start_week.
Proof.
  intros He Hts. revert week_guess.
  induction players as [|p players IH]; intros week_guess Hreq Hwg Hne; simpl.
  - by destruct Hne.
  - apply IH.
    + intros q Hq. apply Hreq. by right.
    + right. eapply player_week_guess_offseason; eauto. apply Hreq. left.
    + right. eapply player_week_guess_offseason; eauto. apply Hreq. left.
Qed.

(** The loop over the obtained players reads the ids and folds the week
    guess, independently of each other. *)
Lemma entry_players_split (trade_ts : option Z) (players : list json)
    (rec_ids : list string) (week_guess : option Z) :
  entry_players start_week week_start_ts trade_ts players rec_ids week_guess =
  (ids ← received_ids players;
   Ok (rec_ids ++ ids,
       foldl (player_week_guess start_week week_start_ts trade_ts) week_guess players)).
Proof.
  revert rec_ids week_guess.
  induction players as [|p players IH]; intros rec_ids week_guess; simpl.
  - by rewrite app_nil_r.
  - destruct (received_id p) as [id|]; simpl; [|done].
    rewrite IH. destruct (received_ids players) as [ids|]; simpl; [|done].
    by rewrite app_assoc.
Qed.

End offseason_facts.

Section offseason_claim.
Import Fleaflicker WeekWindow.

(** C5.  Events whose week does not resolve.  A team of a trade whose
    timestamp is earlier than the earliest known week start, and whose
    obtained players have no requested game that maps to a week, is kept for
    [start_week] (the row is kept when the team received a player id, has a
    team id and [start_week] is not 0, as for every week).  An activity item
    with no ordinal whose timestamp lies in no window (or when no window is
    known) is dropped: the transactions stay as they were. *)
Theorem unresolved_week_events `{!Builtins} (start_week : Z) (in_season : Qc → bool)
    (week_start_ts : gmap Z Z) :
  (∀ (earliest ts : Z) (entry : json) (team_id : string) (players : list json)
     (rec_ids : list string),
     earliest_start_ts week_start_ts = Some earliest → ts < earliest →
     entry_team_id entry = Ok team_id →
     obtained_players entry = Ok players → players ≠ [] →
     received_ids players = Ok rec_ids →
     (∀ p, p ∈ players → requested_start_week week_start_ts p = Ok None) →
     _map_epoch week_start_ts ts = None ∧
     entry_received start_week week_start_ts (Some ts) entry =
       Ok (kept_row team_id rec_ids (Some start_week)) ∧
     (rec_ids ≠ [] → team_id ≠ "" → start_week ≠ 0 →
      entry_received start_week week_start_ts (Some ts) entry =
        Ok (Some (team_id, rec_ids, start_week)))) ∧
  (∀ (tbw : tx_by_week) (activity : json) (info : activity_info),
     read_activity in_season activity = Ok (Some info) →
     a_week_ord info = None →
     week_start_ts = ∅ ∨ _map_epoch week_start_ts (a_ems info) = None →
     activity_step in_season week_start_ts tbw activity = Ok tbw).
Proof.
  split.
  - intros earliest ts entry team_id players rec_ids He Hts Hteam Hplayers Hne Hids Hreq.
    assert (entry_received start_week week_start_ts (Some ts) entry =
              Ok (kept_row team_id rec_ids (Some start_week))) as Hentry.
    { unfold entry_received. rewrite Hteam, Hplayers. simpl.
      rewrite entry_players_split, Hids. simpl.
      by rewrite (players_week_guess_offseason _ _ earliest ts players None)
        by auto. }
    split; [by eapply before_earliest_unmapped|]. split; [done|].
    intros Hrec Hid Hsw. rewrite Hentry. unfold kept_row.
    destruct rec_ids; [done|].
    apply String.eqb_neq in Hid. apply Z.eqb_neq in Hsw. by rewrite Hid, Hsw.
  - intros tbw activity info Hread Hord Hno.
    unfold activity_step. rewrite Hread. simpl.
    by rewrite Hord, effective_week_unresolved.
Qed.

End offseason_claim.

Lemma unresolved_week_events_witness :
  let tbw := Fleaflicker.init_transactions 1 3 Fleaflicker.initial_transactions_by_week in
  Fleaflicker.entry_received (H := Sample.builtins) 1 Sample.three_week_starts (Some 500)
    (Sample.team_entry 10 [JObj [Sample.pro_player 77]])
    = Ok (Some ("10", ["77"], 1)) ∧
  Fleaflicker.activity_step (H := Sample.builtins) Sample.in_season
    Sample.three_week_starts tbw Sample.late_activity = Ok tbw.
Proof.
  intros tbw. split.
  - refine (proj2 (proj2 (proj1
              (unresolved_week_events (H := Sample.builtins) 1 Sample.in_season
                 Sample.three_week_starts)
              1000 500 (Sample.team_entry 10 [JObj [Sample.pro_player 77]])
              "10" [JObj [Sample.pro_player 77]] ["77"] _ _ _ _ _ _ _)) _ _ _);
      try done.
    intros p Hp. apply list_elem_of_singleton in Hp. by subst.
  - eapply (proj2 (unresolved_week_events (H := Sample.builtins) 1 Sample.in_season
                     Sample.three_week_starts)).
    + vm_compute. reflexivity.
    + reflexivity.
    + right. vm_compute. reflexivity.
Defined.

(** The week starts read from the sample scoreboards. *)
Example sample_week_starts :
  Fleaflicker.week_start_ts (H := Sample.builtins) 1 3 Sample.scoreboard
  = Sample.three_week_starts.
Proof. vm_compute. reflexivity. Qed.

(** ** Trades are recorded team by team *)

Section trade_facts.
Import Fleaflicker WeekWindow.
Context `{!Builtins}.
Context (start_week : Z) (week_start_ts : gmap Z Z).

Lemma with_trades_nil (b : gmap string (list json)) :
  is_Some (b !! "trades") → with_trades [] b = b.
Proof.
  intros [l Hl]. unfold with_trades. rewrite Hl. simpl.
  rewrite app_nil_r. by apply insert_id.
Qed.

Lemma with_trades_app (evs evs' : list json) (b : gmap string (list json)) :
  with_trades evs' (with_trades evs b) = with_trades (evs ++ evs') b.
Proof.
  unfold with_trades. rewrite lookup_insert_eq. simpl.
  by rewrite insert_insert_eq, app_assoc.
Qed.

Lemma append_trade (tbw : tx_by_week) (wk_key : string)
    (b : gmap string (list json)) (ev : json) :
  tbw !! wk_key = Some b → is_Some (b !! "trades") →
  append_event tbw wk_key "trades" ev = Ok (<[wk_key := with_trades [ev] b]> tbw).
Proof.
  intros Hb [l Hl]. unfold append_event, with_trades. by rewrite Hb, Hl.
Qed.

(** Every kept row adds its event to the trades of its week, when that week
    has a bucket. *)
Lemma record_trade_events (team_received : list (string * list string * Z))
    (trade_ts : option Z) (trade_id : json) (k : string) (idx : nat)
    (rows : list (string * list string * Z)) (tbw : tx_by_week) :
  (∀ k b, tbw !! k = Some b → is_Some (b !! "trades")) →
  (record_trade team_received trade_ts trade_id idx rows tbw).2 = true ∧
  (record_trade team_received trade_ts trade_id idx rows tbw).1 !! k =
  with_trades
    (concat (imap (λ j r,
                     if bool_decide (pretty r.2 = k)
                     then [trade_event r.1.1 r.1.2
                             (sent_ids team_received (idx + j)) trade_ts trade_id]
                     else [])
                  rows))
  <$> tbw !! k.
Proof.
  revert idx tbw. induction rows as [|[[team_id rec_ids] w] rows IH];
    intros idx tbw Htrades.
  - split; [done|]. simpl.
    destruct (tbw !! k) as [b|] eqn:Hb; simpl; [|done].
    by rewrite with_trades_nil by eauto.
  - cbn [record_trade]. rewrite imap_cons. cbn [concat fst snd].
    rewrite Nat.add_0_r.
    assert (concat (imap ((λ j r,
                       if bool_decide (pretty r.2 = k)
                       then [trade_event r.1.1 r.1.2
                               (sent_ids team_received (idx + j)) trade_ts trade_id]
                       else []) ∘ S) rows) =
            concat (imap (λ j r,
                       if bool_decide (pretty r.2 = k)
                       then [trade_event r.1.1 r.1.2
                               (sent_ids team_received (S idx + j)) trade_ts trade_id]
                       else []) rows)) as Hshift.
    { f_equal. apply imap_ext. intros j r _. simpl.
      by replace (idx + S j)%nat with (S (idx + j)) by lia. }
    rewrite Hshift.
    case_bool_decide as Hbucket.
    + destruct Hbucket as [b Hb].
      rewrite (append_trade _ _ b) by eauto.
      destruct (IH (S idx) (<[pretty w := with_trades
                   [trade_event team_id rec_ids (sent_ids team_received idx)
                      trade_ts trade_id] b]> tbw)) as [Hok Hk].
      { intros k' b'. destruct (decide (k' = pretty w)) as [->|Hne].
        - rewrite lookup_insert_eq. intros [= <-]. unfold with_trades.
          rewrite lookup_insert_eq. by eexists.
        - rewrite lookup_insert_ne by done. apply Htrades. }
      split; [done|]. rewrite Hk.
      destruct (decide (k = pretty w)) as [->|Hne].
      * rewrite lookup_insert_eq, Hb. simpl.
        rewrite with_trades_app. by rewrite bool_decide_eq_true_2.
      * rewrite lookup_insert_ne by done.
        by rewrite bool_decide_eq_false_2.
    + destruct (IH (S idx) tbw Htrades) as [Hok Hk].
      split; [done|]. rewrite Hk.
      case_bool_decide as Hw; [|done]. subst k.
      destruct (tbw !! pretty w) eqn:E; [|done].
      destruct Hbucket. by eexists.
Qed.

(** The kept rows of a trade are those of its teams that have one, in order. *)
Lemma trade_team_received_rows (trade_ts : option Z) (entries : list json)
    (acc rows : list (string * list string * Z)) :
  trade_team_received start_week week_start_ts trade_ts entries acc = Ok rows →
  ∃ results : list (option (string * list string * Z)),
    Forall2 (λ entry r, entry_received start_week week_start_ts trade_ts entry = Ok r)
            entries results ∧
    rows = acc ++ (results ≫= option_list).
Proof.
  revert acc. induction entries as [|entry entries IH]; intros acc; simpl.
  - intros [= <-]. exists []. split; [constructor|]. by rewrite app_nil_r.
  - destruct (entry_received _ _ _ entry) as [r|] eqn:Hr; simpl; [|done].
    intros Hrest. destruct (IH _ Hrest) as (results & Hall & ->).
    exists (r :: results). split; [by constructor|].
    simpl. by rewrite <- app_assoc.
Qed.

Lemma trade_team_received_none (trade_ts : option Z) (entries : list json)
    (acc : list (string * list string * Z)) :
  (∀ entry, entry ∈ entries →
     entry_received start_week week_start_ts trade_ts entry = Ok None) →
  trade_team_received start_week week_start_ts trade_ts entries acc = Ok acc.
Proof.
  revert acc. induction entries as [|entry entries IH]; intros acc Hnone; simpl;
    [done|].
  rewrite (Hnone entry) by left. simpl. rewrite app_nil_r.
  apply IH. intros e He. apply Hnone. by right.
Qed.

Lemma get_same_value (v x : json) (k k' : string) :
  get v k = Ok x → ∃ y : json, get v k' = Ok y.
Proof. destruct v; simpl; try done. by eexists. Qed.

End trade_facts.

Section trade_claim.
Import Fleaflicker WeekWindow.

(** C6, as amended.  A completed trade is recorded team by team.  The rows
    kept for a trade are those of its teams that received player ids and
    have a week for them, in order; a team without a resolvable week gets no
    row, and the other teams of the trade keep theirs.  Every kept row is
    appended to the trades of its own week when that week has a bucket, with
    the ids received by the other kept teams as the players sent.  When no
    team of the trade has a row, the trade leaves the transactions as they
    were. *)
Theorem trade_recorded_per_team `{!Builtins} (start_week : Z) (week_start_ts : gmap Z Z) :
  (∀ (trade_ts : option Z) (entries : list json)
     (rows : list (string * list string * Z)),
     trade_team_received start_week week_start_ts trade_ts entries [] = Ok rows →
     ∃ results : list (option (string * list string * Z)),
       Forall2 (λ entry r,
                  entry_received start_week week_start_ts trade_ts entry = Ok r)
               entries results ∧
       rows = results ≫= option_list) ∧
  (∀ (tbw : tx_by_week) (tr teams trade_id : json) (entries : list json)
     (rows : list (string * list string * Z)),
     (∀ k b, tbw !! k = Some b → is_Some (b !! "trades")) →
     get tr "teams" = Ok teams → get tr "id" = Ok trade_id →
     iter (py_or teams (JList [])) = Ok entries →
     trade_team_received start_week week_start_ts (trade_timestamp tr trade_ts_keys)
       entries [] = Ok rows →
     (trade_step start_week week_start_ts tbw tr).2 = true ∧
     ∀ k : string,
       (trade_step start_week week_start_ts tbw tr).1 !! k =
       with_trades
         (trade_events_for k rows (trade_timestamp tr trade_ts_keys) trade_id)
       <$> tbw !! k) ∧
  (∀ (tbw : tx_by_week) (tr teams : json) (entries : list json),
     get tr "teams" = Ok teams →
     iter (py_or teams (JList [])) = Ok entries →
     (∀ entry, entry ∈ entries →
        entry_received start_week week_start_ts (trade_timestamp tr trade_ts_keys) entry
          = Ok None) →
     trade_step start_week week_start_ts tbw tr = (tbw, true)).
Proof.
  split; [|split].
  - intros trade_ts entries rows Hrows.
    by apply trade_team_received_rows in Hrows.
  - intros tbw tr teams trade_id entries rows Htrades Hteams Hid Hentries Hrows.
    unfold trade_step, mbind, res_bind.
    rewrite Hteams; cbv beta iota. rewrite Hid; cbv beta iota.
    rewrite Hentries; cbv beta iota. rewrite Hrows; cbv beta iota. split.
    + exact (proj1 (record_trade_events rows _ trade_id "" 0 rows tbw Htrades)).
    + intros k.
      exact (proj2 (record_trade_events rows _ trade_id k 0 rows tbw Htrades)).
  - intros tbw tr teams entries Hteams Hentries Hnone.
    destruct (get_same_value _ _ "teams" "id" Hteams) as [trade_id Hid].
    unfold trade_step, mbind, res_bind.
    rewrite Hteams; cbv beta iota. rewrite Hid; cbv beta iota.
    rewrite Hentries; cbv beta iota.
    by rewrite trade_team_received_none.
Qed.

End trade_claim.

Lemma trade_recorded_per_team_witness :
  let tbw := Fleaflicker.init_transactions 1 3 Fleaflicker.initial_transactions_by_week in
  (Fleaflicker.trade_step (H := Sample.builtins) 1 Sample.three_week_starts tbw
     Sample.half_dated_trade).2 = true ∧
  ∀ k : string,
    (Fleaflicker.trade_step (H := Sample.builtins) 1 Sample.three_week_starts tbw
       Sample.half_dated_trade).1 !! k =
    Fleaflicker.with_trades
      (Fleaflicker.trade_events_for k [("10", ["77"], 2)] None (JInt 501))
    <$> tbw !! k.
Proof.
  intros tbw.
  refine (proj1 (proj2 (trade_recorded_per_team (H := Sample.builtins) 1
                          Sample.three_week_starts))
            tbw Sample.half_dated_trade _ (JInt 501) _ [("10", ["77"], 2)] _ _ _ _ _);
    try reflexivity.
  intros k b Hb. unfold tbw in Hb.
  rewrite (init_transactions_lookup 1 3) in Hb.
  case_bool_decide; [|done]. by simplify_eq.
Defined.

(** C6, as stated, fails on the sample trade without a timestamp: team 11
    received player 88 and has no week for it, and still team 10 of the same
    trade gets its event, under week 2. *)
Lemma half_dated_trade_partly_recorded :
  ¬ Fleaflicker.discarded_when_unresolved (H := Sample.builtins) 1
      Sample.three_week_starts
      (Fleaflicker.init_transactions 1 3 Fleaflicker.initial_transactions_by_week)
      Sample.half_dated_trade.
Proof.
  intros Hclaim.
  specialize (Hclaim _ _ eq_refl eq_refl).
  assert ((Fleaflicker.trade_step (H := Sample.builtins) 1 Sample.three_week_starts
             (Fleaflicker.init_transactions 1 3
                Fleaflicker.initial_transactions_by_week)
             Sample.half_dated_trade).1 !! "2" ≫= (.!! "trades")
          = Some [Fleaflicker.trade_event "10" ["77"] [] None (JInt 501)]) as Hrec
    by (vm_compute; reflexivity).
  rewrite Hclaim in Hrec; [by vm_compute in Hrec|].
  exists (Sample.team_entry 11 [JObj [Sample.pro_player 88]]),
    [JObj [Sample.pro_player 88]], ["88"], None.
  split; [right; left|]. repeat split; done.
Qed.

(** ** The awards of the report week *)

(** With the drop in the week, the started pickup of team 10 wins with 12.5
    points, the benched pickup of team 11 is mentioned with 20 points, and
    the only trade row, of net -5 points, is both the best and the worst
    trade. *)
Example sample_awards_with_drop :
  let a := Report.transaction_awards (H := Sample.builtins) 1 Sample.bench_positions
             Sample.players_by_week Sample.free_agents_by_week Sample.teams_by_week
             Sample.tx_with_drop 2 2 in
  let trade := {| Report.row_team := "Ten"; Report.row_manager := "Ann";
                  Report.row_detail := "Ada, Ben vs Cy";
                  Report.row_points := round2 (Qc_of_Z (-5)) |} in
  Report.best_fa_pickups a =
    [{| Report.row_team := "Ten"; Report.row_manager := "Ann";
        Report.row_detail := "Pat"; Report.row_points := round2 (Q2Qc (25 # 2)) |}] ∧
  Report.best_fa_pickups_hm a =
    Some {| Report.hm_team := "Eleven"; Report.hm_player := "Quin";
            Report.hm_points := round2 (Qc_of_Z 20) |} ∧
  Report.best_trades a = [trade] ∧ Report.worst_trades a = [trade].
Proof. vm_compute. repeat split. Qed.

(** ** Z-scores *)

Section z_score_facts.
Import Report.
Local Open Scope Qc_scope.

Lemma coerce_default (v : option Qc) : coerce v = default 0 v.
Proof. destruct v as [z|]; simpl; [|done]. by case_bool_decide. Qed.

Lemma forallb_none (z : list (string * option Qc))
    (dec : ∀ kv : string * option Qc, Decision (kv.2 = None)) :
  forallb (λ kv, @bool_decide _ (dec kv)) z = true ↔ ∀ kv, kv ∈ z → kv.2 = None.
Proof.
  induction z as [|kv z IH]; simpl.
  - split; [|done]. intros _ kv Hkv. by apply elem_of_nil in Hkv.
  - rewrite andb_true_iff, IH, bool_decide_eq_true. split.
    + intros [Hkv Hz] kv' Hin. apply elem_of_cons in Hin as [->|Hin]; auto.
    + intros Hall. split; [apply Hall; left|]. intros kv' Hin. apply Hall. by right.
Qed.

(** The rows follow the ranked teams one by one, ranks counting from
    [z_score_rank]. *)
Lemma z_rows_ranked (teams_results : gmap string BaseTeam)
    (ranked : list (string * Qc)) (z_score_rank : Z) :
  (∀ kv, kv ∈ ranked → is_Some (teams_results !! kv.1)) →
  ∃ rows : list z_row,
    z_rows teams_results ranked z_score_rank = Ok rows ∧
    length rows = length ranked ∧
    ∀ (i : nat) (tid : string) (z : Qc), ranked !! i = Some (tid, z) →
      ∃ team : BaseTeam,
        teams_results !! tid = Some team ∧
        rows !! i = Some {| z_rank := (z_score_rank + Z.of_nat i)%Z;
                            z_team := name team; z_manager := manager_str team;
                            z_score := if bool_decide (z = 0) then None
                                       else Some (round2 z) |}.
Proof.
  revert z_score_rank. induction ranked as [|[tid z] ranked IH];
    intros z_score_rank Hteams.
  - exists []. split; [done|]. split; [done|]. intros i tid z Hi. done.
  - destruct (Hteams (tid, z)) as [team Hteam]; [left|].
    destruct (IH (z_score_rank + 1)%Z) as (rows & Hrows & Hlen & Hrow).
    { intros kv Hkv. apply Hteams. by right. }
    eexists. simpl in Hteam. simpl. rewrite Hteam, Hrows. simpl.
    split; [done|]. split; [simpl; by rewrite Hlen|].
    intros [|i] tid' z' Hi; simpl in Hi.
    + simplify_eq. exists team. split; [done|]. simpl.
      by rewrite Z.add_0_r.
    + destruct (Hrow i tid' z' Hi) as (team' & Hteam' & Hi').
      exists team'. split; [done|]. simpl. rewrite Hi'.
      do 2 f_equal. lia.
Qed.

Lemma z_desc_total (x y : string * Qc) : z_desc x y = true ∨ z_desc y x = true.
Proof. unfold z_desc. destruct (Qc_leb_total x.2 y.2); auto. Qed.

Lemma z_desc_trans (x y z : string * Qc) :
  z_desc x y = true → z_desc y z = true → z_desc x z = true.
Proof. unfold z_desc. intros Hxy Hyz. by eapply Qc_leb_trans. Qed.

Lemma sorted_z_desc (l : list (string * Qc)) :
  StronglySorted (λ x y, y.2 ≤ x.2) (sorted z_desc l).
Proof.
  pose proof (sorted_sorted z_desc z_desc_total z_desc_trans l) as Hs.
  induction Hs as [|x l' Hs IH Hx]; constructor; [done|].
  eapply List.Forall_impl; [|exact Hx].
  intros y. unfold z_desc, Qc_leb. by rewrite bool_decide_eq_true.
Qed.

End z_score_facts.

Section z_score_claim.
Import Report.
Local Open Scope Qc_scope.

(** C9.  The z-score table.  When the z-score of every team is undefined,
    the table stays empty.  When some are undefined and some are not (and
    every team of the z-score results is a team of the week), the teams are
    ranked by their z-scores in descending order, an undefined z-score
    counting as 0, and the table has exactly one row per team: row [i] is
    the row of the team ranked [i], with rank [i + 1]. *)
Theorem z_score_table (teams_results : gmap string BaseTeam)
    (z_score_results : list (string * option Qc)) :
  ((∀ kv, kv ∈ z_score_results → kv.2 = None) →
   data_for_z_scores teams_results z_score_results = Ok []) ∧
  ((∃ kv, kv ∈ z_score_results ∧ kv.2 = None) →
   (∃ kv, kv ∈ z_score_results ∧ kv.2 ≠ None) →
   (∀ kv, kv ∈ z_score_results → is_Some (teams_results !! kv.1)) →
   ∃ (ranked : list (string * Qc)) (rows : list z_row),
     data_for_z_scores teams_results z_score_results = Ok rows ∧
     ranked ≡ₚ (λ kv, (kv.1, default 0 kv.2)) <$> z_score_results ∧
     StronglySorted (λ x y, y.2 ≤ x.2) ranked ∧
     length rows = length z_score_results ∧
     ∀ (i : nat) (tid : string) (z : Qc), ranked !! i = Some (tid, z) →
       ∃ team : BaseTeam,
         teams_results !! tid = Some team ∧
         rows !! i = Some {| z_rank := (1 + Z.of_nat i)%Z;
                             z_team := name team; z_manager := manager_str team;
                             z_score := if bool_decide (z = 0) then None
                                        else Some (round2 z) |}).
Proof.
  split.
  - intros Hall. unfold data_for_z_scores.
    by rewrite (proj2 (forallb_none _ _) Hall).
  - intros (kv0 & Hin0 & Hnone) (kv1 & Hin1 & Hsome) Hteams.
    unfold data_for_z_scores.
    destruct (forallb _ z_score_results) eqn:Hf.
    { pose proof (proj1 (forallb_none _ _) Hf) as Hf'. destruct Hsome. by apply Hf'. }
    assert (existsb (λ kv, bool_decide (kv.2 = None)) z_score_results = true) as ->.
    { apply existsb_exists. exists kv0. split; [by apply list_elem_of_In|].
      by apply bool_decide_eq_true. }
    set (coerced := (λ kv, (kv.1, coerce kv.2)) <$> z_score_results).
    assert (coerced = (λ kv, (kv.1, default 0 kv.2)) <$> z_score_results) as Hco.
    { apply list_fmap_ext. intros i kv _. simpl. by rewrite coerce_default. }
    destruct (z_rows_ranked teams_results (sorted z_desc coerced) 1)
      as (rows & Hrows & Hlen & Hrow).
    { intros kv Hkv. apply elem_of_sorted in Hkv. unfold coerced in Hkv.
      apply list_elem_of_fmap in Hkv as (kv' & -> & Hkv'). by apply Hteams. }
    exists (sorted z_desc coerced), rows.
    split; [done|]. split; [by rewrite sorted_perm, Hco|]. split.
    { apply sorted_z_desc. }
    split; [|done].
    rewrite Hlen, sorted_length. unfold coerced. by rewrite length_fmap.
Qed.

End z_score_claim.

Lemma z_score_table_witness :
  ∃ (ranked : list (string * Qc)) (rows : list Report.z_row),
    Report.data_for_z_scores Sample.z_teams Sample.z_scores = Ok rows ∧
    ranked ≡ₚ (λ kv, (kv.1, default 0%Qc kv.2)) <$> Sample.z_scores ∧
    StronglySorted (λ x y, (y.2 ≤ x.2)%Qc) ranked ∧
    length rows = length Sample.z_scores ∧
    ∀ (i : nat) (tid : string) (z : Qc), ranked !! i = Some (tid, z) →
      ∃ team : BaseTeam,
        Sample.z_teams !! tid = Some team ∧
        rows !! i = Some {| Report.z_rank := (1 + Z.of_nat i)%Z;
                            Report.z_team := name team;
                            Report.z_manager := manager_str team;
                            Report.z_score := if bool_decide (z = 0%Qc) then None
                                              else Some (round2 z) |}.
Proof.
  apply (proj2 (z_score_table Sample.z_teams Sample.z_scores)).
  - exists ("11", None). split; [left|done].
  - exists ("10", Some (Q2Qc (3 # 2))). split; [right; left|done].
  - intros kv Hkv. unfold Sample.z_scores in Hkv.
    apply elem_of_cons in Hkv as [->|Hkv]; [by eexists|].
    apply list_elem_of_singleton in Hkv as ->. by eexists.
Defined.

(** Team 10 is ranked first with 1.5; team 11, whose z-score is undefined,
    is ranked second and shown as N/A. *)
Example sample_z_scores :
  Report.data_for_z_scores Sample.z_teams Sample.z_scores =
  Ok [{| Report.z_rank := 1; Report.z_team := "Ten"; Report.z_manager := "Ann";
         Report.z_score := Some (round2 (Q2Qc (3 # 2))) |};
      {| Report.z_rank := 2; Report.z_team := "Eleven"; Report.z_manager := "Bob";
         Report.z_score := None |}].
Proof. vm_compute. reflexivity. Qed.

Section award_facts.
Import Report.
Context `{!Builtins}.
Context (start_week : Z) (bench_positions : list string).
Context (players_by_week : list (string * gmap (Z + string) BasePlayer)).
Context (free_agents_by_week : gmap string (gmap string BasePlayer)).
Context (teams_by_week : gmap string (gmap string BaseTeam)).
Context (transactions_by_week : gmap string (gmap string (list json))).
Context (curr_week : Z).

Local Abbreviation trade_row :=
  (trade_row start_week players_by_week free_agents_by_week teams_by_week curr_week).
Local Abbreviation trade_rows_loop :=
  (trade_rows_loop start_week players_by_week free_agents_by_week teams_by_week
     curr_week).
Local Abbreviation trade_awards :=
  (trade_awards start_week players_by_week free_agents_by_week teams_by_week
     transactions_by_week curr_week).
Local Abbreviation best_fa_awards :=
  (best_fa_awards start_week bench_positions players_by_week free_agents_by_week
     teams_by_week curr_week).
Local Abbreviation worst_fa_awards :=
  (worst_fa_awards start_week bench_positions players_by_week free_agents_by_week
     teams_by_week curr_week).
Local Abbreviation drop_awards :=
  (drop_awards start_week players_by_week free_agents_by_week teams_by_week curr_week).
Local Abbreviation awards_block :=
  (awards_block start_week bench_positions players_by_week free_agents_by_week
     teams_by_week transactions_by_week curr_week).
Local Abbreviation drops_loop :=
  (drops_loop start_week bench_positions players_by_week free_agents_by_week
     teams_by_week transactions_by_week curr_week).
Local Abbreviation bucket := (bucket transactions_by_week curr_week).

Lemma step_completed {S} (f : S → res S) (st : S * bool) :
  (step f st).2 = true → st.2 = true ∧ f st.1 = Ok (step f st).1.
Proof.
  unfold step. destruct st as [s [|]]; simpl; [|done].
  by destruct (f s).
Qed.

Lemma step_ended {S} (f : S → res S) (s : S) : step f (s, false) = (s, false).
Proof. done. Qed.

Lemma trade_rows_loop_rows (trades : list json) (acc rows : list award_row) :
  trade_rows_loop trades acc = Ok rows →
  ∃ results : list (option award_row),
    Forall2 (λ tr r, trade_row tr = Ok r) trades results ∧
    rows = acc ++ (results ≫= option_list).
Proof.
  revert acc. induction trades as [|tr trades IH]; intros acc; simpl.
  - intros [= <-]. exists []. split; [constructor|]. by rewrite app_nil_r.
  - destruct (trade_row tr) as [r|] eqn:Hr; simpl; [|done].
    intros Hrest. destruct (IH _ Hrest) as (results & Hall & ->).
    exists (r :: results). split; [by constructor|].
    simpl. by rewrite <- app_assoc.
Qed.

(** An event of the trades bucket with no received or no sent player gives
    no row. *)
Lemma trade_row_pick_only (tr : json) (row : award_row) :
  str_list tr "players_received" = Ok [] ∨ str_list tr "players_sent" = Ok [] →
  trade_row tr ≠ Ok (Some row).
Proof.
  unfold Report.trade_row. intros Hempty.
  destruct (get tr "team_id") as [t|]; simpl; [|done].
  destruct (str_list tr "players_received") as [rec_ids|]; simpl; [|done].
  destruct (str_list tr "players_sent") as [sent_ids|]; simpl; [|done].
  destruct Hempty as [[= ->]|[= ->]]; [done|]. by destruct rec_ids.
Qed.

Lemma trade_awards_rows (a a' : awards) (rows : list award_row) :
  trade_awards a = Ok a' → trade_rows_loop (bucket "trades") [] = Ok rows →
  rows ≠ [] →
  best_trades a' = take 1 (sorted row_desc rows) ∧
  worst_trades a' = take 1 (sorted row_asc (sorted row_desc rows)).
Proof.
  unfold Report.trade_awards. intros Ha Hrows Hne. rewrite Hrows in Ha.
  simpl in Ha. destruct rows; [done|]. by simplify_eq.
Qed.

(** When the block of one drop runs to its end, its last step was the trade
    awards. *)
Lemma awards_block_completed (fa_candidates drop_candidates : list candidate)
    (st : awards * bool) :
  (awards_block fa_candidates drop_candidates st).2.2 = true →
  ∃ a : awards, trade_awards a = Ok (awards_block fa_candidates drop_candidates st).2.1.
Proof.
  unfold Report.awards_block.
  destruct (drop_awards _ _) as [dc st']. simpl.
  intros Hok. apply step_completed in Hok as [_ Hok]. by eexists.
Qed.

Lemma drops_loop_ended (fa_candidates : list candidate) (drops : list json)
    (drop_candidates : list candidate) (a : awards) :
  drops_loop fa_candidates drops drop_candidates (a, false) = (a, false).
Proof. by destruct drops. Qed.

Lemma drops_loop_completed (fa_candidates : list candidate) (drops : list json)
    (drop_candidates : list candidate) (st : awards * bool) :
  drops ≠ [] →
  (drops_loop fa_candidates drops drop_candidates st).2 = true →
  ∃ a : awards,
    trade_awards a = Ok (drops_loop fa_candidates drops drop_candidates st).1.
Proof.
  revert drop_candidates st. induction drops as [|ev drops IH];
    intros drop_candidates st Hne; [done|].
  cbn [Report.drops_loop]. destruct st as [a ok]. cbn [fst snd].
  destruct ok; [|done].
  destruct (drop_candidate _ _ _ ev) as [c|]; [|done].
  pose proof (awards_block_completed fa_candidates (drop_candidates ++ [c]) (a, true))
    as Hblock.
  destruct (awards_block fa_candidates (drop_candidates ++ [c]) (a, true))
    as [dc [a1 ok]]. cbn [fst snd] in Hblock. cbv beta iota.
  destruct drops as [|ev' drops].
  - cbn [Report.drops_loop fst snd]. intros ->. by apply Hblock.
  - by apply IH.
Qed.

Lemma by_points_desc_total (x y : candidate) :
  by_points_desc x y = true ∨ by_points_desc y x = true.
Proof. unfold by_points_desc. destruct (Qc_leb_total x.2 y.2); auto. Qed.

Lemma by_points_desc_trans (x y z : candidate) :
  by_points_desc x y = true → by_points_desc y z = true → by_points_desc x z = true.
Proof. unfold by_points_desc. intros Hxy Hyz. by eapply Qc_leb_trans. Qed.

(** The team of a started pickup is a team of the week. *)
Lemma started_team_lookup (c : candidate) :
  started bench_positions teams_by_week curr_week c = true →
  is_Some (team_lookup teams_by_week curr_week c.1.1).
Proof.
  unfold started, roster_get, team_lookup.
  destruct (curr_team_objs teams_by_week curr_week !! c.1.1); [by eexists|done].
Qed.

(** One pass of lines 474-495 that raises nothing, when some pickup was
    started: the best pickup is a started pickup with the most points among
    the started ones, and a mention is made only of a benched pickup with
    strictly more points. *)
Lemma started_pickup_wins (fa_candidates : list candidate) (a : awards) :
  started_fa bench_positions teams_by_week curr_week fa_candidates ≠ [] →
  (best_fa_awards fa_candidates (a, true)).2 = true →
  ∃ (best : candidate) (row : award_row),
    best ∈ started_fa bench_positions teams_by_week curr_week fa_candidates ∧
    (∀ c, c ∈ started_fa bench_positions teams_by_week curr_week fa_candidates →
          (c.2 ≤ best.2)%Qc) ∧
    pickup_row start_week players_by_week free_agents_by_week teams_by_week
      curr_week best = Ok (Some row) ∧
    row_points row = round2 best.2 ∧
    best_fa_pickups (best_fa_awards fa_candidates (a, true)).1 = [row] ∧
    ∀ hm : mention,
      best_fa_pickups_hm (best_fa_awards fa_candidates (a, true)).1 = Some hm →
      ∃ c, c ∈ benched_fa bench_positions teams_by_week curr_week fa_candidates ∧
           (best.2 < c.2)%Qc ∧ hm_points hm = round2 c.2.
Proof.
  intros Hstarted. unfold Report.best_fa_awards.
  destruct (sorted by_points_desc (started_fa _ _ _ fa_candidates))
    as [|best rest] eqn:Hsort; [by apply sorted_nil_inv in Hsort|].
  destruct (sorted_head by_points_desc by_points_desc_total by_points_desc_trans
              _ _ _ Hsort) as [Hin Hmax].
  assert (is_Some (team_lookup teams_by_week curr_week best.1.1)) as [t Ht].
  { apply started_team_lookup.
    unfold started_fa in Hin. by apply list_elem_of_filter in Hin as [? _]. }
  assert (∀ c, c ∈ started_fa bench_positions teams_by_week curr_week fa_candidates →
               (c.2 ≤ best.2)%Qc) as Hmax'.
  { intros c Hc. specialize (Hmax c Hc). unfold by_points_desc, Qc_leb in Hmax.
    by apply bool_decide_eq_true in Hmax. }
  set (st2 := step (λ a0, Ok (set_best_hm None a0))
                (step (assign_row set_best_fa _ best) (a, true))).
  assert (st2.2 = true →
          ∃ row : award_row,
            pickup_row start_week players_by_week free_agents_by_week teams_by_week
              curr_week best = Ok (Some row) ∧
            row_points row = round2 best.2 ∧
            st2.1 = set_best_hm None (set_best_fa [row] a)) as Hst2.
  { unfold st2, step, assign_row, Report.pickup_row. cbn [fst snd].
    rewrite Ht. unfold mbind, res_bind.
    destruct (resolve_name _ _ _ _ best.1.2) as [n|]; cbn; [|done].
    intros _. eexists. split; [reflexivity|]. by split. }
  clearbody st2.
  destruct (sorted by_points_desc (benched_fa _ _ _ fa_candidates))
    as [|hm tl] eqn:Hbench.
  - intros Hok. destruct (Hst2 Hok) as (row & Hrow & Hpts & Hst2').
    exists best, row. rewrite Hst2'. repeat split; try done.
  - destruct st2 as [a2 ok2]. unfold step. cbn [fst snd] in *.
    destruct ok2; [|done].
    destruct (Hst2 eq_refl) as (row & Hrow & Hpts & ->).
    assert (hm ∈ benched_fa bench_positions teams_by_week curr_week fa_candidates)
      as Hhm.
    { apply (elem_of_sorted by_points_desc). rewrite Hbench. left. }
    unfold assign_hm, mbind, res_bind.
    destruct (team_lookup teams_by_week curr_week hm.1.1) as [t'|]; cbn;
      [|intros _; exists best, row; repeat split; done].
    case_bool_decide as Hbeats; cbn;
      [|intros _; exists best, row; repeat split; done].
    destruct (resolve_name _ _ _ _ hm.1.2) as [n'|]; cbn; [|done].
    intros _. exists best, row. repeat split; try done.
    intros hm' [= <-]. exists hm. by repeat split.
Qed.

Lemma sorted_singleton {A} (le : A → A → bool) (x : A) : sorted le [x] = [x].
Proof. done. Qed.

(** C7, as amended.  The trade awards of the report week, when the week has
    at least one drop event and the award block runs to its end.  The rows
    of the trade table come from the events of the trades bucket, in order;
    an event with no received or no sent player gives no row.  The best
    trade is the first row by descending net points and the worst trade the
    first row by ascending net points: when there is exactly one row, that
    row is both the worst and the best trade, whatever the sign of its net
    points. *)
Theorem single_trade_row_is_best_and_worst (week_for_report : Z)
    (rows : list award_row) :
  curr_week = week_for_report →
  bucket "drops" ≠ [] →
  (run_transaction_awards start_week bench_positions players_by_week
     free_agents_by_week teams_by_week transactions_by_week curr_week
     week_for_report).2 = true →
  trade_rows_loop (bucket "trades") [] = Ok rows →
  let a := transaction_awards start_week bench_positions players_by_week
             free_agents_by_week teams_by_week transactions_by_week curr_week
             week_for_report in
  (∀ row : award_row, rows = [row] → worst_trades a = [row] ∧ best_trades a = [row]) ∧
  (rows ≠ [] →
   best_trades a = take 1 (sorted row_desc rows) ∧
   worst_trades a = take 1 (sorted row_asc (sorted row_desc rows))) ∧
  (∃ results : list (option award_row),
     Forall2 (λ tr r, trade_row tr = Ok r) (bucket "trades") results ∧
     rows = results ≫= option_list) ∧
  (∀ (tr : json) (row : award_row),
     str_list tr "players_received" = Ok [] ∨ str_list tr "players_sent" = Ok [] →
     trade_row tr ≠ Ok (Some row)).
Proof.
  intros Hweek Hdrops Hrun Hrows a. subst week_for_report.
  assert (rows ≠ [] →
          best_trades a = take 1 (sorted row_desc rows) ∧
          worst_trades a = take 1 (sorted row_asc (sorted row_desc rows))) as Hfields.
  { intros Hne. unfold a, transaction_awards.
    unfold run_transaction_awards in *.
    rewrite Z.eqb_refl in *.
    destruct (_ ≫= _) as [fa_candidates|]; [|done].
    destruct (drops_loop_completed fa_candidates (bucket "drops") []
                (no_awards, true) Hdrops Hrun) as [a0 Ha0].
    by eapply trade_awards_rows. }
  split; [|split; [done|split]].
  - intros row ->. destruct Hfields as [Hbest Hworst]; [done|].
    by rewrite Hbest, Hworst.
  - by apply trade_rows_loop_rows in Hrows.
  - intros tr row. apply trade_row_pick_only.
Qed.

(** C8, at the failing input: a week without a drop event.  The awards for
    the pickups are computed in the body of the loop over the drop events
    (lines 400-594), so that with no drop event in the week no award is
    assigned, whatever pickups were started or benched. *)
Theorem pickup_awards_need_a_drop (week_for_report : Z) :
  bucket "drops" = [] →
  transaction_awards start_week bench_positions players_by_week free_agents_by_week
    teams_by_week transactions_by_week curr_week week_for_report = no_awards.
Proof.
  intros Hdrops. unfold transaction_awards, run_transaction_awards.
  destruct (curr_week =? week_for_report); [|done].
  destruct (_ ≫= _) as [fa_candidates|]; [|done].
  by rewrite Hdrops.
Qed.

End award_facts.

Lemma single_trade_row_is_best_and_worst_witness :
  let a := Report.transaction_awards (H := Sample.builtins) 1 Sample.bench_positions
             Sample.players_by_week Sample.free_agents_by_week Sample.teams_by_week
             Sample.tx_with_drop 2 2 in
  let trade := {| Report.row_team := "Ten"; Report.row_manager := "Ann";
                  Report.row_detail := "Ada, Ben vs Cy";
                  Report.row_points := round2 (Qc_of_Z (-5)) |} in
  Report.worst_trades a = [trade] ∧ Report.best_trades a = [trade].
Proof.
  intros a trade.
  refine (proj1 (single_trade_row_is_best_and_worst (H := Sample.builtins) 1
                   Sample.bench_positions Sample.players_by_week
                   Sample.free_agents_by_week Sample.teams_by_week
                   Sample.tx_with_drop 2 2 [trade] _ _ _ _) trade _);
    try (vm_compute; reflexivity); done.
Defined.

(** C7, as stated, fails on the sample week: its only trade row has the net
    points -5, and it is in the best trades as well as in the worst. *)
Lemma negative_trade_row_is_best :
  let a := Report.transaction_awards (H := Sample.builtins) 1 Sample.bench_positions
             Sample.players_by_week Sample.free_agents_by_week Sample.teams_by_week
             Sample.tx_with_drop 2 2 in
  let trade := {| Report.row_team := "Ten"; Report.row_manager := "Ann";
                  Report.row_detail := "Ada, Ben vs Cy";
                  Report.row_points := round2 (Qc_of_Z (-5)) |} in
  Report.trade_rows_loop (H := Sample.builtins) 1 Sample.players_by_week
    Sample.free_agents_by_week Sample.teams_by_week 2
    (Report.bucket Sample.tx_with_drop 2 "trades") [] = Ok [trade] ∧
  (Report.row_points trade < 0)%Qc ∧
  ¬ (trade ∈ Report.worst_trades a ∧ trade ∉ Report.best_trades a).
Proof.
  intros a trade. split; [vm_compute; reflexivity|]. split; [by vm_compute|].
  intros [_ Hnot]. apply Hnot.
  assert (Report.best_trades a = [trade]) as -> by (vm_compute; reflexivity).
  left.
Qed.

Lemma pickup_awards_need_a_drop_witness :
  let a := Report.transaction_awards (H := Sample.builtins) 1 Sample.bench_positions
             Sample.players_by_week Sample.free_agents_by_week Sample.teams_by_week
             Sample.tx_no_drop 2 2 in
  Report.bucket Sample.tx_no_drop 2 "adds" = Sample.pickups ∧
  Report.started Sample.bench_positions Sample.teams_by_week 2
    ("10", "4", Q2Qc (25 # 2)) = true ∧
  Report.started Sample.bench_positions Sample.teams_by_week 2
    ("11", "5", Qc_of_Z 20) = false ∧
  a = Report.no_awards ∧
  Report.best_fa_pickups a = [] ∧ Report.best_fa_pickups_hm a = None.
Proof.
  intros a.
  assert (a = Report.no_awards) as Ha.
  { apply (pickup_awards_need_a_drop (H := Sample.builtins)). reflexivity. }
  split; [reflexivity|]. split; [reflexivity|]. split; [reflexivity|].
  split; [exact Ha|]. by rewrite Ha.
Defined.

(** * Further properties of the adapter and of the report *)

(** ** Week windows: the week that has started last *)

Section latest_week_facts.
Import WeekWindow.

Context (week_start_ts : gmap Z Z).

Lemma sorted_weeks_strict : StronglySorted Z.lt (sorted_weeks week_start_ts).
Proof.
  pose proof (sorted_weeks_ascending week_start_ts) as Hs.
  assert (NoDup (sorted_weeks week_start_ts)) as Hnd.
  { unfold sorted_weeks. rewrite sorted_perm. apply NoDup_elements. }
  induction Hs as [|w ws Hs IH Hall]; [constructor|].
  apply list.NoDup_cons in Hnd as [Hw Hnd]. constructor; [by apply IH|].
  apply list.Forall_forall. intros w' Hw'.
  rewrite list.Forall_forall in Hall. specialize (Hall w' Hw').
  assert (w ≠ w') by (intros ->; done). lia.
Qed.

Lemma last_cons_cons {A} (x y : A) (l : list A) : list.last (x :: y :: l) = list.last (y :: l).
Proof. done. Qed.

Lemma map_epoch_scan_latest (ws : list Z) (ts w : Z) :
  (∀ w w' s s' : Z, week_start_ts !! w = Some s → week_start_ts !! w' = Some s' →
     w < w' → s < s') →
  StronglySorted Z.lt ws →
  (∀ w', w' ∈ ws → is_Some (week_start_ts !! w')) →
  map_epoch_scan week_start_ts ws ts = Some w ↔
  w ∈ ws ∧ week_start_ts !!! w ≤ ts ∧
  (∀ w', w' ∈ ws → week_start_ts !!! w' ≤ ts → w' ≤ w) ∧
  (∀ l, list.last ws = Some l → ts ≤ week_start_ts !!! l + eight_days_ms).
Proof.
  intros Hgrow Hs Hdom.
  assert (∀ a b, a ∈ ws → b ∈ ws → a < b →
                 week_start_ts !!! a < week_start_ts !!! b) as Hmono.
  { intros a b Ha Hb Hab.
    destruct (Hdom a Ha) as [sa Hsa], (Hdom b Hb) as [sb Hsb].
    rewrite !lookup_total_alt, Hsa, Hsb. cbn. by eapply Hgrow. }
  clear Hdom Hgrow.
  induction Hs as [|h ws Hs IH Hall]; [cbn; split; [done|intros [H%elem_of_nil _]; done]|].
  rewrite list.Forall_forall in Hall.
  destruct ws as [|h' rest].
  - cbn. case_bool_decide as Hwin.
    + split.
      * intros [= <-]. split; [left|]. split; [lia|]. split.
        -- intros w' ->%list_elem_of_singleton _. lia.
        -- intros l [= <-]. lia.
      * intros (->%list_elem_of_singleton & _). done.
    + split; [done|]. intros (->%list_elem_of_singleton & H1 & _ & H3).
      specialize (H3 _ eq_refl). lia.
  - cbn [map_epoch_scan]. cbv zeta.
    assert (week_start_ts !!! h < week_start_ts !!! h') as Hhh'.
    { apply Hmono; [left|right; left|apply Hall; left]. }
    assert (∀ x, x ∈ h' :: rest → week_start_ts !!! h' ≤ week_start_ts !!! x) as Hge.
    { intros x [->|Hx]%elem_of_cons; [lia|].
      apply StronglySorted_inv in Hs as [_ Hall'].
      rewrite list.Forall_forall in Hall'. specialize (Hall' x Hx).
      apply Z.lt_le_incl, Hmono; [right; left|right; by right|done]. }
    assert (∀ l, list.last (h' :: rest) = Some l → l ∈ h' :: rest) as Hlast.
    { intros l Hl. rewrite last_lookup in Hl. by eapply list_elem_of_lookup_2. }
    rewrite last_cons_cons.
    case_bool_decide as Hwin.
    + split.
      * intros [= <-]. split; [left|]. split; [lia|]. split.
        -- intros w' [->|Hw']%elem_of_cons Hts; [lia|].
           specialize (Hge w' Hw'). lia.
        -- intros l Hl. specialize (Hge l (Hlast l Hl)).
           unfold eight_days_ms. lia.
      * intros ([->|Hw]%elem_of_cons & H1 & _); [done|].
        specialize (Hge w Hw). lia.
    + rewrite IH.
      2:{ intros a b Ha Hb. apply Hmono; by right. }
      split.
      * intros (Hw & H1 & H2 & H3). split; [by right|]. split; [done|]. split; [|done].
        intros w' [->|Hw']%elem_of_cons Hts; [|by apply H2].
        specialize (Hall w Hw). lia.
      * intros (Hw & H1 & H2 & H3).
        assert (week_start_ts !!! h' ≤ ts) as Hh'.
        { destruct (decide (week_start_ts !!! h ≤ ts)); [lia|].
          apply elem_of_cons in Hw as [->|Hw]; [lia|].
          specialize (Hge w Hw). lia. }
        assert (h' ≤ w) as Hle by (apply H2; [right; left|done]).
        split.
        { apply elem_of_cons in Hw as [->|Hw]; [|done].
          specialize (Hall h' ltac:(left)). lia. }
        split; [done|]. split; [|done].
        intros w' Hw'. apply H2. by right.
Qed.

Lemma sorted_last_max (ws : list Z) (l w : Z) :
  StronglySorted Z.lt ws → list.last ws = Some l → w ∈ ws → w ≤ l.
Proof.
  intros Hs. revert w. induction Hs as [|h ws Hs IH Hall]; [done|].
  rewrite list.Forall_forall in Hall.
  destruct ws as [|h' rest].
  - intros w [= <-] ->%list_elem_of_singleton. lia.
  - rewrite last_cons_cons. intros w Hl [->|Hw]%elem_of_cons; [|by apply IH].
    assert (l ∈ h' :: rest) as Hin.
    { rewrite last_lookup in Hl. by eapply list_elem_of_lookup_2. }
    specialize (Hall l Hin). lia.
Qed.

(** X1.  The week of a timestamp, when later weeks start later: [_map_epoch]
    answers the week that has started last at the timestamp, as long as the
    timestamp is at most eight days after the start of the last known week;
    before the first start and after those eight days it answers no week. *)
Theorem map_epoch_latest_started_week (ts w : Z) :
  (∀ w w' s s' : Z, week_start_ts !! w = Some s → week_start_ts !! w' = Some s' →
     w < w' → s < s') →
  _map_epoch week_start_ts ts = Some w ↔
  ∃ s : Z,
    week_start_ts !! w = Some s ∧ s ≤ ts ∧
    (∀ w' s' : Z, week_start_ts !! w' = Some s' → s' ≤ ts → w' ≤ w) ∧
    (∀ last s_last : Z,
       week_start_ts !! last = Some s_last →
       (∀ w' : Z, is_Some (week_start_ts !! w') → w' ≤ last) →
       ts ≤ s_last + 8 * 24 * 60 * 60 * 1000).
Proof.
  intros Hgrow. unfold _map_epoch.
  rewrite (map_epoch_scan_latest _ _ _ Hgrow sorted_weeks_strict).
  2:{ intros w' Hw'. by apply elem_of_sorted_weeks. }
  split.
  - intros (Hw & H1 & H2 & H3).
    apply elem_of_sorted_weeks in Hw as [s Hs]. exists s.
    rewrite lookup_total_alt, Hs in H1. cbn in H1.
    split; [done|]. split; [done|]. split.
    + intros w' s' Hs' Hts. apply H2; [apply elem_of_sorted_weeks; by eexists|].
      by rewrite lookup_total_alt, Hs'.
    + intros l sl Hl Hmax.
      destruct (list.last (sorted_weeks week_start_ts)) as [l'|] eqn:Hlast.
      * assert (l' ∈ sorted_weeks week_start_ts) as Hin.
        { rewrite last_lookup in Hlast. by eapply list_elem_of_lookup_2. }
        assert (l ≤ l').
        { eapply sorted_last_max; [apply sorted_weeks_strict|done|].
          apply elem_of_sorted_weeks. by eexists. }
        assert (l' ≤ l) by (by apply Hmax, elem_of_sorted_weeks).
        assert (l' = l) as -> by lia.
        specialize (H3 l eq_refl). rewrite lookup_total_alt, Hl in H3. cbn in H3.
        unfold eight_days_ms in H3. lia.
      * apply last_None in Hlast.
        assert (w ∈ sorted_weeks week_start_ts) as Hin
          by (apply elem_of_sorted_weeks; by eexists).
        rewrite Hlast in Hin. by apply elem_of_nil in Hin.
  - intros (s & Hs & H1 & H2 & H3).
    split; [apply elem_of_sorted_weeks; by eexists|].
    split; [by rewrite lookup_total_alt, Hs|]. split.
    + intros w' [s' Hs']%elem_of_sorted_weeks Hts. apply (H2 w' s' Hs').
      by rewrite lookup_total_alt, Hs' in Hts.
    + intros l Hlast.
      assert (l ∈ sorted_weeks week_start_ts) as Hin.
      { rewrite last_lookup in Hlast. by eapply list_elem_of_lookup_2. }
      pose proof Hin as [sl Hsl]%elem_of_sorted_weeks.
      rewrite lookup_total_alt, Hsl. cbn. unfold eight_days_ms.
      apply (H3 l sl Hsl). intros w' Hw'.
      eapply sorted_last_max; [apply sorted_weeks_strict|done|].
      by apply elem_of_sorted_weeks.
Qed.

End latest_week_facts.

Lemma map_epoch_latest_started_week_witness :
  WeekWindow._map_epoch Sample.three_week_starts 2500 = Some 2 ↔
  ∃ s : Z,
    Sample.three_week_starts !! 2 = Some s ∧ s ≤ 2500 ∧
    (∀ w' s' : Z, Sample.three_week_starts !! w' = Some s' → s' ≤ 2500 → w' ≤ 2) ∧
    (∀ last s_last : Z,
       Sample.three_week_starts !! last = Some s_last →
       (∀ w' : Z, is_Some (Sample.three_week_starts !! w') → w' ≤ last) →
       2500 ≤ s_last + 8 * 24 * 60 * 60 * 1000).
Proof.
  apply (map_epoch_latest_started_week Sample.three_week_starts 2500 2).
  intros w w' s s' Hw Hw' Hlt. unfold Sample.three_week_starts in *.
  repeat (rewrite lookup_insert_Some in Hw; destruct Hw as [[<- <-]|[? Hw]]);
  repeat (rewrite lookup_insert_Some in Hw'; destruct Hw' as [[<- <-]|[? Hw']]);
  try done; try lia.
Defined.

(** ** The cumulative median records as tallies *)

Section median_tally_facts.
Import Fleaflicker MedianTally.
Local Open Scope Qc_scope.

Context `{!Builtins}.











End median_tally_facts.


(** In the sample season team 10 (100.5 points against a median of 95.25)
    has one win and team 11 (90 points) one loss. *)
Example sample_median_records :
  (λ records : gmap string BaseRecord,
     ((λ r, (wins r, losses r, ties r)) <$> records !! "10",
      (λ r, (wins r, losses r, ties r)) <$> records !! "11")) <$>
  Fleaflicker.records_loop (H := Sample.builtins) Sample.scoreboard
    {["1" := Some (Q2Qc (381 # 4))]} [1; 2; 3] ∅
  = Ok (Some (1, 0, 0), Some (0, 1, 0)).
Proof. vm_compute. reflexivity. Qed.

(** ** Free-agent pickups: the started pickup comes first *)

Section pickup_facts.
Import Report.
Local Open Scope Qc_scope.

Context `{!Builtins}.
Context (start_week : Z) (bench_positions : list string).
Context (players_by_week : list (string * gmap (Z + string) BasePlayer)).
Context (free_agents_by_week : gmap string (gmap string BasePlayer)).
Context (teams_by_week : gmap string (gmap string BaseTeam)).
Context (curr_week : Z).

Local Abbreviation worst_fa_awards :=
  (worst_fa_awards start_week bench_positions players_by_week free_agents_by_week
     teams_by_week curr_week).
Local Abbreviation started_fa := (started_fa bench_positions teams_by_week curr_week).
Local Abbreviation benched_fa := (benched_fa bench_positions teams_by_week curr_week).
Local Abbreviation pickup_row :=
  (pickup_row start_week players_by_week free_agents_by_week teams_by_week curr_week).

Lemma by_points_asc_total (x y : candidate) :
  by_points_asc x y = true ∨ by_points_asc y x = true.
Proof. unfold by_points_asc. destruct (Qc_leb_total x.2 y.2); auto. Qed.

Lemma by_points_asc_trans (x y z : candidate) :
  by_points_asc x y = true → by_points_asc y z = true → by_points_asc x z = true.
Proof. unfold by_points_asc. intros Hxy Hyz. by eapply Qc_leb_trans. Qed.

(** One pass of lines 497-517 that raises nothing, when some pickup was
    started: the worst pickup is a started pickup with the fewest points
    among the started ones, and a mention is made only of a benched pickup
    with strictly fewer points. *)
Lemma started_pickup_is_worst (fa_candidates : list candidate) (a : awards) :
  started_fa fa_candidates ≠ [] →
  (worst_fa_awards fa_candidates (a, true)).2 = true →
  ∃ (worst : candidate) (row : award_row),
    worst ∈ started_fa fa_candidates ∧
    (∀ c, c ∈ started_fa fa_candidates → worst.2 ≤ c.2) ∧
    pickup_row worst = Ok (Some row) ∧
    row_points row = round2 worst.2 ∧
    worst_fa_pickups (worst_fa_awards fa_candidates (a, true)).1 = [row] ∧
    ∀ hm : mention,
      worst_fa_pickups_hm (worst_fa_awards fa_candidates (a, true)).1 = Some hm →
      ∃ c, c ∈ benched_fa fa_candidates ∧ c.2 < worst.2 ∧ hm_points hm = round2 c.2.
Proof.
  intros Hstarted. unfold Report.worst_fa_awards.
  destruct (sorted by_points_asc (started_fa fa_candidates))
    as [|worst rest] eqn:Hsort; [by apply sorted_nil_inv in Hsort|].
  destruct (sorted_head by_points_asc by_points_asc_total by_points_asc_trans
              _ _ _ Hsort) as [Hin Hmin].
  assert (is_Some (team_lookup teams_by_week curr_week worst.1.1)) as [t Ht].
  { apply (started_team_lookup bench_positions).
    unfold Report.started_fa in Hin. by apply list_elem_of_filter in Hin as [? _]. }
  assert (∀ c, c ∈ started_fa fa_candidates → worst.2 ≤ c.2) as Hmin'.
  { intros c Hc. specialize (Hmin c Hc). unfold by_points_asc, Qc_leb in Hmin.
    by apply bool_decide_eq_true in Hmin. }
  set (st2 := step (λ a0, Ok (set_worst_hm None a0))
                (step (assign_row set_worst_fa _ worst) (a, true))).
  assert (st2.2 = true →
          ∃ row : award_row,
            pickup_row worst = Ok (Some row) ∧
            row_points row = round2 worst.2 ∧
            st2.1 = set_worst_hm None (set_worst_fa [row] a)) as Hst2.
  { unfold st2, step, assign_row, Report.pickup_row. cbn [fst snd].
    rewrite Ht. unfold mbind, res_bind.
    destruct (resolve_name _ _ _ _ worst.1.2) as [n|]; cbn; [|done].
    intros _. eexists. split; [reflexivity|]. by split. }
  clearbody st2.
  destruct (sorted by_points_asc (benched_fa fa_candidates)) as [|hm tl] eqn:Hbench.
  - intros Hok. destruct (Hst2 Hok) as (row & Hrow & Hpts & Hst2').
    exists worst, row. rewrite Hst2'. repeat split; try done.
  - destruct st2 as [a2 ok2]. unfold step. cbn [fst snd] in *.
    destruct ok2; [|done].
    destruct (Hst2 eq_refl) as (row & Hrow & Hpts & ->).
    assert (hm ∈ benched_fa fa_candidates) as Hhm.
    { apply (elem_of_sorted by_points_asc). rewrite Hbench. left. }
    unfold assign_hm, mbind, res_bind.
    destruct (team_lookup teams_by_week curr_week hm.1.1) as [t'|]; cbn;
      [|intros _; exists worst, row; repeat split; done].
    case_bool_decide as Hbeats; cbn;
      [|intros _; exists worst, row; repeat split; done].
    destruct (resolve_name _ _ _ _ hm.1.2) as [n'|]; cbn; [|done].
    intros _. exists worst, row. repeat split; try done.
    intros hm' [= <-]. exists hm. by repeat split.
Qed.

End pickup_facts.

(** ** Free-agent candidates: players received in a trade are left out *)

Section candidate_facts.
Import Report.

Context `{!Builtins}.
Context (players_by_week : list (string * gmap (Z + string) BasePlayer)).
Context (curr_week : Z).

Local Abbreviation fa_candidates_loop :=
  (fa_candidates_loop players_by_week curr_week).
Local Abbreviation curr_players := (curr_players players_by_week curr_week).

(** A trade event of the week gives the player to the team. *)
Local Abbreviation traded_to trades tid pid :=
  (∃ (tr t : json) (rec_ids : list string),
     tr ∈ trades ∧ get tr "team_id" = Ok t ∧ py_str t = tid ∧
     str_list tr "players_received" = Ok rec_ids ∧ pid ∈ rec_ids).

Lemma trade_received_by_team_spec (trades : list json)
    (acc received : gmap string (gset string)) (tid pid : string) :
  trade_received_by_team trades acc = Ok received →
  pid ∈ default ∅ (received !! tid) ↔
  pid ∈ default ∅ (acc !! tid) ∨ traded_to trades tid pid.
Proof.
  revert acc. induction trades as [|tr trades IH]; intros acc.
  - intros [= <-]. split; [by left|].
    intros [?|(tr & ? & ? & Hin & _)]; [done|]. by apply elem_of_nil in Hin.
  - cbn [trade_received_by_team]. unfold mbind at 1 2, res_bind.
    destruct (get tr "team_id") as [t|] eqn:Ht; [|done].
    destruct (str_list tr "players_received") as [rec_ids|] eqn:Hids; [|done].
    intros Hrest. rewrite (IH _ Hrest). clear IH Hrest.
    destruct (decide (py_str t = tid)) as [<-|Hne].
    + rewrite lookup_insert_eq. cbn [default from_option id].
      rewrite elem_of_union, elem_of_list_to_set. split.
      * intros [[?|?]|(tr' & t' & ids & Hin & ?)].
        -- by left.
        -- right. exists tr, t, rec_ids. repeat split; try done. left.
        -- right. exists tr', t', ids. split; [by right|done].
      * intros [?|(tr' & t' & ids & [->|Hin]%elem_of_cons & Ht' & Heq & Hids' & Hpid)].
        -- by left; left.
        -- rewrite Ht in Ht'. injection Ht' as <-.
           rewrite Hids in Hids'. injection Hids' as <-. by left; right.
        -- right. by exists tr', t', ids.
    + rewrite lookup_insert_ne by done. split.
      * intros [?|(tr' & t' & ids & Hin & ?)]; [by left|].
        right. exists tr', t', ids. split; [by right|done].
      * intros [?|(tr' & t' & ids & [->|Hin]%elem_of_cons & Ht' & Heq & Hids' & Hpid)].
        -- by left.
        -- rewrite Ht in Ht'. by injection Ht' as <-.
        -- right. by exists tr', t', ids.
Qed.

Lemma fa_candidates_loop_spec (received : gmap string (gset string))
    (pickups : list json) (acc fa_candidates : list candidate) :
  fa_candidates_loop received pickups acc = Ok fa_candidates →
  ∃ added : list candidate,
    fa_candidates = acc ++ added ∧
    (∀ c, c ∈ added →
       (c.1.2 ∉ default ∅ (received !! c.1.1)) ∧
       ∃ (ev t p : json),
         ev ∈ pickups ∧ get ev "team_id" = Ok t ∧ get ev "player_id" = Ok p ∧
         c.1.1 = py_str t ∧ c.1.2 = py_str p ∧
         ∃ bp, lookup_player curr_players c.1.2 = Ok bp ∧
               c.2 = match bp with Some bp => points bp | None => 0%Qc end) ∧
    (∀ (ev t p : json),
       ev ∈ pickups → get ev "team_id" = Ok t → get ev "player_id" = Ok p →
       py_str p ∉ default ∅ (received !! py_str t) →
       ∃ pts : Qc, (py_str t, py_str p, pts) ∈ added).
Proof.
  revert acc. induction pickups as [|ev pickups IH]; intros acc.
  - intros [= <-]. exists []. rewrite app_nil_r. split; [done|]. split.
    + intros c Hc. by apply elem_of_nil in Hc.
    + intros ev t p Hev. by apply elem_of_nil in Hev.
  - cbn [Report.fa_candidates_loop]. unfold mbind at 1 2, res_bind.
    destruct (get ev "team_id") as [t|] eqn:Ht; [|done].
    destruct (get ev "player_id") as [p|] eqn:Hp; [|done].
    cbv zeta. case_bool_decide as Hexcl.
    + intros Hrest. destruct (IH _ Hrest) as (added & -> & Hsound & Hcomplete).
      exists added. split; [done|]. split.
      * intros c Hc. destruct (Hsound c Hc) as (Hnot & ev' & t' & p' & Hin & Hrest').
        split; [done|]. exists ev', t', p'. split; [by right|done].
      * intros ev' t' p' [->|Hin]%elem_of_cons Ht' Hp' Hnot; [|by eapply Hcomplete].
        rewrite Ht in Ht'. injection Ht' as <-.
        rewrite Hp in Hp'. by injection Hp' as <-.
    + unfold mbind, res_bind.
      destruct (lookup_player _ (py_str p)) as [bp|] eqn:Hbp; [|done].
      intros Hrest. destruct (IH _ Hrest) as (added & -> & Hsound & Hcomplete).
      eexists (_ :: added). split; [by rewrite <- app_assoc|]. split.
      * intros c [->|Hc]%elem_of_cons.
        -- cbn [fst snd]. split; [done|]. exists ev, t, p.
           split; [left|]. repeat split; try done. by exists bp.
        -- destruct (Hsound c Hc) as (Hnot & ev' & t' & p' & Hin & Hrest').
           split; [done|]. exists ev', t', p'. split; [by right|done].
      * intros ev' t' p' [->|Hin]%elem_of_cons Ht' Hp' Hnot.
        -- rewrite Ht in Ht'. injection Ht' as <-.
           rewrite Hp in Hp'. injection Hp' as <-. eexists. left.
        -- destruct (Hcomplete ev' t' p' Hin Ht' Hp' Hnot) as [pts Hpts].
           exists pts. by right.
Qed.

(** X6.  The free-agent candidates of the week (lines 383-398).  A pickup
    (an add or a claim) becomes a candidate unless a trade event of the week
    gives that player to that team: no candidate is a player that its team
    received in a trade, every other pickup is a candidate, and a candidate
    carries the points of the player found in the players of the week, or 0
    when there is none. *)
Theorem traded_players_are_no_pickups (trades pickups : list json)
    (received : gmap string (gset string)) (fa_candidates : list candidate) :
  trade_received_by_team trades ∅ = Ok received →
  fa_candidates_loop received pickups [] = Ok fa_candidates →
  (∀ c, c ∈ fa_candidates →
     (¬ traded_to trades c.1.1 c.1.2) ∧
     ∃ (ev t p : json),
       ev ∈ pickups ∧ get ev "team_id" = Ok t ∧ get ev "player_id" = Ok p ∧
       c.1.1 = py_str t ∧ c.1.2 = py_str p ∧
       ∃ bp, lookup_player curr_players c.1.2 = Ok bp ∧
             c.2 = match bp with Some bp => points bp | None => 0%Qc end) ∧
  (∀ (ev t p : json),
     ev ∈ pickups → get ev "team_id" = Ok t → get ev "player_id" = Ok p →
     ¬ traded_to trades (py_str t) (py_str p) →
     ∃ pts : Qc, (py_str t, py_str p, pts) ∈ fa_candidates).
Proof.
  intros Hreceived Hloop.
  apply fa_candidates_loop_spec in Hloop as (added & -> & Hsound & Hcomplete).
  rewrite app_nil_l.
  assert (∀ tid pid, pid ∈ default ∅ (received !! tid) ↔ traded_to trades tid pid)
    as Hspec.
  { intros tid pid. rewrite (trade_received_by_team_spec _ _ _ _ _ Hreceived).
    rewrite lookup_empty. cbn. split; [|by right].
    intros [Hin|?]; [|done]. by apply elem_of_empty in Hin. }
  split.
  - intros c Hc. destruct (Hsound c Hc) as [Hnot Hev]. split; [|done].
    by rewrite <- Hspec.
  - intros ev t p Hev Ht Hp Hnot. apply (Hcomplete ev t p Hev Ht Hp).
    by rewrite Hspec.
Qed.

End candidate_facts.

Lemma traded_players_are_no_pickups_witness :
  let trades := [Fleaflicker.trade_event "10" ["1"; "2"] ["3"] None (JInt 7)] in
  let pickups := Fleaflicker.move_event "10" (JStr "1") :: Sample.pickups in
  let traded_to (tid pid : string) :=
    ∃ (tr t : json) (rec_ids : list string),
      tr ∈ trades ∧ get tr "team_id" = Ok t ∧ py_str (H := Sample.builtins) t = tid ∧
      Report.str_list (H := Sample.builtins) tr "players_received" = Ok rec_ids ∧
      pid ∈ rec_ids in
  ∃ (received : gmap string (gset string)) (fa_candidates : list Report.candidate),
    Report.trade_received_by_team (H := Sample.builtins) trades ∅ = Ok received ∧
    Report.fa_candidates_loop (H := Sample.builtins) Sample.players_by_week 2
      received pickups [] = Ok fa_candidates ∧
    fa_candidates = [("10", "4", Q2Qc (25 # 2)); ("11", "5", Q2Qc 20)] ∧
    (∀ c, c ∈ fa_candidates →
       (¬ traded_to c.1.1 c.1.2) ∧
       ∃ (ev t p : json),
         ev ∈ pickups ∧ get ev "team_id" = Ok t ∧ get ev "player_id" = Ok p ∧
         c.1.1 = py_str (H := Sample.builtins) t ∧
         c.1.2 = py_str (H := Sample.builtins) p ∧
         ∃ bp, Report.lookup_player (H := Sample.builtins)
                 (Report.curr_players Sample.players_by_week 2) c.1.2 = Ok bp ∧
               c.2 = match bp with Some bp => points bp | None => 0%Qc end) ∧
    (∀ (ev t p : json),
       ev ∈ pickups → get ev "team_id" = Ok t → get ev "player_id" = Ok p →
       ¬ traded_to (py_str (H := Sample.builtins) t) (py_str (H := Sample.builtins) p) →
       ∃ pts : Qc,
         (py_str (H := Sample.builtins) t, py_str (H := Sample.builtins) p, pts)
         ∈ fa_candidates).
Proof.
  do 2 eexists. split; [vm_compute; reflexivity|].
  split; [vm_compute; reflexivity|]. split; [reflexivity|].
  eapply (traded_players_are_no_pickups (H := Sample.builtins) Sample.players_by_week 2
           [Fleaflicker.trade_event "10" ["1"; "2"] ["3"] None (JInt 7)]
           (Fleaflicker.move_event "10" (JStr "1") :: Sample.pickups));
    vm_compute; reflexivity.
Defined.

(** ** Drop awards: the lowest and the highest drop *)

Section drop_facts.
Import Report.
Local Open Scope Qc_scope.

Context `{!Builtins}.
Context (start_week : Z).
Context (players_by_week : list (string * gmap (Z + string) BasePlayer)).
Context (free_agents_by_week : gmap string (gmap string BasePlayer)).
Context (teams_by_week : gmap string (gmap string BaseTeam)).
Context (curr_week : Z).

Local Abbreviation drop_awards :=
  (drop_awards start_week players_by_week free_agents_by_week teams_by_week curr_week).
Local Abbreviation drop_row :=
  (drop_row start_week players_by_week free_agents_by_week teams_by_week curr_week).
Local Abbreviation resolve_name :=
  (resolve_name start_week players_by_week free_agents_by_week curr_week).
Local Abbreviation team_lookup := (team_lookup teams_by_week curr_week).

(** The row that a drop award shows for a candidate of a known team. *)
Local Abbreviation shown c rows :=
  (∃ n : string,
     resolve_name c.1.2 = Ok n ∧
     match team_lookup c.1.1 with
     | Some t => rows = [{| row_team := t.1; row_manager := t.2; row_detail := n;
                            row_points := round2 c.2 |}]
     | None => True
     end).

Lemma assign_drop_row (set : list award_row → awards → awards) (c : candidate)
    (st : awards * bool) :
  (step (assign_row set drop_row c) st).2 = true →
  st.2 = true ∧
  ∃ n : string,
    resolve_name c.1.2 = Ok n ∧
    (step (assign_row set drop_row c) st).1 =
    match team_lookup c.1.1 with
    | Some t => set [{| row_team := t.1; row_manager := t.2; row_detail := n;
                        row_points := round2 c.2 |}] st.1
    | None => st.1
    end.
Proof.
  destruct st as [a ok]. unfold step, assign_row, Report.drop_row. cbn [fst snd].
  destruct ok; [|done]. unfold mbind, res_bind.
  destruct (resolve_name c.1.2) as [n|]; [|done]. cbn.
  intros _. split; [done|]. exists n. split; [done|].
  by destruct (team_lookup c.1.1).
Qed.

Lemma sorted_points_desc (l : list candidate) :
  StronglySorted (λ x y, y.2 ≤ x.2) (sorted by_points_desc l).
Proof.
  pose proof (sorted_sorted by_points_desc by_points_desc_total by_points_desc_trans l)
    as Hs.
  induction Hs as [|x l' Hs IH Hall]; constructor; [done|].
  eapply List.Forall_impl; [|exact Hall]. intros c Hc. cbn in Hc.
  unfold by_points_desc, Qc_leb in Hc. by apply bool_decide_eq_true in Hc.
Qed.

(** One pass of lines 519-534 over at least one candidate that raises
    nothing: the best drop is a candidate with the fewest points and the
    worst drop one with the most points; each is shown as one row with the
    points rounded to two decimals when its team is a team of the week, and
    leaves the award as it was otherwise.  The candidates are left in
    descending order. *)
Lemma drop_awards_extremes (drop_candidates : list candidate) (a : awards) :
  drop_candidates ≠ [] →
  (drop_awards drop_candidates (a, true)).2.2 = true →
  ∃ lowest highest : candidate,
    lowest ∈ drop_candidates ∧ highest ∈ drop_candidates ∧
    (∀ c, c ∈ drop_candidates → lowest.2 ≤ c.2 ∧ c.2 ≤ highest.2) ∧
    let a' := (drop_awards drop_candidates (a, true)).2.1 in
    shown lowest (best_drops a') ∧
    (team_lookup lowest.1.1 = None → best_drops a' = best_drops a) ∧
    shown highest (worst_drops a') ∧
    (team_lookup highest.1.1 = None → worst_drops a' = worst_drops a) ∧
    (drop_awards drop_candidates (a, true)).1 ≡ₚ drop_candidates ∧
    StronglySorted (λ x y, y.2 ≤ x.2) (drop_awards drop_candidates (a, true)).1.
Proof.
  intros Hne. unfold Report.drop_awards. cbv zeta. cbn [fst snd].
  destruct (sorted by_points_asc drop_candidates) as [|lowest rest] eqn:Hasc;
    [by apply sorted_nil_inv in Hasc|].
  destruct (sorted_head by_points_asc by_points_asc_total by_points_asc_trans
              _ _ _ Hasc) as [Hlo Hmin].
  destruct (sorted by_points_desc (lowest :: rest)) as [|highest rest'] eqn:Hdesc;
    [by apply sorted_nil_inv in Hdesc|].
  destruct (sorted_head by_points_desc by_points_desc_total by_points_desc_trans
              _ _ _ Hdesc) as [Hhi Hmax].
  assert (lowest :: rest ≡ₚ drop_candidates) as Hperm
    by (rewrite <- Hasc; apply sorted_perm).
  intros Hok.
  apply assign_drop_row in Hok as (Hok1 & n2 & Hn2 & Hst2).
  apply assign_drop_row in Hok1 as (_ & n1 & Hn1 & Hst1).
  cbn [fst] in Hst1. rewrite Hst2, Hst1. clear Hst1 Hst2.
  exists lowest, highest. split; [done|].
  split; [by rewrite <- Hperm|]. split.
  { intros c Hc. split.
    - specialize (Hmin c Hc). unfold by_points_asc, Qc_leb in Hmin.
      by apply bool_decide_eq_true in Hmin.
    - rewrite <- Hperm in Hc. specialize (Hmax c Hc).
      unfold by_points_desc, Qc_leb in Hmax. by apply bool_decide_eq_true in Hmax. }
  split; [exists n1; split; [done|]|].
  { by destruct (team_lookup lowest.1.1), (team_lookup highest.1.1). }
  split.
  { intros Hnone. rewrite Hnone. by destruct (team_lookup highest.1.1). }
  split; [exists n2; split; [done|]|].
  { by destruct (team_lookup lowest.1.1), (team_lookup highest.1.1). }
  split.
  { intros Hnone. rewrite Hnone. by destruct (team_lookup lowest.1.1). }
  split.
  { rewrite <- Hperm, <- Hdesc. apply sorted_perm. }
  rewrite <- Hdesc. apply sorted_points_desc.
Qed.

End drop_facts.


(** ** Two-team trades: what one team gains the other loses *)

Section trade_net_facts.
Import Fleaflicker Report.
Local Open Scope Qc_scope.

Context `{!Builtins}.
Context (start_week : Z).
Context (players_by_week : list (string * gmap (Z + string) BasePlayer)).
Context (free_agents_by_week : gmap string (gmap string BasePlayer)).
Context (teams_by_week : gmap string (gmap string BaseTeam)).
Context (curr_week : Z).

Local Abbreviation trade_row :=
  (trade_row start_week players_by_week free_agents_by_week teams_by_week curr_week).
Local Abbreviation found_points := (found_points players_by_week curr_week).





End trade_net_facts.


(** ** The awards of the run: what the last pass of the award block leaves *)

Section run_award_facts.
Import Report.
Local Open Scope Qc_scope.

Context `{!Builtins}.
Context (start_week : Z) (bench_positions : list string).
Context (players_by_week : list (string * gmap (Z + string) BasePlayer)).
Context (free_agents_by_week : gmap string (gmap string BasePlayer)).
Context (teams_by_week : gmap string (gmap string BaseTeam)).
Context (transactions_by_week : gmap string (gmap string (list json))).
Context (curr_week : Z).

Local Abbreviation best_fa_awards :=
  (best_fa_awards start_week bench_positions players_by_week free_agents_by_week
     teams_by_week curr_week).
Local Abbreviation worst_fa_awards :=
  (worst_fa_awards start_week bench_positions players_by_week free_agents_by_week
     teams_by_week curr_week).
Local Abbreviation drop_awards :=
  (drop_awards start_week players_by_week free_agents_by_week teams_by_week curr_week).
Local Abbreviation trade_awards :=
  (trade_awards start_week players_by_week free_agents_by_week teams_by_week
     transactions_by_week curr_week).
Local Abbreviation awards_block :=
  (awards_block start_week bench_positions players_by_week free_agents_by_week
     teams_by_week transactions_by_week curr_week).
Local Abbreviation drops_loop :=
  (drops_loop start_week bench_positions players_by_week free_agents_by_week
     teams_by_week transactions_by_week curr_week).
Local Abbreviation drop_candidate :=
  (drop_candidate players_by_week free_agents_by_week curr_week).
Local Abbreviation bucket := (bucket transactions_by_week curr_week).
Local Abbreviation started_fa := (started_fa bench_positions teams_by_week curr_week).
Local Abbreviation benched_fa := (benched_fa bench_positions teams_by_week curr_week).
Local Abbreviation pickup_row :=
  (pickup_row start_week players_by_week free_agents_by_week teams_by_week curr_week).
Local Abbreviation resolve_name :=
  (resolve_name start_week players_by_week free_agents_by_week curr_week).
Local Abbreviation team_lookup := (team_lookup teams_by_week curr_week).
Local Abbreviation run_transaction_awards :=
  (run_transaction_awards start_week bench_positions players_by_week
     free_agents_by_week teams_by_week transactions_by_week curr_week).
Local Abbreviation transaction_awards :=
  (transaction_awards start_week bench_positions players_by_week
     free_agents_by_week teams_by_week transactions_by_week curr_week).

(** A part of the block that has completed was entered with no exception
    behind it, and left the attributes that [proj] reads as they were. *)
Local Abbreviation keeps proj st st' :=
  (st'.2 = true → st.2 = true ∧ proj st'.1 = proj st.1).

Lemma keeps_step {X} (proj : awards → X) (f : awards → res awards)
    (st : awards * bool) :
  (∀ a a', f a = Ok a' → proj a' = proj a) → keeps proj st (step f st).
Proof.
  intros Hf. destruct st as [a ok]. unfold step. cbn [fst snd].
  destruct ok; [|done]. destruct (f a) as [a'|] eqn:Ha; [|done].
  intros _. split; [done|]. by apply Hf.
Qed.

Lemma keeps_trans {X} (proj : awards → X) (st1 st2 st3 : awards * bool) :
  keeps proj st1 st2 → keeps proj st2 st3 → keeps proj st1 st3.
Proof.
  intros H12 H23 Hok. destruct (H23 Hok) as [Hok2 E23].
  destruct (H12 Hok2) as [Hok1 E12]. split; [done|]. by rewrite E23.
Qed.

Lemma assign_row_keeps {X} (proj : awards → X)
    (set : list award_row → awards → awards)
    (row : candidate → res (option award_row)) (c : candidate) (a a' : awards) :
  (∀ rows a, proj (set rows a) = proj a) →
  assign_row set row c a = Ok a' → proj a' = proj a.
Proof.
  intros Hset. unfold assign_row, mbind, res_bind.
  destruct (row c) as [[r|]|]; [| |done]; intros [= <-]; [apply Hset|done].
Qed.

Lemma assign_hm_keeps {X} (proj : awards → X)
    (set : option mention → awards → awards) (beats : bool) (hm : candidate)
    (a a' : awards) :
  (∀ m a, proj (set m a) = proj a) →
  assign_hm start_week players_by_week free_agents_by_week teams_by_week curr_week
    set beats hm a = Ok a' →
  proj a' = proj a.
Proof.
  intros Hset. unfold assign_hm, mbind, res_bind.
  destruct (team_lookup hm.1.1); [|by intros [= <-]].
  destruct beats; [|by intros [= <-]].
  destruct (resolve_name hm.1.2); [|done]. intros [= <-]. apply Hset.
Qed.

Lemma best_fa_awards_keeps {X} (proj : awards → X) (fa_candidates : list candidate)
    (st : awards * bool) :
  (∀ rows a, proj (set_best_fa rows a) = proj a) →
  (∀ m a, proj (set_best_hm m a) = proj a) →
  keeps proj st (best_fa_awards fa_candidates st).
Proof.
  intros Hrows Hhm. unfold Report.best_fa_awards.
  destruct (sorted by_points_desc (started_fa fa_candidates)) as [|best ?].
  - destruct (sorted by_points_desc (benched_fa fa_candidates)) as [|best ?];
      [done|].
    apply keeps_step. intros a a'. by apply assign_row_keeps.
  - assert (keeps proj st
              (step (λ a, Ok (set_best_hm None a))
                 (step (assign_row set_best_fa pickup_row best) st))) as Hst2.
    { eapply keeps_trans.
      - apply keeps_step. intros a a'. by apply assign_row_keeps.
      - apply keeps_step. intros a a' [= <-]. apply Hhm. }
    destruct (sorted by_points_desc (benched_fa fa_candidates)) as [|hm ?];
      [done|].
    eapply keeps_trans; [exact Hst2|].
    apply keeps_step. intros a a'. by apply assign_hm_keeps.
Qed.

Lemma worst_fa_awards_keeps {X} (proj : awards → X) (fa_candidates : list candidate)
    (st : awards * bool) :
  (∀ rows a, proj (set_worst_fa rows a) = proj a) →
  (∀ m a, proj (set_worst_hm m a) = proj a) →
  keeps proj st (worst_fa_awards fa_candidates st).
Proof.
  intros Hrows Hhm. unfold Report.worst_fa_awards.
  destruct (sorted by_points_asc (started_fa fa_candidates)) as [|worst ?].
  - destruct (sorted by_points_asc (benched_fa fa_candidates)) as [|worst ?];
      [done|].
    apply keeps_step. intros a a'. by apply assign_row_keeps.
  - assert (keeps proj st
              (step (λ a, Ok (set_worst_hm None a))
                 (step (assign_row set_worst_fa pickup_row worst) st))) as Hst2.
    { eapply keeps_trans.
      - apply keeps_step. intros a a'. by apply assign_row_keeps.
      - apply keeps_step. intros a a' [= <-]. apply Hhm. }
    destruct (sorted by_points_asc (benched_fa fa_candidates)) as [|hm ?];
      [done|].
    eapply keeps_trans; [exact Hst2|].
    apply keeps_step. intros a a'. by apply assign_hm_keeps.
Qed.

Lemma drop_awards_keeps {X} (proj : awards → X) (drop_candidates : list candidate)
    (st : awards * bool) :
  (∀ rows a, proj (set_best_drops rows a) = proj a) →
  (∀ rows a, proj (set_worst_drops rows a) = proj a) →
  keeps proj st (drop_awards drop_candidates st).2.
Proof.
  intros Hbest Hworst. unfold Report.drop_awards. cbv zeta. cbn [snd].
  set (st1 := match sorted by_points_asc drop_candidates with
              | [] => st
              | c :: _ => step (assign_row set_best_drops _ c) st
              end).
  assert (keeps proj st st1) as H1.
  { unfold st1. destruct (sorted by_points_asc drop_candidates); [done|].
    apply keeps_step. intros a a'. by apply assign_row_keeps. }
  eapply keeps_trans; [exact H1|]. clearbody st1.
  destruct (sorted by_points_desc (sorted by_points_asc drop_candidates)); [done|].
  apply keeps_step. intros a a'. by apply assign_row_keeps.
Qed.

Lemma trade_awards_keeps {X} (proj : awards → X) (st : awards * bool) :
  (∀ best worst a, proj (set_trades best worst a) = proj a) →
  keeps proj st (step trade_awards st).
Proof.
  intros Hset. apply keeps_step. intros a a'.
  unfold Report.trade_awards, mbind, res_bind.
  destruct (trade_rows_loop _ _ _ _ _ _ _) as [[|row rows]|]; [| |done];
    intros [= <-]; [done|apply Hset].
Qed.

Lemma drop_awards_candidates (drop_candidates : list candidate) (st : awards * bool) :
  (drop_awards drop_candidates st).1 ≡ₚ drop_candidates.
Proof. unfold Report.drop_awards. cbn [fst]. by rewrite !sorted_perm. Qed.

(** The parts of the award block, in the order in which they run. *)
Lemma awards_block_parts (fa_candidates drop_candidates : list candidate)
    (st : awards * bool) :
  let st1 := best_fa_awards fa_candidates st in
  let st2 := worst_fa_awards fa_candidates st1 in
  let out := drop_awards drop_candidates st2 in
  awards_block fa_candidates drop_candidates st = (out.1, step trade_awards out.2).
Proof.
  cbv zeta. unfold Report.awards_block.
  by destruct (drop_awards _ _).
Qed.

Lemma awards_block_state (fa_candidates drop_candidates : list candidate)
    (st : awards * bool) :
  (awards_block fa_candidates drop_candidates st).2
  = step trade_awards
      (drop_awards drop_candidates
         (worst_fa_awards fa_candidates (best_fa_awards fa_candidates st))).2.
Proof. by rewrite awards_block_parts. Qed.

Lemma awards_block_candidates (fa_candidates drop_candidates : list candidate)
    (st : awards * bool) :
  (awards_block fa_candidates drop_candidates st).1 ≡ₚ drop_candidates.
Proof. rewrite awards_block_parts. cbn [fst]. apply drop_awards_candidates. Qed.

(** A loop over at least one drop event that has completed ends with a pass
    of the award block that was entered with no exception behind it, over
    the candidates of all the drop events. *)
Lemma drops_loop_last_pass (fa_candidates : list candidate) (drops : list json)
    (drop_candidates : list candidate) (st : awards * bool) :
  drops ≠ [] →
  (drops_loop fa_candidates drops drop_candidates st).2 = true →
  ∃ (candidates before : list candidate) (a : awards),
    Forall2 (λ ev c, drop_candidate ev = Ok c) drops candidates ∧
    before ≡ₚ drop_candidates ++ candidates ∧
    drops_loop fa_candidates drops drop_candidates st
    = (awards_block fa_candidates before (a, true)).2.
Proof.
  revert drop_candidates st. induction drops as [|ev drops IH];
    intros drop_candidates st Hne; [done|].
  cbn [Report.drops_loop]. destruct st as [a ok]. cbn [fst snd].
  destruct ok; [|done].
  destruct (drop_candidate ev) as [c|] eqn:Hc; [|done].
  pose proof (awards_block_candidates fa_candidates (drop_candidates ++ [c]) (a, true))
    as Hperm.
  destruct (awards_block fa_candidates (drop_candidates ++ [c]) (a, true))
    as [dc st1] eqn:Hblock.
  cbn [fst] in Hperm.
  destruct drops as [|ev' drops].
  - cbn [Report.drops_loop]. intros _.
    exists [c], (drop_candidates ++ [c]), a. split; [by repeat constructor|].
    split; [done|]. by rewrite Hblock.
  - intros Hok. destruct (IH dc st1 ltac:(done) Hok) as (cs & before & a' & Hcs & Hb & E).
    exists (c :: cs), before, a'. split; [by constructor|]. split; [|done].
    rewrite Hb, Hperm, <- app_assoc. done.
Qed.

(** A run for the report week that has a drop event and has completed: the
    pickup candidates were computed, every drop event gave a candidate, and
    the awards are those of a last pass of the block, entered with no
    exception behind it, over the candidates of all the drop events. *)
Lemma run_last_pass (week_for_report : Z) :
  curr_week = week_for_report →
  bucket "drops" ≠ [] →
  (run_transaction_awards week_for_report).2 = true →
  ∃ (fa_candidates candidates before : list candidate) (a : awards),
    (received ← trade_received_by_team (bucket "trades") ∅;
     fa_candidates_loop players_by_week curr_week received
       (bucket "adds" ++ bucket "claims") []) = Ok fa_candidates ∧
    Forall2 (λ ev c, drop_candidate ev = Ok c) (bucket "drops") candidates ∧
    before ≡ₚ candidates ∧
    (awards_block fa_candidates before (a, true)).2.2 = true ∧
    transaction_awards week_for_report
    = (awards_block fa_candidates before (a, true)).2.1.
Proof.
  intros <- Hdrops Hrun.
  unfold Report.transaction_awards, Report.run_transaction_awards in *.
  rewrite Z.eqb_refl in *.
  destruct (received ← trade_received_by_team (bucket "trades") ∅;
            fa_candidates_loop players_by_week curr_week received
              (bucket "adds" ++ bucket "claims") []) as [fa_candidates|]; [|done].
  destruct (drops_loop_last_pass _ _ _ _ Hdrops Hrun)
    as (candidates & before & a & Hcs & Hb & E).
  exists fa_candidates, candidates, before, a. rewrite E in Hrun. rewrite E.
  by rewrite app_nil_l in Hb.
Qed.

Lemma run_pickup_candidates (received : gmap string (gset string))
    (fa_candidates fa_candidates' : list candidate) :
  trade_received_by_team (bucket "trades") ∅ = Ok received →
  fa_candidates_loop players_by_week curr_week received
    (bucket "adds" ++ bucket "claims") [] = Ok fa_candidates →
  (received ← trade_received_by_team (bucket "trades") ∅;
   fa_candidates_loop players_by_week curr_week received
     (bucket "adds" ++ bucket "claims") []) = Ok fa_candidates' →
  fa_candidates' = fa_candidates.
Proof.
  intros Hreceived Hloop. unfold mbind, res_bind. rewrite Hreceived, Hloop.
  by intros [= <-].
Qed.

(** X4.  The best free-agent pickup of the report (lines 400-495).  In the
    report week, when the week has a drop event, the award computation
    raises nothing and some pickup of the week (an add or a claim of a
    player that no trade of the week gave to the team) was started:
    [best_fa_pickups] is the one row of a started pickup with the most
    points among the started ones, its points rounded to two decimals, and a
    mention is made only of a benched pickup with strictly more points. *)
Theorem started_pickup_is_best_of_the_run (week_for_report : Z)
    (received : gmap string (gset string)) (fa_candidates : list candidate) :
  curr_week = week_for_report →
  bucket "drops" ≠ [] →
  (run_transaction_awards week_for_report).2 = true →
  trade_received_by_team (bucket "trades") ∅ = Ok received →
  fa_candidates_loop players_by_week curr_week received
    (bucket "adds" ++ bucket "claims") [] = Ok fa_candidates →
  started_fa fa_candidates ≠ [] →
  let a := transaction_awards week_for_report in
  ∃ (best : candidate) (row : award_row),
    best ∈ started_fa fa_candidates ∧
    (∀ c, c ∈ started_fa fa_candidates → c.2 ≤ best.2) ∧
    pickup_row best = Ok (Some row) ∧
    row_points row = round2 best.2 ∧
    best_fa_pickups a = [row] ∧
    ∀ hm : mention,
      best_fa_pickups_hm a = Some hm →
      ∃ c, c ∈ benched_fa fa_candidates ∧ best.2 < c.2 ∧ hm_points hm = round2 c.2.
Proof.
  intros Hweek Hdrops Hrun Hreceived Hloop Hstarted a.
  destruct (run_last_pass _ Hweek Hdrops Hrun)
    as (fa' & candidates & before & a0 & Hfa & _ & _ & Hok & E).
  apply (run_pickup_candidates _ _ _ Hreceived Hloop) in Hfa as ->.
  unfold a. rewrite E. clear E a.
  rewrite awards_block_state in Hok |- *.
  set (proj := λ a : awards, (best_fa_pickups a, best_fa_pickups_hm a)).
  set (st1 := best_fa_awards fa_candidates (a0, true)) in *.
  set (st2 := worst_fa_awards fa_candidates st1) in *.
  destruct (trade_awards_keeps proj (drop_awards before st2).2 ltac:(done) Hok)
    as [Hok3 E3].
  destruct (drop_awards_keeps proj before st2 ltac:(done) ltac:(done) Hok3)
    as [Hok2 E2].
  destruct (worst_fa_awards_keeps proj fa_candidates st1 ltac:(done) ltac:(done) Hok2)
    as [Hok1 E1].
  injection (eq_trans E3 (eq_trans E2 E1)) as Hrows Hhm.
  destruct (started_pickup_wins start_week bench_positions players_by_week
              free_agents_by_week teams_by_week curr_week fa_candidates a0
              Hstarted Hok1)
    as (best & row & Hin & Hmax & Hrow & Hpts & Hbest & Hmention).
  exists best, row. do 4 (split; [done|]).
  split; [exact (eq_trans Hrows Hbest)|].
  intros hm Hsome. apply Hmention. exact (eq_trans (eq_sym Hhm) Hsome).
Qed.

(** X5.  The worst free-agent pickup of the report (lines 400-517).  In the
    report week, when the week has a drop event, the award computation
    raises nothing and some pickup of the week (an add or a claim of a
    player that no trade of the week gave to the team) was started:
    [worst_fa_pickups] is the one row of a started pickup with the fewest
    points among the started ones, its points rounded to two decimals, and a
    mention is made only of a benched pickup with strictly fewer points.
    The drop and the trade awards that follow leave both as they are. *)
Theorem started_pickup_is_worst_of_the_run (week_for_report : Z)
    (received : gmap string (gset string)) (fa_candidates : list candidate) :
  curr_week = week_for_report →
  bucket "drops" ≠ [] →
  (run_transaction_awards week_for_report).2 = true →
  trade_received_by_team (bucket "trades") ∅ = Ok received →
  fa_candidates_loop players_by_week curr_week received
    (bucket "adds" ++ bucket "claims") [] = Ok fa_candidates →
  started_fa fa_candidates ≠ [] →
  let a := transaction_awards week_for_report in
  ∃ (worst : candidate) (row : award_row),
    worst ∈ started_fa fa_candidates ∧
    (∀ c, c ∈ started_fa fa_candidates → worst.2 ≤ c.2) ∧
    pickup_row worst = Ok (Some row) ∧
    row_points row = round2 worst.2 ∧
    worst_fa_pickups a = [row] ∧
    ∀ hm : mention,
      worst_fa_pickups_hm a = Some hm →
      ∃ c, c ∈ benched_fa fa_candidates ∧ c.2 < worst.2 ∧ hm_points hm = round2 c.2.
Proof.
  intros Hweek Hdrops Hrun Hreceived Hloop Hstarted a.
  destruct (run_last_pass _ Hweek Hdrops Hrun)
    as (fa' & candidates & before & a0 & Hfa & _ & _ & Hok & E).
  apply (run_pickup_candidates _ _ _ Hreceived Hloop) in Hfa as ->.
  unfold a. rewrite E. clear E a.
  rewrite awards_block_state in Hok |- *.
  set (proj := λ a : awards, (worst_fa_pickups a, worst_fa_pickups_hm a)).
  destruct (best_fa_awards fa_candidates (a0, true)) as [a1 ok1].
  destruct (trade_awards_keeps proj
              (drop_awards before (worst_fa_awards fa_candidates (a1, ok1))).2
              ltac:(done) Hok)
    as [Hok3 E3].
  destruct (drop_awards_keeps proj before (worst_fa_awards fa_candidates (a1, ok1))
              ltac:(done) ltac:(done) Hok3)
    as [Hok2 E2].
  injection (eq_trans E3 E2) as Hrows Hhm.
  destruct (worst_fa_awards_keeps (λ _, ()) fa_candidates (a1, ok1) ltac:(done)
              ltac:(done) Hok2) as [Hok1 _].
  cbn [snd] in Hok1. subst ok1.
  destruct (started_pickup_is_worst start_week bench_positions players_by_week
              free_agents_by_week teams_by_week curr_week fa_candidates a1
              Hstarted Hok2)
    as (worst & row & Hin & Hmin & Hrow & Hpts & Hworst & Hmention).
  exists worst, row. do 4 (split; [done|]).
  split; [exact (eq_trans Hrows Hworst)|].
  intros hm Hsome. apply Hmention. exact (eq_trans (eq_sym Hhm) Hsome).
Qed.

(** X7.  The drop awards of the report (lines 400-411 and 519-534).  In
    the report week, when the week has a drop event and the award
    computation raises nothing, every drop event of the week gives a
    candidate; [best_drops] is the one row of a candidate with the fewest
    points among them and [worst_drops] the one row of a candidate with the
    most points, the points rounded to two decimals, whenever the team of
    that candidate is a team of the week. *)
Theorem drop_awards_of_the_run (week_for_report : Z) :
  curr_week = week_for_report →
  bucket "drops" ≠ [] →
  (run_transaction_awards week_for_report).2 = true →
  let a := transaction_awards week_for_report in
  ∃ (candidates : list candidate) (lowest highest : candidate),
    Forall2 (λ ev c, drop_candidate ev = Ok c) (bucket "drops") candidates ∧
    lowest ∈ candidates ∧ highest ∈ candidates ∧
    (∀ c, c ∈ candidates → lowest.2 ≤ c.2 ∧ c.2 ≤ highest.2) ∧
    (∀ t, team_lookup lowest.1.1 = Some t →
       ∃ n : string,
         resolve_name lowest.1.2 = Ok n ∧
         best_drops a = [{| row_team := t.1; row_manager := t.2; row_detail := n;
                            row_points := round2 lowest.2 |}]) ∧
    (∀ t, team_lookup highest.1.1 = Some t →
       ∃ n : string,
         resolve_name highest.1.2 = Ok n ∧
         worst_drops a = [{| row_team := t.1; row_manager := t.2; row_detail := n;
                             row_points := round2 highest.2 |}]).
Proof.
  intros Hweek Hdrops Hrun a.
  destruct (run_last_pass _ Hweek Hdrops Hrun)
    as (fa_candidates & candidates & before & a0 & _ & Hcs & Hperm & Hok & E).
  unfold a. rewrite E. clear E a.
  rewrite awards_block_state in Hok |- *.
  set (proj := λ a : awards, (best_drops a, worst_drops a)).
  destruct (worst_fa_awards fa_candidates (best_fa_awards fa_candidates (a0, true)))
    as [a2 ok2].
  destruct (trade_awards_keeps proj (drop_awards before (a2, ok2)).2 ltac:(done) Hok)
    as [Hok3 Hproj].
  injection Hproj as Hbest Hworst.
  destruct (drop_awards_keeps (λ _, ()) before (a2, ok2) ltac:(done) ltac:(done) Hok3)
    as [Hok2 _].
  cbn [snd] in Hok2. subst ok2.
  assert (before ≠ []) as Hne.
  { intros ->. apply Permutation_nil_l in Hperm. subst candidates.
    destruct (bucket "drops"); [done|]. inversion Hcs. }
  pose proof (drop_awards_extremes start_week players_by_week free_agents_by_week
                teams_by_week curr_week before a2 Hne Hok3) as Hextremes.
  cbv zeta in Hextremes.
  destruct Hextremes
    as (lowest & highest & Hlo & Hhi & Hext & (n1 & Hn1 & Hrow1) & _
        & (n2 & Hn2 & Hrow2) & _).
  exists candidates, lowest, highest. split; [done|].
  split; [by rewrite <- Hperm|]. split; [by rewrite <- Hperm|].
  split; [intros c Hc; apply Hext; by rewrite Hperm|].
  split.
  - intros t Ht. rewrite Ht in Hrow1. exists n1. split; [done|].
    exact (eq_trans Hbest Hrow1).
  - intros t Ht. rewrite Ht in Hrow2. exists n2. split; [done|].
    exact (eq_trans Hworst Hrow2).
Qed.

End run_award_facts.

Lemma started_pickup_is_best_of_the_run_witness :
  let fa_candidates : list Report.candidate :=
    [("10", "4", Q2Qc (25 # 2)); ("11", "5", Q2Qc 20)] in
  let a := Report.transaction_awards (H := Sample.builtins) 1 Sample.bench_positions
             Sample.players_by_week Sample.free_agents_by_week Sample.teams_by_week
             Sample.tx_with_drop 2 2 in
  ∃ (best : Report.candidate) (row : Report.award_row),
    best ∈ Report.started_fa Sample.bench_positions Sample.teams_by_week 2 fa_candidates ∧
    (∀ c, c ∈ Report.started_fa Sample.bench_positions Sample.teams_by_week 2
                fa_candidates → (c.2 ≤ best.2)%Qc) ∧
    Report.pickup_row (H := Sample.builtins) 1 Sample.players_by_week
      Sample.free_agents_by_week Sample.teams_by_week 2 best = Ok (Some row) ∧
    Report.row_points row = round2 best.2 ∧
    Report.best_fa_pickups a = [row] ∧
    ∀ hm : Report.mention,
      Report.best_fa_pickups_hm a = Some hm →
      ∃ c, c ∈ Report.benched_fa Sample.bench_positions Sample.teams_by_week 2
                 fa_candidates ∧
           (best.2 < c.2)%Qc ∧ Report.hm_points hm = round2 c.2.
Proof.
  eapply (started_pickup_is_best_of_the_run (H := Sample.builtins) 1
            Sample.bench_positions Sample.players_by_week Sample.free_agents_by_week
            Sample.teams_by_week Sample.tx_with_drop 2 2).
  - reflexivity.
  - vm_compute. discriminate.
  - vm_compute. reflexivity.
  - vm_compute. reflexivity.
  - vm_compute. reflexivity.
  - vm_compute. discriminate.
Defined.

Lemma started_pickup_is_worst_of_the_run_witness :
  let fa_candidates : list Report.candidate :=
    [("10", "4", Q2Qc (25 # 2)); ("11", "5", Q2Qc 20)] in
  let a := Report.transaction_awards (H := Sample.builtins) 1 Sample.bench_positions
             Sample.players_by_week Sample.free_agents_by_week Sample.teams_by_week
             Sample.tx_with_drop 2 2 in
  ∃ (worst : Report.candidate) (row : Report.award_row),
    worst ∈ Report.started_fa Sample.bench_positions Sample.teams_by_week 2
              fa_candidates ∧
    (∀ c, c ∈ Report.started_fa Sample.bench_positions Sample.teams_by_week 2
                fa_candidates → (worst.2 ≤ c.2)%Qc) ∧
    Report.pickup_row (H := Sample.builtins) 1 Sample.players_by_week
      Sample.free_agents_by_week Sample.teams_by_week 2 worst = Ok (Some row) ∧
    Report.row_points row = round2 worst.2 ∧
    Report.worst_fa_pickups a = [row] ∧
    ∀ hm : Report.mention,
      Report.worst_fa_pickups_hm a = Some hm →
      ∃ c, c ∈ Report.benched_fa Sample.bench_positions Sample.teams_by_week 2
                 fa_candidates ∧
           (c.2 < worst.2)%Qc ∧ Report.hm_points hm = round2 c.2.
Proof.
  eapply (started_pickup_is_worst_of_the_run (H := Sample.builtins) 1
            Sample.bench_positions Sample.players_by_week Sample.free_agents_by_week
            Sample.teams_by_week Sample.tx_with_drop 2 2).
  - reflexivity.
  - vm_compute. discriminate.
  - vm_compute. reflexivity.
  - vm_compute. reflexivity.
  - vm_compute. reflexivity.
  - vm_compute. discriminate.
Defined.

Lemma drop_awards_of_the_run_witness :
  let a := Report.transaction_awards (H := Sample.builtins) 1 Sample.bench_positions
             Sample.players_by_week Sample.free_agents_by_week Sample.teams_by_week
             Sample.tx_with_drop 2 2 in
  ∃ (candidates : list Report.candidate) (lowest highest : Report.candidate),
    Forall2 (λ ev c, Report.drop_candidate (H := Sample.builtins) Sample.players_by_week
                       Sample.free_agents_by_week 2 ev = Ok c)
      (Report.bucket Sample.tx_with_drop 2 "drops") candidates ∧
    lowest ∈ candidates ∧ highest ∈ candidates ∧
    (∀ c, c ∈ candidates → (lowest.2 ≤ c.2)%Qc ∧ (c.2 ≤ highest.2)%Qc) ∧
    (∀ t, Report.team_lookup Sample.teams_by_week 2 lowest.1.1 = Some t →
       ∃ n : string,
         Report.resolve_name (H := Sample.builtins) 1 Sample.players_by_week
           Sample.free_agents_by_week 2 lowest.1.2 = Ok n ∧
         Report.best_drops a =
           [{| Report.row_team := t.1; Report.row_manager := t.2;
               Report.row_detail := n; Report.row_points := round2 lowest.2 |}]) ∧
    (∀ t, Report.team_lookup Sample.teams_by_week 2 highest.1.1 = Some t →
       ∃ n : string,
         Report.resolve_name (H := Sample.builtins) 1 Sample.players_by_week
           Sample.free_agents_by_week 2 highest.1.2 = Ok n ∧
         Report.worst_drops a =
           [{| Report.row_team := t.1; Report.row_manager := t.2;
               Report.row_detail := n; Report.row_points := round2 highest.2 |}]).
Proof.
  apply (drop_awards_of_the_run (H := Sample.builtins) 1 Sample.bench_positions
           Sample.players_by_week Sample.free_agents_by_week Sample.teams_by_week
           Sample.tx_with_drop 2 2).
  - reflexivity.
  - vm_compute. discriminate.
  - vm_compute. reflexivity.
Defined.

(** In the sample week the one drop, of the free agent Dee by team 10 with
    3 points, is both the best and the worst drop, and the started pickup
    of team 10 is also the worst pickup, with no mention. *)
Example sample_drop_awards :
  let a := Report.transaction_awards (H := Sample.builtins) 1 Sample.bench_positions
             Sample.players_by_week Sample.free_agents_by_week Sample.teams_by_week
             Sample.tx_with_drop 2 2 in
  let drop := {| Report.row_team := "Ten"; Report.row_manager := "Ann";
                 Report.row_detail := "Dee"; Report.row_points := round2 (Q2Qc 3) |} in
  Report.best_drops a = [drop] ∧ Report.worst_drops a = [drop] ∧
  Report.worst_fa_pickups a =
    [{| Report.row_team := "Ten"; Report.row_manager := "Ann";
        Report.row_detail := "Pat"; Report.row_points := round2 (Q2Qc (25 # 2)) |}] ∧
  Report.worst_fa_pickups_hm a = None.
Proof. vm_compute. repeat split. Qed.
